(** * Runner base class of the game launcher: install / launch lifecycle

    A shallow embedding of [lutris/runners/runner.py] (class [Runner]) and
    the properties of its pre-launch check, run sequence, version
    resolution, environment construction and archive extraction.

    Python dictionaries are finite maps ([gmap]), Python sets are finite
    sets ([gset]), exceptions are values of [exn] carried by [Raise], and
    every method with a side effect is a function from a [World] (file
    system, log, launched processes, dialogs) to an outcome and a new
    [World]. *)

From Stdlib Require Import String Ascii List Bool.
From stdpp Require Import base option list gmap strings fin_maps fin_sets.

Open Scope string_scope.

(** ** Strings: the [str] and [os.path] operations the class uses *)

Module Str.

(** [s.endswith(suf)] *)
Fixpoint endswith (s suf : string) : bool :=
  if String.eqb s suf then true
  else match s with
       | EmptyString => false
       | String _ s' => endswith s' suf
       end.

(** [s.startswith(pre)] *)
Definition startswith (s pre : string) : bool := String.prefix pre s.

(** [sub in s] on strings. *)
Fixpoint contains (s sub : string) : bool :=
  if String.prefix sub s then true
  else match s with
       | EmptyString => false
       | String _ s' => contains s' sub
       end.

(** Position of the last ["-"]: the pieces before and after it. *)
Fixpoint rsplit_last (s : string) : option (string * string) :=
  match s with
  | EmptyString => None
  | String c s' =>
      match rsplit_last s' with
      | Some (a, b) => Some (String c a, b)
      | None => if Ascii.eqb c "-" then Some (EmptyString, s') else None
      end
  end.

(** [s.rsplit("-", 1)]: two pieces when there is a ["-"], else [[s]]. *)
Definition rsplit_dash (s : string) : list string :=
  match rsplit_last s with
  | Some (a, b) => [a; b]
  | None => [s]
  end.

(** No ["-"] occurs in [s]. *)
Fixpoint no_dash (s : string) : bool :=
  match s with
  | EmptyString => true
  | String c s' => negb (Ascii.eqb c "-") && no_dash s'
  end.

(** Truth value of an optional string: [None] and [""] are false. *)
Definition truthy (o : option string) : bool :=
  match o with
  | Some s => negb (String.eqb s "")
  | None => false
  end.

(** [str(x)] of an optional string, as [str.format] and [%s] print it. *)
Definition show (o : option string) : string :=
  match o with
  | Some s => s
  | None => "None"
  end.

End Str.

Module Path.

(** [os.path.join(a, b)] on POSIX, for two components. *)
Definition join (a b : string) : string :=
  if Str.startswith b "/" then b
  else if String.eqb a "" || Str.endswith a "/" then a +:+ b
       else a +:+ "/" +:+ b.

(** The pieces before and after the last ["/"], separator included in
    the first. *)
Fixpoint split_last_slash (s : string) : string * string :=
  match s with
  | EmptyString => (EmptyString, EmptyString)
  | String c s' =>
      let '(h, t) := split_last_slash s' in
      if String.eqb h "" then
        if Ascii.eqb c "/" then ("/", t) else (EmptyString, String c t)
      else (String c h, t)
  end.

(** [os.path.basename(p)]: what follows the last ["/"]. *)
Definition basename (p : string) : string := snd (split_last_slash p).

End Path.

(** ** Exceptions and outcomes *)

#[warnings="-register-all"]
Inductive exn : Type :=
| ValueError (msg : string)
| RuntimeError (msg : string)
| TypeError (msg : string)
| HTTPError (msg : string)
| ExtractFailure (msg : string)
| FileNotFoundError (path : string)
| FileExistsError (path : string)
| IsADirectoryError (path : string)
| UnavailableLibrariesError (libs : gset string) (arch : option string)
| RunnerInstallationError (message : string) (cause : option exn).

Inductive outcome (A : Type) : Type :=
| Ok (a : A)
| Raise (e : exn).
Arguments Ok {A} a.
Arguments Raise {A} e.

(** [str(ex)] for the exceptions whose text the class formats. *)
Definition exn_str (e : exn) : string :=
  match e with
  | ValueError m | RuntimeError m | TypeError m | HTTPError m
  | ExtractFailure m => m
  | FileNotFoundError p | FileExistsError p | IsADirectoryError p => p
  | UnavailableLibrariesError _ _ => "UnavailableLibrariesError"
  | RunnerInstallationError m _ => m
  end.

(** ** The system the runner lives in *)

(** One shared library found by [ldconfig]; [prelaunch] reads [arch]. *)
Record SharedLibrary := {
  lib_name : string;
  lib_path : string;
  lib_arch : string
}.

(** [LINUX_SYSTEM] *)
Record LinuxSystem := {
  shared_libraries : gmap string (list SharedLibrary);
  sys_arch : string;
  is_64_bit : bool
}.

(** [lutris.settings] *)
Record Settings := {
  RUNNER_DIR : string;
  CACHE_DIR : string;
  SHADER_CACHE_DIR : string;
  SITE_URL : string
}.

(** The class attributes of a runner ([self.name] is the class name). *)
Record RunnerClass := {
  name : string;
  runnable_alone : bool;
  require_libs : list string;
  runner_executable : option string;
  download_url : option string;
  arch : option string
}.

(** ** [Runner.prelaunch] (lines 254-268) *)

Section Prelaunch.
Context (LINUX_SYSTEM : LinuxSystem) (self : RunnerClass).

(** The body of the [for lib in set(self.require_libs)] loop. *)
Definition prelaunch_step (lib : string) (available_libs : gset string)
  : gset string :=
  match shared_libraries LINUX_SYSTEM !! lib with
  | Some instances =>
      if Str.truthy (arch self) then
        if bool_decide (Str.show (arch self) ∈ map lib_arch instances)
        then {[lib]} ∪ available_libs
        else available_libs
      else {[lib]} ∪ available_libs
  | None => available_libs
  end.

Definition prelaunch_available : gset string :=
  set_fold prelaunch_step ∅ (list_to_set (C := gset string) (require_libs self)).

Definition prelaunch_unavailable : gset string :=
  list_to_set (require_libs self) ∖ prelaunch_available.

Definition prelaunch : outcome unit :=
  if bool_decide (prelaunch_unavailable = ∅) then Ok tt
  else Raise (UnavailableLibrariesError prelaunch_unavailable (arch self)).

(** The spec's words: a library is available when the inventory has it
    and, for a runner with a declared architecture, one of its instances
    has that architecture. *)
Definition lib_available (lib : string) : Prop :=
  ∃ instances, shared_libraries LINUX_SYSTEM !! lib = Some instances ∧
    (∀ a, arch self = Some a → a ≠ "" →
          ∃ i, i ∈ instances ∧ lib_arch i = a).
End Prelaunch.

(** ** The world: file system, log, launcher, dialogs *)

Inductive node : Type :=
| File (contents : string) (executable : bool)
| Dir.

Inductive log_level := DEBUG | INFO | WARNING | ERROR.

Inductive launch_event : Type :=
| Constructed (command : list string) (runner : string)
    (env : gmap string string)
| Started (command : list string).

Inductive dialog_event : Type :=
| QuestionDialog (title : string)
| ErrorDialog (message : string).

Record World := {
  fs : gmap string node;
  log : list (log_level * string);
  launcher : list launch_event;
  dialogs : list dialog_event;
  wine_cache_clears : nat
}.

Definition with_fs (f : gmap string node → gmap string node) (w : World)
  : World :=
  {| fs := f (fs w); log := log w; launcher := launcher w;
     dialogs := dialogs w; wine_cache_clears := wine_cache_clears w |}.

Definition with_log (e : log_level * string) (w : World) : World :=
  {| fs := fs w; log := log w ++ [e]; launcher := launcher w;
     dialogs := dialogs w; wine_cache_clears := wine_cache_clears w |}.

Definition with_launch (e : launch_event) (w : World) : World :=
  {| fs := fs w; log := log w; launcher := launcher w ++ [e];
     dialogs := dialogs w; wine_cache_clears := wine_cache_clears w |}.

Definition with_dialog (e : dialog_event) (w : World) : World :=
  {| fs := fs w; log := log w; launcher := launcher w;
     dialogs := dialogs w ++ [e]; wine_cache_clears := wine_cache_clears w |}.

Definition with_cache_clear (w : World) : World :=
  {| fs := fs w; log := log w; launcher := launcher w;
     dialogs := dialogs w; wine_cache_clears := S (wine_cache_clears w) |}.

(** ** Methods with effects: world in, outcome and world out *)

Definition M (A : Type) : Type := World → outcome A * World.

Definition ret {A} (a : A) : M A := λ w, (Ok a, w).

Definition raise {A} (e : exn) : M A := λ w, (Raise e, w).

Definition bind {A B} (m : M A) (k : A → M B) : M B :=
  λ w, match m w with
       | (Ok a, w') => k a w'
       | (Raise e, w') => (Raise e, w')
       end.

(** [try: m except <handled> as ex: h ex]; [handler] returns [None] for
    an exception the clause does not name. *)
Definition try_except {A} (m : M A) (handler : exn → option (M A)) : M A :=
  λ w, match m w with
       | (Ok a, w') => (Ok a, w')
       | (Raise e, w') =>
           match handler e with
           | Some h => h w'
           | None => (Raise e, w')
           end
       end.

Definition lift {A} (o : outcome A) : M A := λ w, (o, w).

Declare Scope run_scope.
Delimit Scope run_scope with run.
Notation "'do' x <- m ; k" := (bind m (λ x, k))
  (at level 10, x name, m at level 100, k at level 200) : run_scope.
Notation "m ;; k" := (bind m (λ _, k))
  (at level 100, k at level 200, right associativity) : run_scope.
Open Scope run_scope.

Definition logger (lvl : log_level) (msg : string) : M unit :=
  λ w, (Ok tt, with_log (lvl, msg) w).

(** ** File system primitives ([os], [os.path], [lutris.util.system]) *)

Module Os.

Definition isfile (p : string) : M bool :=
  λ w, (Ok match fs w !! p with Some (File _ _) => true | _ => false end, w).

Definition isdir (p : string) : M bool :=
  λ w, (Ok match fs w !! p with Some Dir => true | _ => false end, w).

(** Modelled from the spec: [system.path_exists] of [lutris.util.system],
    which is not among the sources; "the path exists" (as a file or as a
    directory; the empty path names no node of a file system). *)
Definition path_exists (p : string) : M bool :=
  λ w, (Ok (bool_decide (is_Some (fs w !! p))), w).

(** [os.mkdir(p)] (the parent directory is taken to exist). *)
Definition mkdir (p : string) : M unit :=
  λ w, match fs w !! p with
       | Some _ => (Raise (FileExistsError p), w)
       | None => (Ok tt, with_fs (insert p Dir) w)
       end.

(** [open(p, "r").read()] *)
Definition read (p : string) : M string :=
  λ w, match fs w !! p with
       | Some (File c _) => (Ok c, w)
       | Some Dir => (Raise (IsADirectoryError p), w)
       | None => (Raise (FileNotFoundError p), w)
       end.

(** [os.remove(p)] *)
Definition remove (p : string) : M unit :=
  λ w, match fs w !! p with
       | Some (File _ _) => (Ok tt, with_fs (delete p) w)
       | Some Dir => (Raise (IsADirectoryError p), w)
       | None => (Raise (FileNotFoundError p), w)
       end.

(** Modelled from the spec: [system.make_executable], not among the
    sources; "marking the main executable executable". *)
Definition make_executable (p : string) : M unit :=
  λ w, (Ok tt,
        with_fs (alter (λ n, match n with
                             | File c _ => File c true
                             | Dir => Dir
                             end) p) w).

End Os.

(** ** Configuration, catalog and the external collaborators *)

(** The system options [get_env] and [use_runtime] read. String options
    are absent ([None]) or set; flags are booleans, false when absent. *)
Record SystemConfig := {
  sdl_gamecontrollerconfig : option string;
  sdl_video_fullscreen : option string;
  dri_prime : bool;
  prime : bool;
  pulse_latency : bool;
  vk_icd : option string;
  disable_runtime : bool;
  prefer_system_libs : option bool;
  env : option (gmap string string)
}.

(** A runner instance: its class and its cascaded configuration. *)
Record Runner := {
  cls :> RunnerClass;
  system_config : SystemConfig;
  runner_config : gmap string string
}.

(** One entry of the catalog's [versions] list: the dictionary with the
    keys ["version"], ["architecture"], ["url"] and ["default"]. *)
Record VersionDescriptor := {
  v_version : string;
  v_architecture : string;
  v_url : string;
  v_default : bool
}.

#[global] Instance VersionDescriptor_eq_dec : EqDecision VersionDescriptor.
Proof. solve_decision. Defined.

(** A value of the catalog's JSON object. *)
Inductive catalog_value : Type :=
| CatNull
| CatVersions (versions : list VersionDescriptor).

(** [runner_info.get("versions") or []] *)
Definition catalog_versions (runner_info : gmap string catalog_value)
  : list VersionDescriptor :=
  match runner_info !! "versions" with
  | Some (CatVersions l) => l
  | _ => []
  end.

(** What [downloader(url, dest, callback, callback_args)] is given: the
    continuation already holds its arguments. *)
Definition Downloader : Type := string → string → M unit → M unit.

(** The collaborators outside the class. *)
Record Externals := {
  (** [os.path.expanduser] *)
  expanduser : string → string;
  (** [os.environ] *)
  os_environ : gmap string string;
  (** [runtime.RUNTIME_DISABLED] *)
  RUNTIME_DISABLED : bool;
  (** [runtime.get_env(prefer_system_libs=...)] *)
  runtime_get_env : bool → gmap string string;
  (** [Request(url).get().json]: the decoded body, or an exception. *)
  request_get_json : string → outcome (option (gmap string catalog_value));
  (** [extract_archive(archive, dest, merge_single=...)] *)
  extract_archive : string → string → bool → M unit;
  (** [lutris.gui.dialogs.download.simple_downloader] *)
  simple_downloader : Downloader;
  (** The answer to the install question: [Gtk.ResponseType.YES] or not. *)
  dialog_result_yes : bool;
  (** ["%s" % self] for a runner: the class defines neither [__str__]
      nor [__repr__], so this is the interpreter's default text of the
      instance, with its class path and its address. *)
  runner_repr : Runner → string;
  (** ["%s" % f] for a downloader and for a callback that are not
      [None]: the interpreter's text of the callable. *)
  downloader_repr : Downloader → string;
  callback_repr : M unit → string
}.

(** ** The methods of [Runner] *)

Section Methods.
Context (settings : Settings) (LINUX_SYSTEM : LinuxSystem)
        (ext : Externals) (self : Runner).

(** [Runner.directory] *)
Definition directory : string := Path.join (RUNNER_DIR settings) (name self).

(** [Runner.shader_cache_dir]: created when it is not a directory. *)
Definition shader_cache_dir : M string :=
  let path := Path.join (SHADER_CACHE_DIR settings) (name self) in
  do d <- Os.isdir path;
  (if d then ret tt else Os.mkdir path) ;;
  ret path.

(** [Runner.nvidia_shader_cache_path] *)
Definition nvidia_shader_cache_path : M string := shader_cache_dir.

(** [Runner.get_executable] (lines 172-179) *)
Definition get_executable : M string :=
  do found <-
    match runner_config self !! "runner_executable" with
    | Some runner_executable =>
        do f <- Os.isfile runner_executable;
        ret (if f then Some runner_executable else None)
    | None => ret None
    end;
  match found with
  | Some runner_executable => ret runner_executable
  | None =>
      if negb (Str.truthy (runner_executable self)) then
        raise (ValueError ("runner_executable not set for " +:+ name self))
      else
        ret (Path.join (RUNNER_DIR settings)
                       (Str.show (runner_executable self)))
  end.

(** [Runner.is_installed] (lines 332-334) *)
Definition is_installed : M bool :=
  do exe <- get_executable;
  Os.path_exists exe.

(** [Runner.use_runtime] *)
Definition use_runtime : M bool :=
  if RUNTIME_DISABLED ext then
    logger INFO "Runtime disabled by environment" ;; ret false
  else if disable_runtime (system_config self) then
    logger INFO "Runtime disabled by system configuration" ;; ret false
  else ret true.

(** [Runner.get_runtime_env] *)
Definition get_runtime_env : gmap string string :=
  runtime_get_env ext
    (default true (prefer_system_libs (system_config self))).

(** [Runner.get_env] (lines 181-240). Each [env[k] = v] is an insert,
    [env.update(d)] lets [d] win. *)
Definition get_env (os_env disable_runtime : bool)
  : M (gmap string string) :=
  let cfg := system_config self in
  let env0 : gmap string string := if os_env then os_environ ext else ∅ in
  let env1 := <["__GL_SHADER_DISK_CACHE" := "1"]> env0 in
  do cache_path <- nvidia_shader_cache_path;
  let env2 := <["__GL_SHADER_DISK_CACHE_PATH" := cache_path]> env1 in
  do env3 <-
    (if Str.truthy (sdl_gamecontrollerconfig cfg) then
       let value := Str.show (sdl_gamecontrollerconfig cfg) in
       let path := expanduser ext value in
       do ex <- Os.path_exists path;
       do value' <- (if ex then Os.read path else ret value);
       ret (<["SDL_GAMECONTROLLERCONFIG" := value']> env2)
     else ret env2);
  let env4 :=
    if Str.truthy (sdl_video_fullscreen cfg)
       && negb (String.eqb (Str.show (sdl_video_fullscreen cfg)) "off")
    then <["SDL_VIDEO_FULLSCREEN_DISPLAY" :=
             Str.show (sdl_video_fullscreen cfg)]> env3
    else env3 in
  let env5 := if dri_prime cfg then <["DRI_PRIME" := "1"]> env4 else env4 in
  let env6 :=
    if prime cfg then
      <["__VK_LAYER_NV_optimus" := "NVIDIA_only"]>
        (<["__GLX_VENDOR_LIBRARY_NAME" := "nvidia"]>
           (<["__NV_PRIME_RENDER_OFFLOAD" := "1"]> env5))
    else env5 in
  let env7 :=
    if pulse_latency cfg then <["PULSE_LATENCY_MSEC" := "60"]> env6
    else env6 in
  let env8 :=
    if Str.truthy (vk_icd cfg)
    then <["VK_ICD_FILENAMES" := Str.show (vk_icd cfg)]> env7
    else env7 in
  do runtime_ld_library_path <-
    (if negb disable_runtime then
       do use <- use_runtime;
       ret (if use then get_runtime_env !! "LD_LIBRARY_PATH" else None)
     else ret None);
  let env9 :=
    if Str.truthy runtime_ld_library_path then
      let ld_library_path := env8 !! "LD_LIBRARY_PATH" in
      <["LD_LIBRARY_PATH" :=
          if Str.truthy ld_library_path
          then Str.show runtime_ld_library_path +:+ ":"
               +:+ Str.show ld_library_path
          else Str.show runtime_ld_library_path]> env8
    else env8 in
  ret (default ∅ (env cfg) ∪ env9).

(** [Runner.get_run_data]: the command and the environment. *)
Definition get_run_data : M (list string * gmap string string) :=
  do exe <- get_executable;
  do e <- get_env false false;
  ret ([exe], e).

(** [v["version"] == version] *)
Definition has_version (wanted : string) (v : VersionDescriptor) : Prop :=
  v_version v = wanted.

#[global] Instance has_version_dec wanted v : Decision (has_version wanted v).
Proof. unfold has_version. apply _. Defined.

(** The selection among the candidates, lines 371-387 of
    [get_runner_version]. *)
Definition pick_version (versions : list VersionDescriptor)
    (arch : string) : option VersionDescriptor :=
  let versions_for_arch :=
    filter (λ v, v_architecture v = arch) versions in
  if Nat.eqb (length versions_for_arch) 1 then head versions_for_arch
  else
    let early :=
      if Nat.ltb 1 (length versions_for_arch) then
        head (filter (λ v, v_default v = true) versions_for_arch)
      else if Nat.eqb (length versions) 1 && is_64_bit LINUX_SYSTEM then
        head versions
      else if Nat.ltb 1 (length versions) && is_64_bit LINUX_SYSTEM then
        head (filter (λ v, v_default v = true) versions)
      else None in
    match early with
    | Some v => Some v
    | None =>
        if Nat.leb 1 (length versions_for_arch) then head versions_for_arch
        else None
    end.

(** The requested version, lines 367-370 of [get_runner_version]: the
    candidates with that version and the architecture to look for. The
    unpacking [version, arch = ...] needs two pieces. *)
Definition filter_requested (version : option string)
    (versions : list VersionDescriptor) (arch : string)
  : outcome (list VersionDescriptor * string) :=
  if Str.truthy version then
    let version := Str.show version in
    if Str.endswith version "-i386" || Str.endswith version "-x86_64" then
      match Str.rsplit_dash version with
      | [version; arch] =>
          Ok (filter (has_version version) versions, arch)
      | _ => Raise (ValueError "not enough values to unpack")
      end
    else Ok (filter (has_version version) versions, arch)
  else Ok (versions, arch).

(** The address of the runner's catalog entry. *)
Definition catalog_url : string :=
  SITE_URL settings +:+ "/api/runners/" +:+ name self.

(** The line [get_runner_version] logs first. *)
Definition announcement (version : option string) : string :=
  "Getting runner information for " +:+ name self +:+
  (if Str.truthy version
   then " (version: " +:+ Str.show version +:+ ")" else "").

(** [Runner.get_runner_version] (lines 336-387) *)
Definition get_runner_version (version : option string)
  : M (option VersionDescriptor) :=
  logger INFO (announcement version) ;;
  do runner_info <-
    try_except
      (do runner_info <-
         lift (request_get_json ext catalog_url);
       (if bool_decide (default ∅ runner_info = ∅)
        then logger ERROR "Failed to get runner information"
        else ret tt) ;;
       ret runner_info)
      (λ ex, match ex with
             | HTTPError _ =>
                 Some (logger ERROR ("Unable to get runner information: "
                                     +:+ exn_str ex) ;;
                       ret None)
             | _ => None
             end);
  if bool_decide (default ∅ runner_info = ∅) then ret None
  else
    let versions := catalog_versions (default ∅ runner_info) in
    let arch := sys_arch LINUX_SYSTEM in
    do filtered <- lift (filter_requested version versions arch);
    ret (pick_version (fst filtered) (snd filtered)).

(** [Runner.extract] (lines 436-457), the continuation the downloader
    calls when the archive is in the cache. *)
Definition extract (archive dest : string) (merge_single : bool)
    (callback : option (M unit)) : M unit :=
  do present <- Os.path_exists archive;
  if negb present then
    raise (RunnerInstallationError ("Failed to extract " +:+ archive) None)
  else
    try_except
      (extract_archive ext archive dest merge_single)
      (λ ex, match ex with
             | ExtractFailure _ =>
                 Some (logger ERROR
                         ("Failed to extract the archive " +:+ archive
                          +:+ " file may be corrupt") ;;
                       raise (RunnerInstallationError
                                ("Failed to extract " +:+ archive +:+ ": "
                                 +:+ exn_str ex)
                                (Some ex)))
             | _ => None
             end) ;;
    Os.remove archive ;;
    (if String.eqb (name self) "wine" then
       logger DEBUG "Clearing wine version cache" ;;
       (λ w, (Ok tt, with_cache_clear w))
     else ret tt) ;;
    (if Str.truthy (runner_executable self) then
       let runner_executable :=
         Path.join (RUNNER_DIR settings)
                   (Str.show (runner_executable self)) in
       do f <- Os.isfile runner_executable;
       if f then Os.make_executable runner_executable else ret tt
     else ret tt) ;;
    match callback with
    | Some cb => cb
    | None => ret tt
    end.

(** [Runner.download_and_extract] (lines 419-434) *)
Definition download_and_extract (url : string) (dest : option string)
    (downloader : option Downloader) (merge_single : bool)
    (callback : option (M unit)) : M unit :=
  let tarball_filename := Path.basename url in
  let runner_archive := Path.join (CACHE_DIR settings) tarball_filename in
  let dest :=
    if Str.truthy dest then Str.show dest else RUNNER_DIR settings in
  match downloader with
  | Some downloader =>
      downloader url runner_archive
                 (extract runner_archive dest merge_single callback)
  | None => raise (TypeError "'NoneType' object is not callable")
  end.

(** [Runner.install] (lines 389-417) *)
(** The line [install] logs first: name, version, downloader and
    callback, each as ["%s"] prints it ([None] as ["None"]). *)
Definition install_announcement (version : option string)
    (downloader : option Downloader) (callback : option (M unit))
  : string :=
  "Installing " +:+ name self +:+ " (version=" +:+ Str.show version
  +:+ ", downloader="
  +:+ match downloader with
      | Some d => downloader_repr ext d
      | None => "None"
      end
  +:+ ", callback="
  +:+ match callback with
      | Some cb => callback_repr ext cb
      | None => "None"
      end
  +:+ ")".

Definition install (version : option string)
    (downloader : option Downloader) (callback : option (M unit))
  : M unit :=
  logger DEBUG (install_announcement version downloader callback) ;;
  if Str.truthy (download_url self) then
    download_and_extract (Str.show (download_url self)) (Some directory)
                         downloader false callback
  else
    do runner <- get_runner_version version;
    match runner with
    | None =>
        raise (RunnerInstallationError
                 ("Failed to retrieve " +:+ name self +:+ " ("
                  +:+ Str.show version +:+ ") information") None)
    | Some runner =>
        match downloader with
        | None =>
            raise (RuntimeError
                     ("Missing mandatory downloader for runner "
                      +:+ runner_repr ext self))
        | Some _ =>
            let opts1 : option bool * option string :=
              if Str.contains (name self) "wine" then
                (Some true,
                 Some (Path.join directory
                         (v_version runner +:+ "-"
                          +:+ v_architecture runner)))
              else (None, None) in
            let opts2 : option bool * option string :=
              if String.eqb (name self) "libretro" && Str.truthy version
              then (Some false,
                    Some (Path.join (RUNNER_DIR settings)
                                    "retroarch/cores"))
              else opts1 in
            download_and_extract (v_url runner) (snd opts2) downloader
                                 (default false (fst opts2)) callback
        end
    end.

(** [Runner.install_dialog] (lines 304-330); the base class has no
    [get_version]. *)
Definition install_dialog : M bool :=
  (λ w, (Ok tt, with_dialog (QuestionDialog "Required runner unavailable") w)) ;;
  if dialog_result_yes ext then
    try_except
      (install None (Some (simple_downloader ext)) None)
      (λ ex, match ex with
             | RunnerInstallationError message _ =>
                 Some (λ w, (Ok tt, with_dialog (ErrorDialog message) w))
             | _ => None
             end) ;;
    is_installed
  else ret false.

(** [MonitoredCommand(command, runner=self, env=env)] then [.start()]. *)
Definition MonitoredCommand (command : list string)
    (env : gmap string string) : M unit :=
  λ w, (Ok tt, with_launch (Constructed command (name self) env) w).

Definition MonitoredCommand_start (command : list string) : M unit :=
  λ w, (Ok tt, with_launch (Started command) w).

(** [Runner.run] (lines 276-293); [hasattr(self, "prelaunch")] holds
    for every runner, the base class defines it. *)
Definition run : M unit :=
  if negb (runnable_alone self) then ret tt
  else
    do installed <- is_installed;
    do go <-
      (if negb installed then
         do ok <- install_dialog;
         if negb ok then logger INFO "Runner install cancelled" ;; ret false
         else ret true
       else ret true);
    if negb go then ret tt
    else
      do command_data <- get_run_data;
      let command := fst command_data in
      let env := snd command_data in
      lift (prelaunch LINUX_SYSTEM self) ;;
      MonitoredCommand command env ;;
      MonitoredCommand_start command.
End Methods.

(** ** Frame conditions *)

(** [m] never touches the launcher. *)
Definition keeps_launcher {A} (m : M A) : Prop :=
  ∀ w, launcher (m w).2 = launcher w.

(** [m] reads the world and leaves it as it was. *)
Definition read_only {A} (m : M A) : Prop := ∀ w, (m w).2 = w.

(** ** The controller-mapping rule of [get_env], in the spec's words *)

(** "If the path exists as a file, the variable holds the file's
    contents; if the path does not exist, the variable holds the path
    string unchanged; if the option is unset, the variable is absent from
    the result." The option is set when [if sdl_gamecontrollerconfig:]
    takes it as true. *)
Definition sdl_rule_as_stated (settings : Settings) (ext : Externals)
    (self : Runner) (os_env disable_runtime : bool) (w : World) : Prop :=
  ∀ result w',
    get_env settings ext self os_env disable_runtime w = (Ok result, w') →
    let value := sdl_gamecontrollerconfig (system_config self) in
    let path := expanduser ext (Str.show value) in
    (Str.truthy value = true →
     ∀ c x, fs w !! path = Some (File c x) →
            result !! "SDL_GAMECONTROLLERCONFIG" = Some c)
    ∧ (Str.truthy value = true → fs w !! path = None →
       result !! "SDL_GAMECONTROLLERCONFIG" = Some (Str.show value))
    ∧ (Str.truthy value = false →
       result !! "SDL_GAMECONTROLLERCONFIG" = None).

(** The controller mapping in what [get_env] returned, if it returned. *)
Definition sdl_of (r : outcome (gmap string string) * World)
  : option (option string) :=
  match r.1 with
  | Ok result => Some (result !! "SDL_GAMECONTROLLERCONFIG")
  | Raise _ => None
  end.

(** The method returned. *)
Definition returned {A} (r : outcome A * World) : bool :=
  match r.1 with
  | Ok _ => true
  | Raise _ => false
  end.

(** ** A sample installation, used to evaluate the methods *)

Module Sample.

Definition settings : Settings :=
  {| RUNNER_DIR := "/runners"; CACHE_DIR := "/cache";
     SHADER_CACHE_DIR := "/shaders"; SITE_URL := "https://lutris.net" |}.

Definition lib (n a : string) : SharedLibrary :=
  {| lib_name := n; lib_path := "/usr/lib/" +:+ n; lib_arch := a |}.

(** A 64-bit system with [libGL] for both architectures and [libvulkan]
    for x86_64 only. *)
Definition linux : LinuxSystem :=
  {| shared_libraries :=
       <["libGL.so.1" := [lib "libGL.so.1" "x86_64"; lib "libGL.so.1" "i386"]]>
         (<["libvulkan.so.1" := [lib "libvulkan.so.1" "x86_64"]]> ∅);
     sys_arch := "x86_64"; is_64_bit := true |}.

Definition entry_x86_64 : VersionDescriptor :=
  {| v_version := "1.0"; v_architecture := "x86_64";
     v_url := "https://lutris.net/files/r-1.0-x86_64.tar.xz";
     v_default := true |}.

Definition entry_i386 : VersionDescriptor :=
  {| v_version := "1.0"; v_architecture := "i386";
     v_url := "https://lutris.net/files/r-1.0-i386.tar.xz";
     v_default := false |}.

Definition entry_arm : VersionDescriptor :=
  {| v_version := "2.0"; v_architecture := "armhf";
     v_url := "https://lutris.net/files/r-2.0-armhf.tar.xz";
     v_default := false |}.

Definition entry_x86_64_old : VersionDescriptor :=
  {| v_version := "0.9"; v_architecture := "x86_64";
     v_url := "https://lutris.net/files/r-0.9-x86_64.tar.xz";
     v_default := false |}.

(** The catalog of the spec's example. *)
Definition catalog : gmap string catalog_value :=
  {[ "versions" := CatVersions [entry_x86_64; entry_i386] ]}.

Definition catalog_of (l : list VersionDescriptor)
  : gmap string catalog_value :=
  {[ "versions" := CatVersions l ]}.

(** [~/x] is [/home/user/x], anything else is itself. *)
Definition expand_home (p : string) : string :=
  match p with
  | String "~" (String "/" rest) => "/home/user/" +:+ rest
  | _ => p
  end.

(** An extractor that unpacks into [dest], and one that finds the
    archive corrupt. *)
Definition extract_ok (archive dest : string) (merge_single : bool)
  : M unit :=
  λ w, (Ok tt, with_fs (insert dest Dir) w).

Definition extract_corrupt (archive dest : string) (merge_single : bool)
  : M unit :=
  raise (ExtractFailure "unexpected end of data").

(** A downloader that stores the archive and calls the continuation. *)
Definition store_then_call : Downloader :=
  λ url dest callback,
    (λ w, (Ok tt, with_fs (insert dest (File "archive bytes" false)) w)) ;;
    callback.

(** The default text of an instance of the class named [name r]. *)
Definition default_repr (r : Runner) : string :=
  "<lutris.runners." +:+ name r +:+ "." +:+ name r
  +:+ " object at 0x7f3a5c0d2e80>".

Definition externals
    (response : outcome (option (gmap string catalog_value)))
    (extractor : string → string → bool → M unit) : Externals :=
  {| expanduser := expand_home;
     os_environ := {[ "HOME" := "/home/user" ]};
     RUNTIME_DISABLED := false;
     runtime_get_env := λ _, {[ "LD_LIBRARY_PATH" := "/runtime/lib" ]};
     request_get_json := λ _, response;
     extract_archive := extractor;
     simple_downloader := store_then_call;
     dialog_result_yes := true;
     runner_repr := default_repr;
     downloader_repr := λ _, "<function simple_downloader at 0x7f3a5c1b4040>";
     callback_repr := λ _, "<function on_installed at 0x7f3a5c1b4160>" |}.

Definition no_options : SystemConfig :=
  {| sdl_gamecontrollerconfig := None; sdl_video_fullscreen := None;
     dri_prime := false; prime := false; pulse_latency := false;
     vk_icd := None; disable_runtime := false;
     prefer_system_libs := None; env := None |}.

Definition runner_class (libs : list string) (exe : option string)
    (a : option string) : RunnerClass :=
  {| name := "zdoom"; runnable_alone := true; require_libs := libs;
     runner_executable := exe; download_url := None; arch := a |}.

Definition runner (libs : list string) (exe : option string)
    (a : option string) (cfg : SystemConfig) : Runner :=
  {| cls := runner_class libs exe a; system_config := cfg;
     runner_config := ∅ |}.

Definition empty_world : World :=
  {| fs := ∅; log := []; launcher := []; dialogs := [];
     wine_cache_clears := 0 |}.

Definition world_with (files : gmap string node) : World :=
  {| fs := files; log := []; launcher := []; dialogs := [];
     wine_cache_clears := 0 |}.

End Sample.

(** Sample configurations for the controller-mapping rule. *)
Module SampleEnv.

(** The mapping file is set, and the user's own environment overrides
    name the same variable. *)
Definition overridden : SystemConfig :=
  {| sdl_gamecontrollerconfig := Some "~/pad.txt";
     sdl_video_fullscreen := None;
     dri_prime := false; prime := false; pulse_latency := false;
     vk_icd := None; disable_runtime := false;
     prefer_system_libs := None;
     env := Some {[ "SDL_GAMECONTROLLERCONFIG" := "from the user" ]} |}.

Definition mapping_set (p : string) : SystemConfig :=
  {| sdl_gamecontrollerconfig := Some p;
     sdl_video_fullscreen := None;
     dri_prime := false; prime := true; pulse_latency := false;
     vk_icd := None; disable_runtime := false;
     prefer_system_libs := None; env := None |}.

Definition files : gmap string node :=
  <["/home/user/pad.txt" := File "030000005e0400008e02,pad,a:b0" false]>
    (<["/shaders/zdoom" := Dir]> ∅).

(** A process environment that already carries the variable. *)
Definition externals_with_sdl : Externals :=
  {| expanduser := Sample.expand_home;
     os_environ := {[ "SDL_GAMECONTROLLERCONFIG" := "from the shell" ]};
     RUNTIME_DISABLED := true;
     runtime_get_env := λ _, ∅;
     request_get_json := λ _, Ok None;
     extract_archive := Sample.extract_ok;
     simple_downloader := Sample.store_then_call;
     dialog_result_yes := false;
     runner_repr := Sample.default_repr;
     downloader_repr := λ _, "<function simple_downloader at 0x7f3a5c1b4040>";
     callback_repr := λ _, "<function on_installed at 0x7f3a5c1b4160>" |}.

End SampleEnv.

(** Sample worlds and runners for launching and installing. *)
Module SampleRun.

(** The runner's executable is in place and so is its shader cache. *)
Definition installed : World :=
  Sample.world_with
    (<["/runners/zdoom/zdoom" := File "ELF" true]>
       (<["/shaders/zdoom" := Dir]> ∅)).

(** The downloaded archive is in the cache. *)
Definition downloaded : World :=
  Sample.world_with
    (<["/cache/zdoom.tar.xz" := File "archive bytes" false]> ∅).

Definition needs_missing_lib : Runner :=
  Sample.runner ["libGL.so.1"; "libmissing.so.7"] (Some "zdoom/zdoom")
                None Sample.no_options.

Definition needs_present_libs : Runner :=
  Sample.runner ["libGL.so.1"; "libvulkan.so.1"] (Some "zdoom/zdoom")
                None Sample.no_options.

End SampleRun.

(** A runner with a fixed download address. *)
Module SampleInstall.

Definition fixed_url : Runner :=
  {| cls := {| name := "zdoom"; runnable_alone := true;
               require_libs := []; runner_executable := Some "zdoom/zdoom";
               download_url := Some "https://lutris.net/files/zdoom.tar.xz";
               arch := None |};
     system_config := Sample.no_options;
     runner_config := ∅ |}.

End SampleInstall.

(** ** More sample data *)

Module SampleCatalog.

(** An i386 build flagged default. *)
Definition entry_i386_default : VersionDescriptor :=
  {| v_version := "1.1"; v_architecture := "i386";
     v_url := "https://lutris.net/files/r-1.1-i386.tar.xz";
     v_default := true |}.

(** A second build for a foreign architecture, flagged default. *)
Definition entry_arm_default : VersionDescriptor :=
  {| v_version := "2.1"; v_architecture := "armhf";
     v_url := "https://lutris.net/files/r-2.1-armhf.tar.xz";
     v_default := true |}.

(** An older i386 build, flagged default. *)
Definition entry_i386_old_default : VersionDescriptor :=
  {| v_version := "0.9"; v_architecture := "i386";
     v_url := "https://lutris.net/files/r-0.9-i386.tar.xz";
     v_default := true |}.

(** Two versions for i386, the older one default, and 1.0 for x86_64. *)
Definition two_versions : list VersionDescriptor :=
  [entry_i386_old_default; Sample.entry_x86_64; Sample.entry_i386].

(** A 32-bit system. *)
Definition linux32 : LinuxSystem :=
  {| shared_libraries := ∅; sys_arch := "i386"; is_64_bit := false |}.

Definition externals_for (l : list VersionDescriptor) : Externals :=
  Sample.externals (Ok (Some (Sample.catalog_of l))) Sample.extract_ok.

Definition plain_runner : Runner :=
  Sample.runner [] None None Sample.no_options.

End SampleCatalog.

(** Sample system options for the environment rules. *)
Module SampleOptions.

(** [dri_prime] is on and the user overrides the variable it sets. *)
Definition dri_overridden : SystemConfig :=
  {| sdl_gamecontrollerconfig := None; sdl_video_fullscreen := None;
     dri_prime := true; prime := false; pulse_latency := false;
     vk_icd := None; disable_runtime := false;
     prefer_system_libs := None;
     env := Some {[ "DRI_PRIME" := "0" ]} |}.

Definition fullscreen (s : string) : SystemConfig :=
  {| sdl_gamecontrollerconfig := None; sdl_video_fullscreen := Some s;
     dri_prime := false; prime := false; pulse_latency := false;
     vk_icd := None; disable_runtime := false;
     prefer_system_libs := None; env := None |}.

(** A process environment with a library path and a display. *)
Definition shell : Externals :=
  {| expanduser := Sample.expand_home;
     os_environ :=
       <["LD_LIBRARY_PATH" := "/opt/lib"]>
         (<["SDL_VIDEO_FULLSCREEN_DISPLAY" := "1"]>
            {[ "HOME" := "/home/user" ]});
     RUNTIME_DISABLED := false;
     runtime_get_env := λ _, {[ "LD_LIBRARY_PATH" := "/runtime/lib" ]};
     request_get_json := λ _, Ok None;
     extract_archive := Sample.extract_ok;
     simple_downloader := Sample.store_then_call;
     dialog_result_yes := false;
     runner_repr := Sample.default_repr;
     downloader_repr := λ _, "<function simple_downloader at 0x7f3a5c1b4040>";
     callback_repr := λ _, "<function on_installed at 0x7f3a5c1b4160>" |}.

Definition with_options (cfg : SystemConfig) : Runner :=
  Sample.runner [] None None cfg.

Definition world : World := Sample.world_with SampleEnv.files.

End SampleOptions.

(** A runner whose configuration names its own executable. *)
Module SampleCustom.

Definition custom : Runner :=
  {| cls := Sample.runner_class [] (Some "zdoom/zdoom") None;
     system_config := Sample.no_options;
     runner_config := {[ "runner_executable" := "/opt/zdoom/bin/zdoom" ]} |}.

Definition world : World :=
  Sample.world_with
    (<["/opt/zdoom/bin/zdoom" := File "ELF" true]>
       (<["/runners/zdoom/zdoom" := File "ELF" true]> ∅)).

End SampleCustom.

(** The wine runner, an extractor that consumes its archive, and a
    callback that leaves a trace. *)
Module SampleWine.

Definition wine : Runner :=
  {| cls := {| name := "wine"; runnable_alone := false;
               require_libs := []; runner_executable := None;
               download_url := None; arch := None |};
     system_config := Sample.no_options;
     runner_config := ∅ |}.

Definition extract_consuming (archive dest : string) (merge_single : bool)
  : M unit :=
  λ w, (Ok tt, with_fs (λ m, <[dest := Dir]> (delete archive m)) w).

Definition notify : M unit := logger INFO "installation finished".

Definition offline : Externals :=
  Sample.externals (Raise (HTTPError "503 Service Unavailable"))
                   Sample.extract_ok.

End SampleWine.

(** ** The rules of [get_env] that follow the controller mapping *)

(** Lines 201-238 of [get_env] as a function of the environment built so
    far ([env3]) and of the runtime's library path: display, PRIME,
    PulseAudio and Vulkan variables, the library path, and the user's
    overrides last. *)
Definition env_after_controller (cfg : SystemConfig)
    (env3 : gmap string string) (runtime_ld_library_path : option string)
  : gmap string string :=
  let env4 :=
    if Str.truthy (sdl_video_fullscreen cfg)
       && negb (String.eqb (Str.show (sdl_video_fullscreen cfg)) "off")
    then <["SDL_VIDEO_FULLSCREEN_DISPLAY" :=
             Str.show (sdl_video_fullscreen cfg)]> env3
    else env3 in
  let env5 := if dri_prime cfg then <["DRI_PRIME" := "1"]> env4 else env4 in
  let env6 :=
    if prime cfg then
      <["__VK_LAYER_NV_optimus" := "NVIDIA_only"]>
        (<["__GLX_VENDOR_LIBRARY_NAME" := "nvidia"]>
           (<["__NV_PRIME_RENDER_OFFLOAD" := "1"]> env5))
    else env5 in
  let env7 :=
    if pulse_latency cfg then <["PULSE_LATENCY_MSEC" := "60"]> env6
    else env6 in
  let env8 :=
    if Str.truthy (vk_icd cfg)
    then <["VK_ICD_FILENAMES" := Str.show (vk_icd cfg)]> env7
    else env7 in
  let env9 :=
    if Str.truthy runtime_ld_library_path then
      let ld_library_path := env8 !! "LD_LIBRARY_PATH" in
      <["LD_LIBRARY_PATH" :=
          if Str.truthy ld_library_path
          then Str.show runtime_ld_library_path +:+ ":"
               +:+ Str.show ld_library_path
          else Str.show runtime_ld_library_path]> env8
    else env8 in
  default ∅ (env cfg) ∪ env9.

(** What [get_env] starts from: the process environment, or nothing. *)
Definition env_seed (ext : Externals) (os_env : bool) : gmap string string :=
  if os_env then os_environ ext else ∅.

(** The runtime's library path as [get_env] reads it: none when the
    runtime is switched off by the caller, the environment or the
    system options. *)
Definition runtime_library_path (ext : Externals) (self : Runner)
    (disable_runtime_arg : bool) : option string :=
  if disable_runtime_arg || RUNTIME_DISABLED ext
     || disable_runtime (system_config self)
  then None
  else get_runtime_env ext self !! "LD_LIBRARY_PATH".

(** The variables [get_env] writes by its own rules. *)
Definition managed_variables : list string :=
  ["__GL_SHADER_DISK_CACHE"; "__GL_SHADER_DISK_CACHE_PATH";
   "SDL_GAMECONTROLLERCONFIG"; "SDL_VIDEO_FULLSCREEN_DISPLAY"; "DRI_PRIME";
   "__NV_PRIME_RENDER_OFFLOAD"; "__GLX_VENDOR_LIBRARY_NAME";
   "__VK_LAYER_NV_optimus"; "PULSE_LATENCY_MSEC"; "VK_ICD_FILENAMES";
   "LD_LIBRARY_PATH"].

(** The same collaborators with another answer of the catalog. *)
Definition with_request
    (response : string → outcome (option (gmap string catalog_value)))
    (ext : Externals) : Externals :=
  {| expanduser := expanduser ext;
     os_environ := os_environ ext;
     RUNTIME_DISABLED := RUNTIME_DISABLED ext;
     runtime_get_env := runtime_get_env ext;
     request_get_json := response;
     extract_archive := extract_archive ext;
     simple_downloader := simple_downloader ext;
     dialog_result_yes := dialog_result_yes ext;
     runner_repr := runner_repr ext;
     downloader_repr := downloader_repr ext;
     callback_repr := callback_repr ext |}.

(** Two worlds that differ in their log at most. *)
Definition same_but_log (w1 w2 : World) : Prop :=
  fs w1 = fs w2 ∧ launcher w1 = launcher w2 ∧ dialogs w1 = dialogs w2
  ∧ wine_cache_clears w1 = wine_cache_clears w2.

(** ** Options, sidebar actions, game path *)

(** One entry of an option list: the dictionary keys [find_option] and
    [get_runner_options] deal with. *)
Record RunnerOption := {
  opt_option : string;
  opt_type : string;
  opt_label : string;
  opt_advanced : bool
}.

(** The class attributes that hold the option lists and the flags the
    sidebar reads. *)
Record RunnerSchema := {
  multiple_versions : bool;
  game_options : list RunnerOption;
  runner_options : list RunnerOption
}.

(** The entry [get_runner_options] appends. *)
Definition custom_executable_option : RunnerOption :=
  {| opt_option := "runner_executable"; opt_type := "file";
     opt_label := "Custom executable for the runner";
     opt_advanced := true |}.

(** [Runner.get_runner_options] (lines 159-170): a copy of the class's
    list, with the custom executable entry for a class that declares an
    executable. *)
Definition get_runner_options (cls : RunnerClass) (schema : RunnerSchema)
  : list RunnerOption :=
  runner_options schema
  ++ (if Str.truthy (runner_executable cls)
      then [custom_executable_option] else []).

(** The loop of [find_option]: the first item with that name, [break]. *)
Fixpoint first_option (option_name : string) (items : list RunnerOption)
  : option RunnerOption :=
  match items with
  | [] => None
  | item :: rest =>
      if String.eqb (opt_option item) option_name then Some item
      else first_option option_name rest
  end.

(** [getattr(self, options_group)] for the two groups. *)
Definition option_group (schema : RunnerSchema) (options_group : string)
  : list RunnerOption :=
  if String.eqb options_group "game_options" then game_options schema
  else runner_options schema.

(** [Runner.find_option] (lines 470-479) *)
Definition find_option (schema : RunnerSchema)
    (options_group option_name : string) : option RunnerOption :=
  if negb (bool_decide (options_group ∈ ["game_options"; "runner_options"]))
  then None
  else first_option option_name (option_group schema options_group).

(** What a sidebar button does. *)
Inductive row_handler : Type :=
| on_manage_versions
| runner_run
| on_configure_runner.

(** One button of a sidebar row: icon, label, handler, identifier. *)
Record RowAction := {
  action_icon : string;
  action_label : string;
  action_handler : row_handler;
  action_id : string
}.

(** [RunnerSidebarRow.get_actions] (sidebar.py, lines 187-206), for the
    runner class the row's identifier imports. *)
Definition get_actions (id : option string) (cls : RunnerClass)
    (schema : RunnerSchema) : list RowAction :=
  if negb (Str.truthy id) then []
  else
    (if multiple_versions schema
     then [{| action_icon := "system-software-install-symbolic";
              action_label := "Manage Versions";
              action_handler := on_manage_versions;
              action_id := "manage-versions" |}]
     else [])
    ++ (if runnable_alone cls
        then [{| action_icon := "media-playback-start-symbolic";
                 action_label := "Run";
                 action_handler := runner_run;
                 action_id := "run" |}]
        else [])
    ++ [{| action_icon := "emblem-system-symbolic";
           action_label := "Configure";
           action_handler := on_configure_runner;
           action_id := "configure" |}].

Module PathDir.

(** [s.rstrip("/")] *)
Fixpoint rstrip_slash (s : string) : string :=
  match s with
  | EmptyString => EmptyString
  | String c s' =>
      let r := rstrip_slash s' in
      if String.eqb r "" && Ascii.eqb c "/" then EmptyString
      else String c r
  end.

(** [os.path.dirname(p)] on POSIX: what precedes the last ["/"], without
    trailing slashes unless it consists of slashes only. *)
Definition dirname (p : string) : string :=
  let head := fst (Path.split_last_slash p) in
  if String.eqb (rstrip_slash head) "" then head else rstrip_slash head.

(** ["/" in s] *)
Fixpoint has_slash (s : string) : bool :=
  match s with
  | EmptyString => false
  | String c s' => Ascii.eqb c "/" || has_slash s'
  end.

End PathDir.

(** What a runner instance knows of its game: whether it was given a
    configuration, the game's database row and the game-level options. *)
Record GameContext := {
  has_explicit_config : bool;
  game_data : gmap string string;
  game_config : gmap string string;
  entry_point_option : string
}.

(** [Runner.game_path] (lines 106-118). The game options are read only
    under [has_explicit_config], so the warning of [game_config] is never
    logged from here. *)
Definition game_path (ext : Externals) (g : GameContext) : string :=
  let game_path := game_data g !! "directory" in
  if Str.truthy game_path then Str.show game_path
  else if has_explicit_config g then
    let entry_point := game_config g !! entry_point_option g in
    if Str.truthy entry_point
    then PathDir.dirname (expanduser ext (Str.show entry_point))
    else ""
  else "".

(** [Runner.working_dir] (lines 131-134) *)
Definition working_dir (ext : Externals) (g : GameContext) : string :=
  if Str.truthy (Some (game_path ext g)) then game_path ext g
  else expanduser ext "~/".

Module SampleGame.

Definition schema : RunnerSchema :=
  {| multiple_versions := true;
     game_options :=
       [{| opt_option := "main_file"; opt_type := "file";
           opt_label := "ROM file"; opt_advanced := false |};
        {| opt_option := "args"; opt_type := "string";
           opt_label := "Arguments"; opt_advanced := false |};
        {| opt_option := "main_file"; opt_type := "string";
           opt_label := "Shadowed"; opt_advanced := true |}];
     runner_options :=
       [{| opt_option := "fullscreen"; opt_type := "bool";
           opt_label := "Fullscreen"; opt_advanced := false |}] |}.

(** A game given by an entry point without a directory part. *)
Definition bare_entry_point : GameContext :=
  {| has_explicit_config := true; game_data := ∅;
     game_config := {[ "main_file" := "doom.wad" ]};
     entry_point_option := "main_file" |}.

Definition home_entry_point : GameContext :=
  {| has_explicit_config := true; game_data := ∅;
     game_config := {[ "main_file" := "~/games/doom/doom.wad" ]};
     entry_point_option := "main_file" |}.

End SampleGame.

(** * Properties *)

(** ** Strings *)

Module StrFacts.

Lemma endswith_refl s : Str.endswith s s = true.
Proof. destruct s; simpl; [done|]. by rewrite Ascii.eqb_refl, String.eqb_refl. Qed.

Lemma endswith_app a suf : Str.endswith (a +:+ suf) suf = true.
Proof.
  induction a as [|c a IH]; simpl.
  - apply endswith_refl.
  - change (Str.endswith (String c (a +:+ suf)) suf) with
      (if String.eqb (String c (a +:+ suf)) suf then true
       else Str.endswith (a +:+ suf) suf).
    rewrite IH. by case_match.
Qed.

Lemma rsplit_last_cons c s :
  Str.rsplit_last (String c s) =
  match Str.rsplit_last s with
  | Some (x, y) => Some (String c x, y)
  | None => if Ascii.eqb c "-" then Some (EmptyString, s) else None
  end.
Proof. reflexivity. Qed.

Lemma rsplit_last_no_dash s : Str.no_dash s = true → Str.rsplit_last s = None.
Proof.
  induction s as [|c s IH]; [done|].
  rewrite rsplit_last_cons. simpl.
  intros [Hc Hs]%andb_true_iff. rewrite (IH Hs).
  by apply negb_true_iff in Hc as ->.
Qed.

Lemma rsplit_last_app a suf :
  Str.no_dash suf = true →
  Str.rsplit_last (a +:+ "-" +:+ suf) = Some (a, suf).
Proof.
  intros Hsuf. induction a as [|c a IH].
  - change ("" +:+ "-" +:+ suf) with (String "-" suf).
    by rewrite rsplit_last_cons, (rsplit_last_no_dash _ Hsuf).
  - change (String c a +:+ "-" +:+ suf) with (String c (a +:+ "-" +:+ suf)).
    by rewrite rsplit_last_cons, IH.
Qed.

Lemma rsplit_dash_app a suf :
  Str.no_dash suf = true →
  Str.rsplit_dash (a +:+ "-" +:+ suf) = [a; suf].
Proof. intros H. unfold Str.rsplit_dash. by rewrite rsplit_last_app. Qed.

Lemma truthy_Some s : s ≠ "" → Str.truthy (Some s) = true.
Proof. intros H. simpl. by apply negb_true_iff, String.eqb_neq. Qed.

End StrFacts.

(** ** Effects: what a method leaves untouched *)

Section Frames.

Lemma keeps_launcher_ret {A} (a : A) : keeps_launcher (ret a).
Proof. done. Qed.

Lemma keeps_launcher_raise {A} e : keeps_launcher (@raise A e).
Proof. done. Qed.

Lemma keeps_launcher_lift {A} (o : outcome A) : keeps_launcher (lift o).
Proof. done. Qed.

Lemma keeps_launcher_logger lvl msg : keeps_launcher (logger lvl msg).
Proof. done. Qed.

Lemma keeps_launcher_bind {A B} (m : M A) (k : A → M B) :
  keeps_launcher m → (∀ a, keeps_launcher (k a)) →
  keeps_launcher (bind m k).
Proof.
  intros Hm Hk w. unfold bind. specialize (Hm w).
  destruct (m w) as [[a|e] w1]; simpl in *; [|done].
  by rewrite Hk.
Qed.

Lemma keeps_launcher_read_only {A} (m : M A) :
  read_only m → keeps_launcher m.
Proof. intros H w. by rewrite H. Qed.

Lemma keeps_launcher_if {A} (b : bool) (m1 m2 : M A) :
  keeps_launcher m1 → keeps_launcher m2 →
  keeps_launcher (if b then m1 else m2).
Proof. by destruct b. Qed.

Lemma keeps_launcher_mkdir p : keeps_launcher (Os.mkdir p).
Proof. intros w. unfold Os.mkdir. by destruct (fs w !! p). Qed.

Lemma keeps_launcher_read p : keeps_launcher (Os.read p).
Proof. intros w. unfold Os.read. by destruct (fs w !! p) as [[]|]. Qed.

End Frames.

Create HintDb frames.

#[local] Hint Resolve keeps_launcher_ret keeps_launcher_raise
  keeps_launcher_lift keeps_launcher_logger keeps_launcher_mkdir
  keeps_launcher_read : frames.
Section PrelaunchFacts.
Context (LINUX_SYSTEM : LinuxSystem) (self : RunnerClass).

Lemma prelaunch_step_spec lib acc x :
  x ∈ prelaunch_step LINUX_SYSTEM self lib acc ↔
  x ∈ acc ∨ (x = lib ∧ lib_available LINUX_SYSTEM self lib).
Proof.
  unfold prelaunch_step, lib_available.
  destruct (shared_libraries LINUX_SYSTEM !! lib) as [instances|] eqn:Hlk.
  - destruct (arch self) as [a|] eqn:Ha; simpl.
    + destruct (String.eqb a "") eqn:He; simpl.
      * apply String.eqb_eq in He. subst a.
        rewrite elem_of_union, elem_of_singleton. split.
        -- intros [->|?]; [right|by left]. split; [done|].
           exists instances. split; [done|]. intros a' [= <-] Hne. done.
        -- intros [?|[-> _]]; [by right|by left].
      * apply String.eqb_neq in He.
        case_bool_decide as Hin.
        -- rewrite elem_of_union, elem_of_singleton. split.
           ++ intros [->|?]; [right|by left]. split; [done|].
              exists instances. split; [done|]. intros a' [= <-] _.
              apply list_elem_of_fmap in Hin as (i & Hi & Hel). eauto.
           ++ intros [?|[-> _]]; [by right|by left].
        -- split; [by left|]. intros [?|[-> (ins & [= <-] & Hall)]]; [done|].
           destruct (Hall a eq_refl He) as (i & Hel & Hi).
           exfalso. apply Hin. apply list_elem_of_fmap. eauto.
    + rewrite elem_of_union, elem_of_singleton. split.
      * intros [->|?]; [right|by left]. split; [done|].
        exists instances. split; [done|]. intros a' [=].
      * intros [?|[-> _]]; [by right|by left].
  - split; [by left|]. intros [?|[_ (ins & [=] & _)]]. done.
Qed.

Lemma prelaunch_fold_spec (l : list string) x :
  x ∈ foldr (prelaunch_step LINUX_SYSTEM self) ∅ l ↔
  x ∈ l ∧ lib_available LINUX_SYSTEM self x.
Proof.
  induction l as [|lib l IH]; simpl.
  - rewrite elem_of_empty, elem_of_nil. tauto.
  - rewrite prelaunch_step_spec, IH, elem_of_cons.
    split.
    + intros [[? ?]|[-> ?]]; auto.
    + intros [[->|?] ?]; auto.
Qed.

Lemma prelaunch_available_spec x :
  x ∈ prelaunch_available LINUX_SYSTEM self ↔
  x ∈ require_libs self ∧ lib_available LINUX_SYSTEM self x.
Proof.
  unfold prelaunch_available, set_fold. simpl.
  rewrite prelaunch_fold_spec, elem_of_elements, elem_of_list_to_set.
  done.
Qed.

Lemma prelaunch_unavailable_spec x :
  x ∈ prelaunch_unavailable LINUX_SYSTEM self ↔
  x ∈ require_libs self ∧ ¬ lib_available LINUX_SYSTEM self x.
Proof.
  unfold prelaunch_unavailable.
  rewrite elem_of_difference, elem_of_list_to_set, prelaunch_available_spec.
  tauto.
Qed.
End PrelaunchFacts.

(** ** The pre-launch capability check *)

(** C1. [prelaunch] raises exactly when some required library is not
    available (absent from the shared-library inventory, or, for a runner
    with a declared architecture, present with no instance of that
    architecture); the error then carries exactly the set of unavailable
    required libraries together with the declared architecture; and when
    every required library is available it returns without raising. *)
Theorem prelaunch_raises_iff_unavailable
    (LINUX_SYSTEM : LinuxSystem) (self : RunnerClass) :
  ((∃ e, prelaunch LINUX_SYSTEM self = Raise e) ↔
   (∃ lib, lib ∈ require_libs self ∧ ¬ lib_available LINUX_SYSTEM self lib))
  ∧ (∀ e, prelaunch LINUX_SYSTEM self = Raise e →
       ∃ libs, e = UnavailableLibrariesError libs (arch self) ∧
         ∀ lib, lib ∈ libs ↔
                lib ∈ require_libs self ∧
                ¬ lib_available LINUX_SYSTEM self lib)
  ∧ ((∀ lib, lib ∈ require_libs self → lib_available LINUX_SYSTEM self lib) →
     prelaunch LINUX_SYSTEM self = Ok tt).
Proof.
  unfold prelaunch. split; [|split].
  - case_bool_decide as Hempty; split.
    + intros [e [=]].
    + intros (lib & Hin & Hna). exfalso.
      assert (lib ∈ prelaunch_unavailable LINUX_SYSTEM self) as Hel
        by (by apply prelaunch_unavailable_spec).
      rewrite Hempty in Hel. by apply not_elem_of_empty in Hel.
    + intros _. apply set_choose_L in Hempty as [lib Hlib].
      exists lib. by apply prelaunch_unavailable_spec.
    + eauto.
  - intros e. case_bool_decide; intros [= <-].
    eexists. split; [done|]. apply prelaunch_unavailable_spec.
  - intros Hall. rewrite bool_decide_eq_true_2; [done|].
    apply set_eq. intros lib. rewrite prelaunch_unavailable_spec.
    split; [|by intros ?%not_elem_of_empty].
    intros [Hin Hna]. exfalso. auto.
Qed.

(** ** Installed check *)

(** C9. For a runner whose class declares no runner executable and whose
    runner configuration gives no ["runner_executable"] that is an
    existing file, [is_installed] does not return [False]: it raises the
    [ValueError] of [get_executable]. *)
Theorem is_installed_raises_without_executable
    (settings : Settings) (self : Runner) (w : World) :
  Str.truthy (runner_executable self) = false →
  (∀ p, runner_config self !! "runner_executable" = Some p →
        ∀ c x, fs w !! p ≠ Some (File c x)) →
  is_installed settings self w =
    (Raise (ValueError ("runner_executable not set for " +:+ name self)), w)
  ∧ get_executable settings self w =
    (Raise (ValueError ("runner_executable not set for " +:+ name self)), w).
Proof.
  intros Hcls Hcfg.
  assert (get_executable settings self w =
    (Raise (ValueError ("runner_executable not set for " +:+ name self)), w))
    as Hexe.
  { unfold get_executable, bind.
    destruct (runner_config self !! "runner_executable") as [p|] eqn:Hp.
    - unfold Os.isfile, ret. specialize (Hcfg p eq_refl).
      destruct (fs w !! p) as [[c x|]|] eqn:Hfs.
      + by destruct (Hcfg c x).
      + by rewrite Hcls.
      + by rewrite Hcls.
    - unfold ret. by rewrite Hcls. }
  split; [|done]. unfold is_installed, bind. by rewrite Hexe.
Qed.

(** ** The run sequence *)

Section RunFacts.
Context (settings : Settings) (LINUX_SYSTEM : LinuxSystem)
        (ext : Externals) (self : Runner).

Lemma get_executable_read_only : read_only (get_executable settings self).
Proof.
  intros w. unfold get_executable, bind, ret, raise, Os.isfile.
  destruct (runner_config self !! "runner_executable") as [p|].
  - destruct (fs w !! p) as [[]|]; simpl;
      by destruct (negb (Str.truthy (runner_executable self))).
  - by destruct (negb (Str.truthy (runner_executable self))).
Qed.

Lemma is_installed_read_only : read_only (is_installed settings self).
Proof.
  intros w. unfold is_installed, bind.
  pose proof (get_executable_read_only w) as H.
  destruct (get_executable settings self w) as [[exe|e] w1]; simpl in *;
    by subst.
Qed.

Lemma shader_cache_dir_keeps_launcher :
  keeps_launcher (shader_cache_dir settings self).
Proof.
  unfold shader_cache_dir.
  apply keeps_launcher_bind; [by apply keeps_launcher_read_only|].
  intros d. apply keeps_launcher_bind; [|auto with frames].
  destruct d; auto with frames.
Qed.

Lemma use_runtime_keeps_launcher : keeps_launcher (use_runtime ext self).
Proof.
  unfold use_runtime.
  repeat apply keeps_launcher_if;
    try apply keeps_launcher_bind; auto with frames.
Qed.

Lemma get_env_keeps_launcher os_env disable_runtime :
  keeps_launcher (get_env settings ext self os_env disable_runtime).
Proof.
  unfold get_env, nvidia_shader_cache_path.
  apply keeps_launcher_bind; [apply shader_cache_dir_keeps_launcher|].
  intros cache_path. apply keeps_launcher_bind.
  { apply keeps_launcher_if; [|auto with frames].
    apply keeps_launcher_bind; [by apply keeps_launcher_read_only|].
    intros ex. apply keeps_launcher_bind; [|auto with frames].
    destruct ex; auto with frames. }
  intros env3. apply keeps_launcher_bind; [|auto with frames].
  apply keeps_launcher_if; [|auto with frames].
  apply keeps_launcher_bind; [apply use_runtime_keeps_launcher|].
  auto with frames.
Qed.

Lemma get_run_data_keeps_launcher :
  keeps_launcher (get_run_data settings ext self).
Proof.
  unfold get_run_data.
  apply keeps_launcher_bind;
    [apply keeps_launcher_read_only, get_executable_read_only|].
  intros exe. apply keeps_launcher_bind; [apply get_env_keeps_launcher|].
  auto with frames.
Qed.
End RunFacts.

(** C2. In the run sequence of a runnable-alone, installed runner, a
    failing pre-launch check ends the run with an exception and the
    process launcher is never reached: no [MonitoredCommand] is constructed
    or started, the launcher's record is as it was before the run. When
    the run data (command and environment) is obtained, the exception is
    the one [prelaunch] raised, and it is raised in the very world that
    [get_run_data] left. *)
Theorem run_prelaunch_failure_before_spawn
    (settings : Settings) (LINUX_SYSTEM : LinuxSystem) (ext : Externals)
    (self : Runner) (w : World) (e : exn) :
  runnable_alone self = true →
  (is_installed settings self w).1 = Ok true →
  prelaunch LINUX_SYSTEM self = Raise e →
  ∃ e' w',
    run settings LINUX_SYSTEM ext self w = (Raise e', w')
    ∧ launcher w' = launcher w
    ∧ (∀ d w1, get_run_data settings ext self w = (Ok d, w1) →
               e' = e ∧ w' = w1).
Proof.
  intros Halone Hinst Hpre. unfold run. rewrite Halone. simpl.
  unfold bind at 1.
  pose proof (is_installed_read_only settings self w) as Hro.
  destruct (is_installed settings self w) as [[b|e0] w0]; simpl in *;
    [|done]. injection Hinst as ->. subst w0. simpl.
  unfold bind at 1. unfold ret at 1. simpl.
  unfold bind at 1.
  pose proof (get_run_data_keeps_launcher settings ext self w) as Hkeep.
  destruct (get_run_data settings ext self w) as [[d|e1] w1]; simpl in *.
  - unfold bind at 1, lift. rewrite Hpre.
    exists e, w1. split; [done|]. split; [done|].
    by intros d' w1' [= _ <-].
  - exists e1, w1. split; [done|]. split; [done|]. by intros d' w1' [=].
Qed.

(** ** Version resolution *)

Section VersionFacts.
Context (settings : Settings) (LINUX_SYSTEM : LinuxSystem)
        (ext : Externals) (self : Runner).

(** With a catalog in hand, resolution is the requested-version filter
    followed by the selection, and only the announcement is logged. *)
Lemma get_runner_version_with_catalog version w info :
  request_get_json ext (catalog_url settings self) = Ok (Some info) →
  info ≠ ∅ →
  get_runner_version settings LINUX_SYSTEM ext self version w =
    match filter_requested version (catalog_versions info)
                           (sys_arch LINUX_SYSTEM) with
    | Ok f => (Ok (pick_version LINUX_SYSTEM f.1 f.2),
               with_log (INFO, announcement self version) w)
    | Raise e => (Raise e, with_log (INFO, announcement self version) w)
    end.
Proof.
  intros Hreq Hne. unfold get_runner_version.
  unfold bind at 1. unfold logger at 1. unfold bind at 1.
  unfold try_except, bind at 1. unfold lift at 1. rewrite Hreq. simpl.
  rewrite (bool_decide_eq_false_2 _ Hne). simpl.
  unfold bind, lift. rewrite (bool_decide_eq_false_2 _ Hne).
  by destruct (filter_requested _ _ _).
Qed.

(** Without a catalog (request failed or body empty) nothing is
    resolved, no exception leaves the method, and the failure is
    logged. *)
Lemma get_runner_version_http_error version w msg :
  request_get_json ext (catalog_url settings self) = Raise (HTTPError msg) →
  get_runner_version settings LINUX_SYSTEM ext self version w =
    (Ok None,
     with_log (ERROR, "Unable to get runner information: " +:+ msg)
              (with_log (INFO, announcement self version) w)).
Proof.
  intros Hreq. unfold get_runner_version.
  unfold bind at 1. unfold logger at 1. unfold bind at 1.
  unfold try_except, bind at 1. unfold lift at 1. by rewrite Hreq.
Qed.

Lemma get_runner_version_empty version w info :
  request_get_json ext (catalog_url settings self) = Ok info →
  default ∅ info = ∅ →
  get_runner_version settings LINUX_SYSTEM ext self version w =
    (Ok None,
     with_log (ERROR, "Failed to get runner information")
              (with_log (INFO, announcement self version) w)).
Proof.
  intros Hreq Hempty. unfold get_runner_version.
  unfold bind at 1. unfold logger at 1. unfold bind at 1.
  unfold try_except, bind at 1. unfold lift at 1. rewrite Hreq. simpl.
  rewrite (bool_decide_eq_true_2 _ Hempty).
  unfold bind, logger, ret. simpl.
  by rewrite (bool_decide_eq_true_2 _ Hempty).
Qed.

Lemma filter_requested_suffix base suffix versions arch :
  suffix = "i386" ∨ suffix = "x86_64" →
  filter_requested (Some (base +:+ "-" +:+ suffix)) versions arch =
    Ok (filter (has_version base) versions, suffix).
Proof.
  intros Hsuf. unfold filter_requested.
  assert (Str.truthy (Some (base +:+ "-" +:+ suffix)) = true) as ->.
  { apply StrFacts.truthy_Some. destruct base; destruct Hsuf; by subst. }
  cbn [Str.show].
  assert (Str.endswith (base +:+ "-" +:+ suffix) "-i386"
          || Str.endswith (base +:+ "-" +:+ suffix) "-x86_64" = true) as ->.
  { apply orb_true_iff.
    destruct Hsuf as [-> | ->]; [left|right];
      apply (StrFacts.endswith_app base). }
  rewrite StrFacts.rsplit_dash_app; [done|].
  by destruct Hsuf as [-> | ->].
Qed.

Lemma filter_requested_none version versions arch :
  Str.truthy version = false →
  filter_requested version versions arch = Ok (versions, arch).
Proof. intros H. unfold filter_requested. by rewrite H. Qed.

(** Whatever was requested, the candidates are looked for under the
    local architecture or under a suffix of the request. *)
Lemma pick_version_single v arch :
  is_64_bit LINUX_SYSTEM = true →
  pick_version LINUX_SYSTEM [v] arch = Some v.
Proof.
  intros H64. unfold pick_version.
  rewrite filter_cons, filter_nil.
  destruct (decide (v_architecture v = arch)); simpl; [done|].
  by rewrite H64.
Qed.
End VersionFacts.

(** C4. With no requested version, when more than one candidate has the
    local architecture, the first of them flagged default is returned if
    any is flagged; if none is, the first candidate of the local
    architecture, in catalog order, is returned. *)
Theorem get_runner_version_default_among_matches
    (settings : Settings) (LINUX_SYSTEM : LinuxSystem) (ext : Externals)
    (self : Runner) (version : option string)
    (info : gmap string catalog_value) (w : World) :
  Str.truthy version = false →
  request_get_json ext (catalog_url settings self) = Ok (Some info) →
  info ≠ ∅ →
  1 < length (filter (λ v, v_architecture v = sys_arch LINUX_SYSTEM)
                     (catalog_versions info)) →
  (get_runner_version settings LINUX_SYSTEM ext self version w).1 =
    Ok (match filter (λ v, v_default v = true)
                (filter (λ v, v_architecture v = sys_arch LINUX_SYSTEM)
                        (catalog_versions info)) with
        | d :: _ => Some d
        | [] => head (filter (λ v, v_architecture v = sys_arch LINUX_SYSTEM)
                             (catalog_versions info))
        end)
  ∧ is_Some (head (filter (λ v, v_architecture v = sys_arch LINUX_SYSTEM)
                          (catalog_versions info))).
Proof.
  intros Hnone Hreq Hne Hlen.
  rewrite (get_runner_version_with_catalog _ _ _ _ _ _ _ Hreq Hne).
  rewrite (filter_requested_none _ _ _ Hnone). simpl.
  unfold pick_version.
  set (matched := filter _ (catalog_versions info)) in *.
  destruct matched as [|v1 [|v2 rest]]; simpl in Hlen; [lia|lia|].
  split; [|by eexists].
  change (length (v1 :: v2 :: rest)) with (S (S (length rest))). simpl.
  by destruct (filter _ (v1 :: v2 :: rest)).
Qed.

(** C5. When no candidate has the local architecture, exactly one
    candidate exists overall and the system is 64-bit, that candidate is
    returned. The candidates are those left by the requested-version
    filter (all of the catalog's versions when none is requested). *)
Theorem get_runner_version_single_candidate_64bit
    (settings : Settings) (LINUX_SYSTEM : LinuxSystem) (ext : Externals)
    (self : Runner) (version : option string)
    (info : gmap string catalog_value) (w : World)
    (v : VersionDescriptor) (arch : string) :
  request_get_json ext (catalog_url settings self) = Ok (Some info) →
  info ≠ ∅ →
  filter_requested version (catalog_versions info) (sys_arch LINUX_SYSTEM) =
    Ok ([v], arch) →
  filter (λ c, v_architecture c = sys_arch LINUX_SYSTEM) [v] = [] →
  is_64_bit LINUX_SYSTEM = true →
  (get_runner_version settings LINUX_SYSTEM ext self version w).1 =
    Ok (Some v).
Proof.
  intros Hreq Hne Hfilter _ H64.
  rewrite (get_runner_version_with_catalog _ _ _ _ _ _ _ Hreq Hne).
  rewrite Hfilter. simpl. by rewrite pick_version_single.
Qed.

(** ** Catalog failure and installation *)

(** C6. When the catalog request fails with an HTTP error, or answers
    with an empty body, [get_runner_version] logs an error and returns
    nothing; no exception leaves it. [install], for a runner without a
    fixed download URL, then raises the installation error
    "Failed to retrieve <name> (<version>) information", whatever
    downloader and callback it was given. Neither touches the files or
    the launcher. *)
Theorem catalog_failure_soft_then_install_error
    (settings : Settings) (LINUX_SYSTEM : LinuxSystem) (ext : Externals)
    (self : Runner) (version : option string)
    (downloader : option Downloader) (callback : option (M unit))
    (w : World) :
  (∃ msg, request_get_json ext (catalog_url settings self) =
          Raise (HTTPError msg))
  ∨ (∃ info, request_get_json ext (catalog_url settings self) = Ok info
             ∧ default ∅ info = ∅) →
  Str.truthy (download_url self) = false →
  (∃ w' (announce : log_level * string) (msg : string),
      get_runner_version settings LINUX_SYSTEM ext self version w =
        (Ok None, w')
      ∧ log w' = (log w ++ [announce; (ERROR, msg)])%list
      ∧ fs w' = fs w ∧ launcher w' = launcher w)
  ∧ (∃ w'',
      install settings LINUX_SYSTEM ext self version downloader callback w =
        (Raise (RunnerInstallationError
                  ("Failed to retrieve " +:+ name self +:+ " ("
                   +:+ Str.show version +:+ ") information") None), w'')
      ∧ fs w'' = fs w ∧ launcher w'' = launcher w).
Proof.
  intros Hcat Hurl.
  assert (∀ w0, ∃ w' (announce : log_level * string) (msg : string),
      get_runner_version settings LINUX_SYSTEM ext self version w0 =
        (Ok None, w')
      ∧ log w' = (log w0 ++ [announce; (ERROR, msg)])%list
      ∧ fs w' = fs w0 ∧ launcher w' = launcher w0) as Hsoft.
  { intros w0. destruct Hcat as [[msg Hreq] | (info & Hreq & Hempty)].
    - rewrite (get_runner_version_http_error _ _ _ _ _ _ _ Hreq).
      eexists _, _, _. split; [done|]. simpl.
      by rewrite <- app_assoc.
    - rewrite (get_runner_version_empty _ _ _ _ _ _ _ Hreq Hempty).
      eexists _, _, _. split; [done|]. simpl.
      by rewrite <- app_assoc. }
  split; [apply Hsoft|].
  unfold install. rewrite Hurl.
  unfold bind at 1. unfold logger at 1. unfold bind at 1.
  destruct (Hsoft (with_log
    (DEBUG, install_announcement ext self version downloader callback) w))
    as (w' & announce & msg & -> & _ & Hfs & Hlaunch).
  exists w'. by split.
Qed.

(** ** The extraction continuation *)

Section ExtractFacts.
Context (settings : Settings) (ext : Externals) (self : Runner).

(** What [extract] does once the extractor has returned: the archive is
    removed, then the hooks run in a world without it, then the
    callback is called. *)
Lemma extract_after_success archive dest merge_single callback w w1 c x :
  is_Some (fs w !! archive) →
  extract_archive ext archive dest merge_single w = (Ok tt, w1) →
  fs w1 !! archive = Some (File c x) →
  ∃ w2, fs w2 !! archive = None
        ∧ launcher w2 = launcher w1
        ∧ extract settings ext self archive dest merge_single callback w =
          match callback with
          | Some cb => cb w2
          | None => (Ok tt, w2)
          end.
Proof.
  intros Hpresent Hext Hfile.
  unfold extract. unfold bind at 1. unfold Os.path_exists at 1.
  rewrite (bool_decide_eq_true_2 _ Hpresent). simpl.
  unfold bind at 1. unfold try_except. rewrite Hext.
  unfold bind at 1. unfold Os.remove at 1. rewrite Hfile.
  assert (fs (with_fs (delete archive) w1) !! archive = None) as Hgone
    by (simpl; apply lookup_delete_eq).
  assert (launcher (with_fs (delete archive) w1) = launcher w1) as Hl
    by done.
  revert Hgone Hl. generalize (with_fs (delete archive) w1) as wa.
  intros wa Hgone Hl.
  unfold bind at 1.
  assert (∃ wb, (if String.eqb (name self) "wine"
                 then logger DEBUG "Clearing wine version cache";;
                      (λ w0, (Ok (), with_cache_clear w0))
                 else ret ()) wa = (Ok tt, wb)
                ∧ fs wb !! archive = None ∧ launcher wb = launcher w1)
    as (wb & -> & Hgone' & Hl').
  { destruct (String.eqb (name self) "wine"); eexists; split; try done. }
  clear wa Hgone Hl.
  unfold bind at 1.
  destruct (Str.truthy (runner_executable self)).
  - unfold bind at 1. unfold Os.isfile at 1.
    set (exe := Path.join _ _).
    destruct (fs wb !! exe) as [[c' x'|]|] eqn:Hexe.
    + unfold Os.make_executable at 1.
      eexists. split; [|split; [|by destruct callback]]; [|done].
      simpl. rewrite lookup_alter. case_decide as Hsame; [|done].
      rewrite Hsame in Hexe. congruence.
    + unfold ret at 1. exists wb. by destruct callback.
    + unfold ret at 1. exists wb. by destruct callback.
  - unfold ret at 1. exists wb. by destruct callback.
Qed.

(** When the extractor raises, [extract] raises too and leaves the
    files as the extractor left them. *)
Lemma extract_after_failure archive dest merge_single callback w w1 e0 :
  is_Some (fs w !! archive) →
  extract_archive ext archive dest merge_single w = (Raise e0, w1) →
  ∃ e w2,
    extract settings ext self archive dest merge_single callback w =
      (Raise e, w2)
    ∧ fs w2 = fs w1 ∧ launcher w2 = launcher w1.
Proof.
  intros Hpresent Hext.
  unfold extract. unfold bind at 1. unfold Os.path_exists at 1.
  rewrite (bool_decide_eq_true_2 _ Hpresent). simpl.
  unfold bind at 1. unfold try_except. rewrite Hext.
  destruct e0; try by eexists _, _.
Qed.
End ExtractFacts.

(** C8. In the extraction continuation: a missing archive raises an
    installation error; an [ExtractFailure] of the extractor is logged
    and raised again as an installation error whose message ends with the
    failure's message and whose cause is the failure; and after a
    successful extraction the archive is removed: the hooks and the
    callback run in a world where the archive's path is free, and
    without a callback that is the world [extract] returns. *)
Theorem extract_missing_failure_success
    (settings : Settings) (ext : Externals) (self : Runner)
    (archive dest : string) (merge_single : bool)
    (callback : option (M unit)) (w : World) :
  (fs w !! archive = None →
   extract settings ext self archive dest merge_single callback w =
     (Raise (RunnerInstallationError ("Failed to extract " +:+ archive) None),
      w))
  ∧ (∀ msg w1,
       is_Some (fs w !! archive) →
       extract_archive ext archive dest merge_single w =
         (Raise (ExtractFailure msg), w1) →
       extract settings ext self archive dest merge_single callback w =
         (Raise (RunnerInstallationError
                   ("Failed to extract " +:+ archive +:+ ": " +:+ msg)
                   (Some (ExtractFailure msg))),
          with_log (ERROR, "Failed to extract the archive " +:+ archive
                           +:+ " file may be corrupt") w1))
  ∧ (∀ w1 c x,
       is_Some (fs w !! archive) →
       extract_archive ext archive dest merge_single w = (Ok tt, w1) →
       fs w1 !! archive = Some (File c x) →
       ∃ w2, fs w2 !! archive = None
             ∧ extract settings ext self archive dest merge_single callback w
               = match callback with
                 | Some cb => cb w2
                 | None => (Ok tt, w2)
                 end).
Proof.
  split; [|split].
  - intros Hmissing. unfold extract. unfold bind at 1.
    unfold Os.path_exists at 1.
    rewrite bool_decide_eq_false_2; [done|].
    rewrite Hmissing. by intros [? [=]].
  - intros msg w1 Hpresent Hext.
    unfold extract. unfold bind at 1. unfold Os.path_exists at 1.
    rewrite (bool_decide_eq_true_2 _ Hpresent). simpl.
    unfold bind at 1. unfold try_except. by rewrite Hext.
  - intros w1 c x Hpresent Hext Hfile.
    destruct (extract_after_success settings ext self archive dest
                merge_single callback w w1 c x Hpresent Hext Hfile)
      as (w2 & Hgone & _ & Heq).
    by exists w2.
Qed.

(** C10. When the extractor fails with an [ExtractFailure], [extract]
    raises without removing the archive: the files are exactly as the
    extractor left them, so an archive still in the cache after the
    failed extraction is still there when [extract] has raised. *)
Theorem extract_failure_keeps_archive
    (settings : Settings) (ext : Externals) (self : Runner)
    (archive dest : string) (merge_single : bool)
    (callback : option (M unit)) (w w1 : World) (msg : string) :
  is_Some (fs w !! archive) →
  extract_archive ext archive dest merge_single w =
    (Raise (ExtractFailure msg), w1) →
  ∃ e w2,
    extract settings ext self archive dest merge_single callback w =
      (Raise e, w2)
    ∧ fs w2 = fs w1
    ∧ (∀ n, fs w1 !! archive = Some n → fs w2 !! archive = Some n).
Proof.
  intros Hpresent Hext.
  destruct (extract_after_failure settings ext self archive dest
              merge_single callback w w1 _ Hpresent Hext)
    as (e & w2 & Heq & Hfs & _).
  exists e, w2. split; [done|]. split; [done|].
  intros n. by rewrite Hfs.
Qed.

(** ** Environment construction *)

Section EnvFacts.
Context (settings : Settings) (ext : Externals) (self : Runner).

Lemma bind_Ok_inv {A B} (m : M A) (k : A → M B) w b w' :
  bind m k w = (Ok b, w') →
  ∃ a w1, m w = (Ok a, w1) ∧ k a w1 = (Ok b, w').
Proof.
  unfold bind. destruct (m w) as [[a|e] w1]; [|done]. eauto.
Qed.

(** The cache directory is found, or made where nothing was. *)
Lemma shader_cache_dir_Ok_inv w p w1 :
  shader_cache_dir settings self w = (Ok p, w1) →
  p = Path.join (SHADER_CACHE_DIR settings) (name self)
  ∧ (w1 = w ∨ (fs w !! p = None ∧ w1 = with_fs (insert p Dir) w)).
Proof.
  unfold shader_cache_dir. intros (d & w0 & Hd & Hrest)%bind_Ok_inv.
  apply bind_Ok_inv in Hrest as ([] & w2 & Hmk & [= <- <-]).
  unfold Os.isdir in Hd. injection Hd as <- <-.
  split; [done|].
  destruct (fs w !! Path.join (SHADER_CACHE_DIR settings) (name self))
    as [[|]|] eqn:Hp.
  - unfold Os.mkdir in Hmk. by rewrite Hp in Hmk.
  - injection Hmk as <-. by left.
  - unfold Os.mkdir in Hmk. rewrite Hp in Hmk. injection Hmk as <-.
    by right.
Qed.

(** Every later rule of [get_env] writes another variable: the
    controller mapping in the result is the user's override when there
    is one, else what the controller rule left. *)
Lemma get_env_tail_lookup (cfg : SystemConfig) (env3 : gmap string string)
    (rt : option string) :
  let env4 :=
    if Str.truthy (sdl_video_fullscreen cfg)
       && negb (String.eqb (Str.show (sdl_video_fullscreen cfg)) "off")
    then <["SDL_VIDEO_FULLSCREEN_DISPLAY" :=
             Str.show (sdl_video_fullscreen cfg)]> env3
    else env3 in
  let env5 := if dri_prime cfg then <["DRI_PRIME" := "1"]> env4 else env4 in
  let env6 :=
    if prime cfg then
      <["__VK_LAYER_NV_optimus" := "NVIDIA_only"]>
        (<["__GLX_VENDOR_LIBRARY_NAME" := "nvidia"]>
           (<["__NV_PRIME_RENDER_OFFLOAD" := "1"]> env5))
    else env5 in
  let env7 :=
    if pulse_latency cfg then <["PULSE_LATENCY_MSEC" := "60"]> env6
    else env6 in
  let env8 :=
    if Str.truthy (vk_icd cfg)
    then <["VK_ICD_FILENAMES" := Str.show (vk_icd cfg)]> env7
    else env7 in
  let env9 :=
    if Str.truthy rt then
      let ld_library_path := env8 !! "LD_LIBRARY_PATH" in
      <["LD_LIBRARY_PATH" :=
          if Str.truthy ld_library_path
          then Str.show rt +:+ ":" +:+ Str.show ld_library_path
          else Str.show rt]> env8
    else env8 in
  default ∅ (env cfg) !! "SDL_GAMECONTROLLERCONFIG" = None →
  (default ∅ (env cfg) ∪ env9) !! "SDL_GAMECONTROLLERCONFIG" =
    env3 !! "SDL_GAMECONTROLLERCONFIG".
Proof.
  intros env4 env5 env6 env7 env8 env9 Huser.
  rewrite lookup_union_r by done.
  subst env9 env8 env7 env6 env5 env4.
  repeat match goal with
         | |- context [if ?b then _ else _] => destruct b
         end;
    by rewrite ?lookup_insert_ne.
Qed.
End EnvFacts.

Section EnvReturns.
Context (settings : Settings) (ext : Externals) (self : Runner).

Lemma use_runtime_returns w :
  ∃ b w', use_runtime ext self w = (Ok b, w').
Proof.
  unfold use_runtime.
  destruct (RUNTIME_DISABLED ext); [by eexists _, _|].
  destruct (disable_runtime (system_config self)); by eexists _, _.
Qed.

(** [get_env] returns whenever the shader cache directory is there and
    the controller mapping, if set, does not name a directory. *)
Lemma get_env_returns os_env disable_runtime w :
  fs w !! Path.join (SHADER_CACHE_DIR settings) (name self) = Some Dir →
  fs w !! expanduser ext
            (Str.show (sdl_gamecontrollerconfig (system_config self)))
    ≠ Some Dir →
  ∃ result w',
    get_env settings ext self os_env disable_runtime w = (Ok result, w').
Proof.
  intros Hcache Hpath.
  unfold get_env, nvidia_shader_cache_path, shader_cache_dir.
  cbv zeta.
  unfold bind at 1. unfold bind at 1. unfold Os.isdir at 1.
  rewrite Hcache. unfold bind at 1. unfold ret at 1 2.
  unfold bind at 1.
  set (env2 := <["__GL_SHADER_DISK_CACHE_PATH" := _]> _).
  assert (∃ env3,
    (if Str.truthy (sdl_gamecontrollerconfig (system_config self))
     then
       do ex <- Os.path_exists
                  (expanduser ext
                     (Str.show
                        (sdl_gamecontrollerconfig (system_config self))));
       do value' <-
         (if ex
          then Os.read
                 (expanduser ext
                    (Str.show
                       (sdl_gamecontrollerconfig (system_config self))))
          else ret (Str.show
                      (sdl_gamecontrollerconfig (system_config self))));
       ret (<["SDL_GAMECONTROLLERCONFIG" := value']> env2)
     else ret env2) w = (Ok env3, w)) as [env3 ->].
  { destruct (Str.truthy _); [|by eexists].
    unfold bind at 1. unfold Os.path_exists at 1.
    destruct (fs w !! expanduser ext _) as [[c x|]|] eqn:Hp.
    - rewrite bool_decide_eq_true_2 by eauto.
      unfold bind, Os.read. rewrite Hp. by eexists.
    - done.
    - rewrite bool_decide_eq_false_2 by (by intros [? [=]]).
      by eexists. }
  unfold bind at 1.
  destruct disable_runtime; simpl; [by eexists _, _|].
  unfold bind at 1.
  destruct (use_runtime_returns w) as (b & w' & ->).
  by eexists _, _.
Qed.
End EnvReturns.

(** C7, as amended. When [get_env] returns and the user's environment
    overrides (merged last, they win) do not name
    SDL_GAMECONTROLLERCONFIG: with the controller-mapping option set, the
    variable holds the contents of the (user-expanded) path when that is
    a file, and the option's own string when nothing is at that path;
    with the option unset the variable is absent, unless the result was
    seeded from a process environment that carries it. *)
Theorem get_env_controller_mapping
    (settings : Settings) (ext : Externals) (self : Runner)
    (os_env disable_runtime : bool) (w w' : World)
    (result : gmap string string) :
  default ∅ (env (system_config self)) !! "SDL_GAMECONTROLLERCONFIG" = None →
  get_env settings ext self os_env disable_runtime w = (Ok result, w') →
  let value := sdl_gamecontrollerconfig (system_config self) in
  let path := expanduser ext (Str.show value) in
  (Str.truthy value = true →
   ∀ c x, fs w !! path = Some (File c x) →
          result !! "SDL_GAMECONTROLLERCONFIG" = Some c)
  ∧ (Str.truthy value = true → fs w !! path = None →
     result !! "SDL_GAMECONTROLLERCONFIG" = Some (Str.show value))
  ∧ (Str.truthy value = false →
     (os_env = true → os_environ ext !! "SDL_GAMECONTROLLERCONFIG" = None) →
     result !! "SDL_GAMECONTROLLERCONFIG" = None).
Proof.
  intros Huser Hget value path.
  unfold get_env, nvidia_shader_cache_path in Hget. cbv zeta in Hget.
  apply bind_Ok_inv in Hget as (cp & w1 & Hcache & Hget).
  apply bind_Ok_inv in Hget as (env3 & w2 & Hsdl & Hget).
  apply bind_Ok_inv in Hget as (rt & w3 & _ & Hret).
  unfold ret in Hret. injection Hret as <- <-.
  pose proof (get_env_tail_lookup (system_config self) env3 rt) as Htail.
  cbv zeta in Htail. rewrite (Htail Huser). clear Htail.
  apply shader_cache_dir_Ok_inv in Hcache as [-> Hw1].
  fold value in Hsdl. fold path in Hsdl.
  generalize dependent (Path.join (SHADER_CACHE_DIR settings) (name self)).
  intros cache Hw1 Hsdl.
  split; [|split].
  - intros Hset c x Hfile. rewrite Hset in Hsdl.
    assert (fs w1 !! path = Some (File c x)) as Hfile1.
    { destruct Hw1 as [-> | [Hnone ->]]; [done|]. simpl.
      rewrite lookup_insert_ne; [done|]. congruence. }
    apply bind_Ok_inv in Hsdl as (ex & w4 & Hex & Hsdl).
    unfold Os.path_exists in Hex. injection Hex as <- <-.
    rewrite bool_decide_eq_true_2 in Hsdl by (by rewrite Hfile1).
    apply bind_Ok_inv in Hsdl as (v & w5 & Hread & Hsdl).
    unfold Os.read in Hread. rewrite Hfile1 in Hread.
    injection Hread as <- <-. unfold ret in Hsdl. injection Hsdl as <- <-.
    apply lookup_insert_eq.
  - intros Hset Hnone. rewrite Hset in Hsdl.
    apply bind_Ok_inv in Hsdl as (ex & w4 & Hex & Hsdl).
    unfold Os.path_exists in Hex. injection Hex as <- <-.
    apply bind_Ok_inv in Hsdl as (v & w5 & Hread & Hsdl).
    unfold ret in Hsdl. injection Hsdl as <- <-.
    destruct Hw1 as [-> | [Hfree ->]].
    + rewrite bool_decide_eq_false_2 in Hread
        by (rewrite Hnone; by intros [? [=]]).
      unfold ret in Hread. injection Hread as <- <-.
      apply lookup_insert_eq.
    + simpl in Hread. destruct (decide (cache = path)) as [Heq|Hne].
      * subst cache. rewrite lookup_insert_eq in Hread.
        rewrite bool_decide_eq_true_2 in Hread by eauto.
        unfold Os.read in Hread. simpl in Hread.
        by rewrite lookup_insert_eq in Hread.
      * rewrite lookup_insert_ne, Hnone in Hread by done.
        rewrite bool_decide_eq_false_2 in Hread by (by intros [? [=]]).
        unfold ret in Hread. injection Hread as <- <-.
        apply lookup_insert_eq.
  - intros Hunset Hseed. rewrite Hunset in Hsdl.
    unfold ret in Hsdl. injection Hsdl as <- <-.
    rewrite !lookup_insert_ne by done.
    destruct os_env; [by apply Hseed | apply lookup_empty].
Qed.

(** C7 as stated fails twice over: the user's overrides replace the
    file's contents, and with the option unset a seeded process
    environment still supplies the variable. *)
Lemma get_env_controller_mapping_overridden :
  ¬ sdl_rule_as_stated Sample.settings
      (Sample.externals (Ok None) Sample.extract_ok)
      (Sample.runner [] None None SampleEnv.overridden)
      false false (Sample.world_with SampleEnv.files)
  ∧ ¬ sdl_rule_as_stated Sample.settings SampleEnv.externals_with_sdl
        (Sample.runner [] None None Sample.no_options)
        true false (Sample.world_with SampleEnv.files).
Proof.
  split; intros Hrule; unfold sdl_rule_as_stated in Hrule.
  - match type of Hrule with
    | context [get_env ?s ?e ?r ?o ?d ?w] =>
        assert (sdl_of (get_env s e r o d w) =
                Some (Some "from the user")) as Hsdl
          by (vm_compute; reflexivity);
        destruct (get_env s e r o d w) as [[result|ex] w']; [|done]
    end.
    destruct (Hrule result w' eq_refl) as (Hfile & _ & _).
    specialize (Hfile eq_refl "030000005e0400008e02,pad,a:b0" false).
    unfold sdl_of in Hsdl. simpl in Hsdl, Hfile.
    rewrite Hfile in Hsdl; [done|]. vm_compute. reflexivity.
  - match type of Hrule with
    | context [get_env ?s ?e ?r ?o ?d ?w] =>
        assert (sdl_of (get_env s e r o d w) =
                Some (Some "from the shell")) as Hsdl
          by (vm_compute; reflexivity);
        destruct (get_env s e r o d w) as [[result|ex] w']; [|done]
    end.
    destruct (Hrule result w' eq_refl) as (_ & _ & Hunset).
    specialize (Hunset eq_refl).
    unfold sdl_of in Hsdl. simpl in Hsdl, Hunset.
    by rewrite Hunset in Hsdl.
Qed.

(** ** The theorems at work on the sample installation *)

Lemma prelaunch_raises_iff_unavailable_witness :
  prelaunch Sample.linux SampleRun.needs_present_libs = Ok tt
  ∧ ∃ libs,
      prelaunch Sample.linux
        (Sample.runner_class ["libGL.so.1"; "libvulkan.so.1"] None
                             (Some "i386")) =
        Raise (UnavailableLibrariesError libs (Some "i386"))
      ∧ "libvulkan.so.1" ∈ libs ∧ "libGL.so.1" ∉ libs.
Proof.
  split.
  - apply (prelaunch_raises_iff_unavailable Sample.linux
             SampleRun.needs_present_libs).
    intros lib Hin. simpl in Hin.
    apply elem_of_cons in Hin as [-> | Hin];
      [|apply elem_of_cons in Hin as [-> | Hin]];
      [| |by apply elem_of_nil in Hin];
      (eexists; split; [vm_compute; reflexivity | intros a [=]]).
  - destruct (proj2 (proj1 (prelaunch_raises_iff_unavailable Sample.linux
                (Sample.runner_class ["libGL.so.1"; "libvulkan.so.1"] None
                                     (Some "i386"))))) as [e Hrun].
    { exists "libvulkan.so.1".
      split; [apply list_elem_of_further, list_elem_of_here|].
      intros (instances & Hlk & Harch). vm_compute in Hlk.
      injection Hlk as <-.
      destruct (Harch "i386" eq_refl) as (i & Hi & Ha); [done|].
      apply list_elem_of_singleton in Hi as ->. by vm_compute in Ha. }
    destruct (proj1 (proj2 (prelaunch_raises_iff_unavailable Sample.linux
                (Sample.runner_class ["libGL.so.1"; "libvulkan.so.1"] None
                                     (Some "i386")))) e Hrun)
      as (libs & -> & Hlibs).
    exists libs. split; [done|]. split.
    + apply Hlibs.
      split; [apply list_elem_of_further, list_elem_of_here|].
      intros (instances & Hlk & Harch). vm_compute in Hlk.
      injection Hlk as <-.
      destruct (Harch "i386" eq_refl) as (i & Hi & Ha); [done|].
      apply list_elem_of_singleton in Hi as ->. by vm_compute in Ha.
    + intros [_ Hna]%Hlibs. apply Hna.
      eexists. split; [vm_compute; reflexivity|].
      intros a [= <-] _. exists (Sample.lib "libGL.so.1" "i386").
      split; [apply list_elem_of_further, list_elem_of_here|done].
Defined.

Lemma run_prelaunch_failure_before_spawn_witness :
  ∃ w', run Sample.settings Sample.linux
          (Sample.externals (Ok None) Sample.extract_ok)
          SampleRun.needs_missing_lib SampleRun.installed =
          (Raise (UnavailableLibrariesError {[ "libmissing.so.7" ]} None), w')
        ∧ launcher w' = [].
Proof.
  destruct (run_prelaunch_failure_before_spawn Sample.settings Sample.linux
              (Sample.externals (Ok None) Sample.extract_ok)
              SampleRun.needs_missing_lib SampleRun.installed
              (UnavailableLibrariesError {[ "libmissing.so.7" ]} None))
    as (e' & w' & Hrun & Hlaunch & Hdata).
  - reflexivity.
  - vm_compute. reflexivity.
  - vm_compute. reflexivity.
  - assert (returned (get_run_data Sample.settings
                (Sample.externals (Ok None) Sample.extract_ok)
                SampleRun.needs_missing_lib SampleRun.installed) = true)
      as Hret by (vm_compute; reflexivity).
    destruct (get_run_data Sample.settings
                (Sample.externals (Ok None) Sample.extract_ok)
                SampleRun.needs_missing_lib SampleRun.installed)
      as [[d|ex] w1]; [|done].
    destruct (Hdata d w1 eq_refl) as [-> ->].
    exists w1. split; [exact Hrun | exact Hlaunch].
Defined.

Lemma get_runner_version_default_among_matches_witness :
  (get_runner_version Sample.settings Sample.linux
     (Sample.externals
        (Ok (Some (Sample.catalog_of
                     [Sample.entry_x86_64_old; Sample.entry_i386;
                      Sample.entry_x86_64])))
        Sample.extract_ok)
     (Sample.runner [] None None Sample.no_options)
     None Sample.empty_world).1 =
  Ok (Some Sample.entry_x86_64).
Proof.
  destruct (get_runner_version_default_among_matches Sample.settings
              Sample.linux
              (Sample.externals
                 (Ok (Some (Sample.catalog_of
                              [Sample.entry_x86_64_old; Sample.entry_i386;
                               Sample.entry_x86_64])))
                 Sample.extract_ok)
              (Sample.runner [] None None Sample.no_options)
              None
              (Sample.catalog_of
                 [Sample.entry_x86_64_old; Sample.entry_i386;
                  Sample.entry_x86_64])
              Sample.empty_world)
    as [-> _].
  - reflexivity.
  - reflexivity.
  - apply insert_non_empty.
  - vm_compute. lia.
  - vm_compute. reflexivity.
Defined.

Lemma get_runner_version_single_candidate_64bit_witness :
  (get_runner_version Sample.settings Sample.linux
     (Sample.externals (Ok (Some (Sample.catalog_of [Sample.entry_arm])))
                       Sample.extract_ok)
     (Sample.runner [] None None Sample.no_options)
     None Sample.empty_world).1 =
  Ok (Some Sample.entry_arm).
Proof.
  apply (get_runner_version_single_candidate_64bit Sample.settings
           Sample.linux
           (Sample.externals (Ok (Some (Sample.catalog_of [Sample.entry_arm])))
                             Sample.extract_ok)
           (Sample.runner [] None None Sample.no_options)
           None (Sample.catalog_of [Sample.entry_arm]) Sample.empty_world
           Sample.entry_arm "x86_64").
  - reflexivity.
  - apply insert_non_empty.
  - vm_compute. reflexivity.
  - vm_compute. reflexivity.
  - reflexivity.
Defined.

Lemma catalog_failure_soft_then_install_error_witness :
  ∃ w'',
    install Sample.settings Sample.linux
      (Sample.externals (Raise (HTTPError "503 Service Unavailable"))
                        Sample.extract_ok)
      (Sample.runner [] None None Sample.no_options)
      (Some "1.0") (Some Sample.store_then_call) None Sample.empty_world =
      (Raise (RunnerInstallationError
                "Failed to retrieve zdoom (1.0) information" None), w'')
    ∧ fs w'' = ∅.
Proof.
  destruct (catalog_failure_soft_then_install_error Sample.settings
              Sample.linux
              (Sample.externals (Raise (HTTPError "503 Service Unavailable"))
                                Sample.extract_ok)
              (Sample.runner [] None None Sample.no_options)
              (Some "1.0") (Some Sample.store_then_call) None
              Sample.empty_world)
    as [_ (w'' & Hinstall & Hfs & _)].
  - left. by exists "503 Service Unavailable".
  - reflexivity.
  - exists w''. split; [exact Hinstall | exact Hfs].
Defined.

Lemma get_env_controller_mapping_witness :
  ∃ result,
    (get_env Sample.settings (Sample.externals (Ok None) Sample.extract_ok)
       (Sample.runner [] None None (SampleEnv.mapping_set "~/pad.txt"))
       false false (Sample.world_with SampleEnv.files)).1 = Ok result
    ∧ result !! "SDL_GAMECONTROLLERCONFIG" =
      Some "030000005e0400008e02,pad,a:b0".
Proof.
  assert (returned (get_env Sample.settings
              (Sample.externals (Ok None) Sample.extract_ok)
              (Sample.runner [] None None (SampleEnv.mapping_set "~/pad.txt"))
              false false (Sample.world_with SampleEnv.files)) = true)
    as Hret by (vm_compute; reflexivity).
  destruct (get_env Sample.settings
              (Sample.externals (Ok None) Sample.extract_ok)
              (Sample.runner [] None None (SampleEnv.mapping_set "~/pad.txt"))
              false false (Sample.world_with SampleEnv.files))
    as [[result|ex] w'] eqn:Hget; [|done].
  exists result. split; [reflexivity|].
  apply (get_env_controller_mapping Sample.settings
           (Sample.externals (Ok None) Sample.extract_ok)
           (Sample.runner [] None None (SampleEnv.mapping_set "~/pad.txt"))
           false false (Sample.world_with SampleEnv.files) w' result)
    with (x := false).
  - reflexivity.
  - exact Hget.
  - reflexivity.
  - vm_compute. reflexivity.
Defined.

Lemma extract_missing_failure_success_witness :
  ∃ w2,
    extract Sample.settings (Sample.externals (Ok None) Sample.extract_ok)
      (Sample.runner [] None None Sample.no_options)
      "/cache/zdoom.tar.xz" "/runners" false None SampleRun.downloaded =
      (Ok tt, w2)
    ∧ fs w2 !! "/cache/zdoom.tar.xz" = None.
Proof.
  destruct (proj2 (proj2 (extract_missing_failure_success Sample.settings
              (Sample.externals (Ok None) Sample.extract_ok)
              (Sample.runner [] None None Sample.no_options)
              "/cache/zdoom.tar.xz" "/runners" false None
              SampleRun.downloaded))
              (with_fs (insert "/runners" Dir) SampleRun.downloaded)
              "archive bytes" false)
    as (w2 & Hgone & Hrun).
  - eexists. vm_compute. reflexivity.
  - reflexivity.
  - vm_compute. reflexivity.
  - exists w2. split; [exact Hrun | exact Hgone].
Defined.

Lemma is_installed_raises_without_executable_witness :
  is_installed Sample.settings
    (Sample.runner [] None None Sample.no_options) Sample.empty_world =
  (Raise (ValueError "runner_executable not set for zdoom"),
   Sample.empty_world).
Proof.
  apply (is_installed_raises_without_executable Sample.settings
           (Sample.runner [] None None Sample.no_options)
           Sample.empty_world).
  - reflexivity.
  - intros p Hp. vm_compute in Hp. discriminate Hp.
Defined.

Lemma extract_failure_keeps_archive_witness :
  ∃ e w2,
    extract Sample.settings
      (Sample.externals (Ok None) Sample.extract_corrupt)
      (Sample.runner [] None None Sample.no_options)
      "/cache/zdoom.tar.xz" "/runners" false None SampleRun.downloaded =
      (Raise e, w2)
    ∧ fs w2 !! "/cache/zdoom.tar.xz" = Some (File "archive bytes" false).
Proof.
  destruct (extract_failure_keeps_archive Sample.settings
              (Sample.externals (Ok None) Sample.extract_corrupt)
              (Sample.runner [] None None Sample.no_options)
              "/cache/zdoom.tar.xz" "/runners" false None
              SampleRun.downloaded SampleRun.downloaded
              "unexpected end of data")
    as (e & w2 & Hrun & _ & Hkept).
  - eexists. vm_compute. reflexivity.
  - reflexivity.
  - exists e, w2. split; [exact Hrun|]. apply Hkept.
    vm_compute. reflexivity.
Defined.

(** ** The whole sequences on the sample installation *)

(** With every required library present the same run reaches the
    launcher: one command is constructed, then started. *)
Example run_reaches_launcher :
  let r := run Sample.settings Sample.linux
             (Sample.externals (Ok None) Sample.extract_ok)
             SampleRun.needs_present_libs SampleRun.installed in
  returned r = true
  ∧ length (launcher r.2) = 2
  ∧ last (launcher r.2) = Some (Started ["/runners/zdoom/zdoom"]).
Proof. vm_compute. by repeat split. Qed.

(** Installing from a fixed address with a corrupt archive: the
    installation error comes out of the downloader's continuation and the
    archive is still in the cache directory. *)
Example install_corrupt_archive_stays_in_cache :
  let r := install Sample.settings Sample.linux
             (Sample.externals (Ok None) Sample.extract_corrupt)
             SampleInstall.fixed_url None (Some Sample.store_then_call) None
             Sample.empty_world in
  r.1 = Raise (RunnerInstallationError
                 "Failed to extract /cache/zdoom.tar.xz: unexpected end of data"
                 (Some (ExtractFailure "unexpected end of data")))
  ∧ fs r.2 !! "/cache/zdoom.tar.xz" = Some (File "archive bytes" false).
Proof. vm_compute. by split. Qed.

(** The same installation with a sound archive removes it from the cache
    and unpacks into the runner's directory. *)
Example install_sound_archive_leaves_cache :
  let r := install Sample.settings Sample.linux
             (Sample.externals (Ok None) Sample.extract_ok)
             SampleInstall.fixed_url None (Some Sample.store_then_call) None
             Sample.empty_world in
  returned r = true
  ∧ fs r.2 !! "/cache/zdoom.tar.xz" = None
  ∧ fs r.2 !! "/runners/zdoom" = Some Dir.
Proof. vm_compute. by repeat split. Qed.

(** * Further properties of the runner *)

(** ** Version selection, case by case *)

Section PickFacts.
Context (LINUX_SYSTEM : LinuxSystem).

(** The selection of lines 371-387 by the number of candidates that have
    the architecture looked for. *)
Lemma pick_version_cases versions arch :
  pick_version LINUX_SYSTEM versions arch =
  match filter (λ v, v_architecture v = arch) versions with
  | [] =>
      if is_64_bit LINUX_SYSTEM then
        match versions with
        | [] => None
        | [v] => Some v
        | _ => head (filter (λ v, v_default v = true) versions)
        end
      else None
  | [v] => Some v
  | v :: rest =>
      match filter (λ v, v_default v = true) (v :: rest) with
      | d :: _ => Some d
      | [] => Some v
      end
  end.
Proof.
  unfold pick_version.
  destruct (filter (λ v, v_architecture v = arch) versions)
    as [|v [|v2 rest]].
  - cbn [length Nat.eqb Nat.ltb Nat.leb].
    destruct versions as [|c [|c2 cs]]; cbn [length Nat.eqb Nat.ltb Nat.leb].
    + by destruct (is_64_bit LINUX_SYSTEM).
    + by destruct (is_64_bit LINUX_SYSTEM).
    + destruct (is_64_bit LINUX_SYSTEM); [|done]. simpl.
      by destruct (head _).
  - done.
  - change (Nat.eqb (length (v :: v2 :: rest)) 1) with false.
    change (Nat.ltb 1 (length (v :: v2 :: rest))) with true.
    cbv iota.
    by destruct (filter (λ v, v_default v = true) (v :: v2 :: rest)).
Qed.

Lemma pick_version_elem versions arch v :
  pick_version LINUX_SYSTEM versions arch = Some v → v ∈ versions.
Proof.
  rewrite pick_version_cases.
  destruct (filter (λ v, v_architecture v = arch) versions)
    as [|c [|c2 rest]] eqn:Hf.
  - destruct (is_64_bit LINUX_SYSTEM); [|done].
    destruct versions as [|x [|x2 xs]]; [done| |].
    + intros [= ->]. apply list_elem_of_here.
    + intros Hhead%head_Some_elem_of.
      by apply list_elem_of_filter in Hhead as [_ ?].
  - intros [= <-].
    assert (c ∈ filter (λ v, v_architecture v = arch) versions) as Hin
      by (rewrite Hf; apply list_elem_of_here).
    by apply list_elem_of_filter in Hin as [_ ?].
  - assert (∀ x, x ∈ c :: c2 :: rest → x ∈ versions) as Hsub.
    { intros x Hx. rewrite <- Hf in Hx.
      by apply list_elem_of_filter in Hx as [_ ?]. }
    destruct (filter (λ v, v_default v = true) (c :: c2 :: rest))
      as [|d ds] eqn:Hd.
    + intros [= <-]. apply Hsub, list_elem_of_here.
    + intros [= <-]. apply Hsub.
      assert (d ∈ filter (λ v, v_default v = true) (c :: c2 :: rest)) as Hin
        by (rewrite Hd; apply list_elem_of_here).
      by apply list_elem_of_filter in Hin as [_ ?].
Qed.

(** When some candidate has the architecture looked for, the selection
    succeeds with a candidate of that architecture. *)
Lemma pick_version_prefers_arch versions arch c :
  c ∈ versions → v_architecture c = arch →
  ∃ v, pick_version LINUX_SYSTEM versions arch = Some v
       ∧ v_architecture v = arch.
Proof.
  intros Hc Harch. rewrite pick_version_cases.
  assert (c ∈ filter (λ v, v_architecture v = arch) versions) as Hin
    by (by apply list_elem_of_filter).
  assert (∀ x, x ∈ filter (λ v, v_architecture v = arch) versions →
               v_architecture x = arch) as Hall.
  { intros x Hx. by apply list_elem_of_filter in Hx as [? _]. }
  destruct (filter (λ v, v_architecture v = arch) versions)
    as [|m [|m2 rest]].
  - by apply elem_of_nil in Hin.
  - exists m. split; [done|]. apply Hall, list_elem_of_here.
  - destruct (filter (λ v, v_default v = true) (m :: m2 :: rest))
      as [|d ds] eqn:Hd.
    + exists m. split; [done|]. apply Hall, list_elem_of_here.
    + exists d. split; [done|]. apply Hall.
      assert (d ∈ filter (λ v, v_default v = true) (m :: m2 :: rest)) as Hdin
        by (rewrite Hd; apply list_elem_of_here).
      by apply list_elem_of_filter in Hdin as [_ ?].
Qed.

(** Off a 64-bit system nothing of another architecture is selected. *)
Lemma pick_version_32bit_arch versions arch v :
  is_64_bit LINUX_SYSTEM = false →
  pick_version LINUX_SYSTEM versions arch = Some v →
  v_architecture v = arch.
Proof.
  intros H32 Hpick.
  destruct (filter (λ v, v_architecture v = arch) versions)
    as [|m rest] eqn:Hf.
  - rewrite pick_version_cases, Hf, H32 in Hpick. done.
  - assert (m ∈ filter (λ v, v_architecture v = arch) versions) as Hin
      by (rewrite Hf; apply list_elem_of_here).
    apply list_elem_of_filter in Hin as [Ha Hm].
    destruct (pick_version_prefers_arch versions arch m Hm Ha)
      as (v' & Hv' & Harch). congruence.
Qed.
End PickFacts.

(** ** A request that names its architecture *)

(** C3. A requested version ending in ["-i386"] or ["-x86_64"] is split
    at that suffix. What precedes the suffix is the exact version the
    candidates are filtered to: only builds whose version equals it are
    kept, and a build that is returned has that version. The suffix is
    the architecture the candidates are then filtered by, in place of
    the local one: as soon as the catalog lists a build of that version
    and that architecture, a build of that version and that architecture
    is returned. In particular, with the catalog holding version 1.0 for
    x86_64 (default) and for i386, requesting ["1.0-i386"] on an x86_64
    system returns the i386 entry; and it still returns the 1.0 entry
    for i386 when the catalog also holds a default 0.9 build for
    i386. *)
Theorem get_runner_version_suffix_override :
  (∀ (settings : Settings) (LINUX_SYSTEM : LinuxSystem) (ext : Externals)
     (self : Runner) (base suffix : string)
     (info : gmap string catalog_value) (w : World),
     suffix = "i386" ∨ suffix = "x86_64" →
     request_get_json ext (catalog_url settings self) = Ok (Some info) →
     info ≠ ∅ →
     filter_requested (Some (base +:+ "-" +:+ suffix))
       (catalog_versions info) (sys_arch LINUX_SYSTEM) =
       Ok (filter (λ v, v_version v = base) (catalog_versions info), suffix)
     ∧ (get_runner_version settings LINUX_SYSTEM ext self
          (Some (base +:+ "-" +:+ suffix)) w).1 =
       Ok (pick_version LINUX_SYSTEM
             (filter (λ v, v_version v = base) (catalog_versions info))
             suffix)
     ∧ (∀ v, (get_runner_version settings LINUX_SYSTEM ext self
                (Some (base +:+ "-" +:+ suffix)) w).1 = Ok (Some v) →
             v_version v = base ∧ v ∈ catalog_versions info)
     ∧ (∀ c, c ∈ catalog_versions info →
             v_version c = base → v_architecture c = suffix →
             ∃ v, (get_runner_version settings LINUX_SYSTEM ext self
                     (Some (base +:+ "-" +:+ suffix)) w).1 = Ok (Some v)
                  ∧ v_version v = base ∧ v_architecture v = suffix))
  ∧ (get_runner_version Sample.settings Sample.linux
       (Sample.externals (Ok (Some Sample.catalog)) Sample.extract_ok)
       (Sample.runner [] None None Sample.no_options)
       (Some "1.0-i386") Sample.empty_world).1 =
    Ok (Some Sample.entry_i386)
  ∧ (get_runner_version Sample.settings Sample.linux
       (SampleCatalog.externals_for SampleCatalog.two_versions)
       SampleCatalog.plain_runner
       (Some "1.0-i386") Sample.empty_world).1 =
    Ok (Some Sample.entry_i386).
Proof.
  split; [|split].
  - intros settings LINUX_SYSTEM ext self base suffix info w Hsuf Hreq Hne.
    assert (filter_requested (Some (base +:+ "-" +:+ suffix))
              (catalog_versions info) (sys_arch LINUX_SYSTEM) =
            Ok (filter (λ v, v_version v = base) (catalog_versions info),
                suffix)) as Hfr
      by (by apply filter_requested_suffix).
    assert ((get_runner_version settings LINUX_SYSTEM ext self
               (Some (base +:+ "-" +:+ suffix)) w).1 =
            Ok (pick_version LINUX_SYSTEM
                  (filter (λ v, v_version v = base) (catalog_versions info))
                  suffix)) as Hget.
    { rewrite (get_runner_version_with_catalog _ _ _ _ _ _ _ Hreq Hne).
      by rewrite Hfr. }
    split; [exact Hfr|]. split; [exact Hget|]. split.
    + intros v Hv. rewrite Hget in Hv. injection Hv as Hpick.
      apply pick_version_elem in Hpick.
      by apply list_elem_of_filter in Hpick.
    + intros c Hc Hver Harch.
      assert (c ∈ filter (λ v, v_version v = base) (catalog_versions info))
        as Hin by (by apply list_elem_of_filter).
      destruct (pick_version_prefers_arch LINUX_SYSTEM _ _ c Hin Harch)
        as (v & Hpick & Hv).
      exists v. rewrite Hget, Hpick. split; [done|]. split; [|done].
      apply pick_version_elem in Hpick.
      by apply list_elem_of_filter in Hpick as [? _].
  - by vm_compute.
  - by vm_compute.
Qed.

Lemma get_runner_version_suffix_override_witness :
  ∃ v,
    (get_runner_version Sample.settings Sample.linux
       (SampleCatalog.externals_for SampleCatalog.two_versions)
       SampleCatalog.plain_runner
       (Some ("1.0" +:+ "-" +:+ "i386")) Sample.empty_world).1 =
      Ok (Some v)
    ∧ v_version v = "1.0" ∧ v_architecture v = "i386".
Proof.
  destruct (proj1 get_runner_version_suffix_override Sample.settings
              Sample.linux
              (SampleCatalog.externals_for SampleCatalog.two_versions)
              SampleCatalog.plain_runner
              "1.0" "i386" (Sample.catalog_of SampleCatalog.two_versions)
              Sample.empty_world)
    as (_ & _ & _ & Hlisted).
  - by left.
  - reflexivity.
  - apply insert_non_empty.
  - apply (Hlisted Sample.entry_i386).
    + change (Sample.entry_i386 ∈ SampleCatalog.two_versions).
      apply list_elem_of_further, list_elem_of_further, list_elem_of_here.
    + reflexivity.
    + reflexivity.
Defined.

(** ** What version resolution can and cannot return *)

Module StrSplit.

Lemma endswith_inv s suf :
  Str.endswith s suf = true → ∃ a, s = a +:+ suf.
Proof.
  induction s as [|c s IH].
  - destruct suf as [|c suf]; simpl; [intros _; by exists ""|done].
  - change (Str.endswith (String c s) suf) with
      (if String.eqb (String c s) suf then true else Str.endswith s suf).
    destruct (String.eqb (String c s) suf) eqn:He.
    + apply String.eqb_eq in He as <-. intros _. by exists "".
    + intros [a ->]%IH. by exists (String c a).
Qed.

End StrSplit.

Section ResolutionFacts.
Context (settings : Settings) (LINUX_SYSTEM : LinuxSystem)
        (ext : Externals) (self : Runner).

(** The requested-version filter never fails: a request is absent, plain,
    or ends in one of the two architecture suffixes. *)
Lemma filter_requested_cases version versions arch :
  (Str.truthy version = false
   ∧ filter_requested version versions arch = Ok (versions, arch))
  ∨ (Str.truthy version = true
     ∧ filter_requested version versions arch =
       Ok (filter (has_version (Str.show version)) versions, arch))
  ∨ (∃ base suffix,
       (suffix = "i386" ∨ suffix = "x86_64")
       ∧ Str.truthy version = true
       ∧ Str.show version = base +:+ "-" +:+ suffix
       ∧ filter_requested version versions arch =
         Ok (filter (has_version base) versions, suffix)).
Proof.
  destruct (Str.truthy version) eqn:Htruthy.
  - destruct (Str.endswith (Str.show version) "-i386") eqn:H32.
    + right; right. apply StrSplit.endswith_inv in H32 as [base Hbase].
      exists base, "i386". split; [by left|]. split; [done|].
      split; [done|].
      destruct version as [s|]; [|done]. simpl in Hbase. subst s.
      by apply (filter_requested_suffix base "i386"); left.
    + destruct (Str.endswith (Str.show version) "-x86_64") eqn:H64.
      * right; right. apply StrSplit.endswith_inv in H64 as [base Hbase].
        exists base, "x86_64". split; [by right|]. split; [done|].
        split; [done|].
        destruct version as [s|]; [|done]. simpl in Hbase. subst s.
        by apply (filter_requested_suffix base "x86_64"); right.
      * right; left. split; [done|].
        unfold filter_requested. by rewrite Htruthy, H32, H64.
  - left. split; [done|]. by apply filter_requested_none.
Qed.

Lemma filter_requested_sub version versions arch cands a :
  filter_requested version versions arch = Ok (cands, a) →
  ∀ v, v ∈ cands → v ∈ versions.
Proof.
  intros Hfr v Hv.
  destruct (filter_requested_cases version versions arch)
    as [[_ H]|[[_ H]|(base & suffix & _ & _ & _ & H)]];
    rewrite H in Hfr; injection Hfr as <- <-; [done| |];
    by apply list_elem_of_filter in Hv as [_ ?].
Qed.

(** An exception of the request that is not an [HTTPError] is not caught. *)
Lemma get_runner_version_foreign_error version w e :
  request_get_json ext (catalog_url settings self) = Raise e →
  (∀ msg, e ≠ HTTPError msg) →
  get_runner_version settings LINUX_SYSTEM ext self version w =
    (Raise e, with_log (INFO, announcement self version) w).
Proof.
  intros Hreq Hforeign. unfold get_runner_version.
  unfold bind at 1. unfold logger at 1. unfold bind at 1.
  unfold try_except, bind at 1. unfold lift at 1. rewrite Hreq.
  destruct e; try done. by destruct (Hforeign msg).
Qed.

(** All the ways [get_runner_version] can end. *)
Lemma get_runner_version_outcome version w :
  (get_runner_version settings LINUX_SYSTEM ext self version w).1 = Ok None
  ∨ (∃ e, request_get_json ext (catalog_url settings self) = Raise e
          ∧ (∀ msg, e ≠ HTTPError msg)
          ∧ (get_runner_version settings LINUX_SYSTEM ext self version w).1
            = Raise e)
  ∨ (∃ info cands a,
       request_get_json ext (catalog_url settings self) = Ok (Some info)
       ∧ info ≠ ∅
       ∧ filter_requested version (catalog_versions info)
           (sys_arch LINUX_SYSTEM) = Ok (cands, a)
       ∧ (get_runner_version settings LINUX_SYSTEM ext self version w).1
         = Ok (pick_version LINUX_SYSTEM cands a)).
Proof.
  destruct (request_get_json ext (catalog_url settings self))
    as [info|e] eqn:Hreq.
  - destruct (decide (default ∅ info = ∅)) as [Hempty|Hne].
    + left. by rewrite (get_runner_version_empty _ _ _ _ _ _ _ Hreq Hempty).
    + destruct info as [info|]; [|done]. simpl in Hne.
      right; right.
      rewrite (get_runner_version_with_catalog _ _ _ _ _ _ _ Hreq Hne).
      destruct (filter_requested_cases version (catalog_versions info)
                  (sys_arch LINUX_SYSTEM))
        as [[_ H]|[[_ H]|(base & suffix & _ & _ & _ & H)]];
        rewrite H; by eexists info, _, _.
  - assert ((∃ msg, e = HTTPError msg) ∨ (∀ msg, e ≠ HTTPError msg))
      as [[msg ->]|Hf] by (destruct e; eauto).
    + left. by rewrite (get_runner_version_http_error _ _ _ _ _ _ _ Hreq).
    + right; left. exists e. split; [done|]. split; [done|].
      by rewrite (get_runner_version_foreign_error _ _ _ Hreq Hf).
Qed.
End ResolutionFacts.

Section ResolutionCarried.
Context (settings : Settings) (LINUX_SYSTEM : LinuxSystem)
        (ext : Externals) (self : Runner).

(** A candidate left by a request carries the requested version. *)
Lemma filter_requested_carries version versions arch cands a v :
  Str.truthy version = true →
  filter_requested version versions arch = Ok (cands, a) →
  v ∈ cands →
  Str.show version = v_version v
  ∨ Str.show version = v_version v +:+ "-i386"
  ∨ Str.show version = v_version v +:+ "-x86_64".
Proof.
  intros Htruthy Hfr Hv.
  destruct (filter_requested_cases version versions arch)
    as [[Hf _]|[[_ H]|(base & suffix & Hsuf & _ & Hshow & H)]].
  - congruence.
  - rewrite H in Hfr. injection Hfr as <- <-.
    apply list_elem_of_filter in Hv as [Hv _]. left. by rewrite Hv.
  - rewrite H in Hfr. injection Hfr as <- <-.
    apply list_elem_of_filter in Hv as [Hv _]. unfold has_version in Hv.
    rewrite Hshow, Hv. destruct Hsuf as [-> | ->]; auto.
Qed.
End ResolutionCarried.

(** X1. Whatever was requested, a build returned by [get_runner_version]
    is one of the entries of the catalog's [versions] list: the catalog
    was fetched, and the build is listed in it. *)
Theorem get_runner_version_returns_catalog_entry
    (settings : Settings) (LINUX_SYSTEM : LinuxSystem) (ext : Externals)
    (self : Runner) (version : option string) (w : World)
    (v : VersionDescriptor) :
  (get_runner_version settings LINUX_SYSTEM ext self version w).1 =
    Ok (Some v) →
  ∃ info, request_get_json ext (catalog_url settings self) = Ok (Some info)
          ∧ v ∈ catalog_versions info.
Proof.
  intros Hres.
  destruct (get_runner_version_outcome settings LINUX_SYSTEM ext self
              version w)
    as [H|[(e & _ & _ & H)|(info & cands & a & Hreq & _ & Hfr & H)]];
    rewrite H in Hres; [done|done|].
  injection Hres as Hpick. exists info. split; [done|].
  apply (filter_requested_sub _ _ _ _ _ Hfr).
  by apply (pick_version_elem LINUX_SYSTEM _ a).
Qed.

(** X2. When a version is requested, a build that is returned carries
    exactly that version, or the request is that version followed by
    ["-i386"] or ["-x86_64"]: no other version is ever substituted. *)
Theorem get_runner_version_respects_request
    (settings : Settings) (LINUX_SYSTEM : LinuxSystem) (ext : Externals)
    (self : Runner) (version : option string) (w : World)
    (v : VersionDescriptor) :
  Str.truthy version = true →
  (get_runner_version settings LINUX_SYSTEM ext self version w).1 =
    Ok (Some v) →
  Str.show version = v_version v
  ∨ Str.show version = v_version v +:+ "-i386"
  ∨ Str.show version = v_version v +:+ "-x86_64".
Proof.
  intros Htruthy Hres.
  destruct (get_runner_version_outcome settings LINUX_SYSTEM ext self
              version w)
    as [H|[(e & _ & _ & H)|(info & cands & a & Hreq & _ & Hfr & H)]];
    rewrite H in Hres; [done|done|].
  injection Hres as Hpick.
  apply (filter_requested_carries _ _ _ _ _ _ Htruthy Hfr).
  by apply (pick_version_elem LINUX_SYSTEM _ a).
Qed.

(** X3. With no requested version, as soon as the catalog lists a build
    for the local architecture, a build is returned and it has the local
    architecture: a foreign build is never preferred, whatever the
    default flags say. *)
Theorem get_runner_version_prefers_local_architecture
    (settings : Settings) (LINUX_SYSTEM : LinuxSystem) (ext : Externals)
    (self : Runner) (version : option string)
    (info : gmap string catalog_value) (w : World) (c : VersionDescriptor) :
  Str.truthy version = false →
  request_get_json ext (catalog_url settings self) = Ok (Some info) →
  c ∈ catalog_versions info →
  v_architecture c = sys_arch LINUX_SYSTEM →
  ∃ v, (get_runner_version settings LINUX_SYSTEM ext self version w).1 =
         Ok (Some v)
       ∧ v_architecture v = sys_arch LINUX_SYSTEM
       ∧ v ∈ catalog_versions info.
Proof.
  intros Hnone Hreq Hc Harch.
  assert (info ≠ ∅) as Hne.
  { intros ->. unfold catalog_versions in Hc.
    rewrite lookup_empty in Hc. by apply elem_of_nil in Hc. }
  rewrite (get_runner_version_with_catalog _ _ _ _ _ _ _ Hreq Hne).
  rewrite (filter_requested_none _ _ _ Hnone). simpl.
  destruct (pick_version_prefers_arch LINUX_SYSTEM _ _ c Hc Harch)
    as (v & Hpick & Hv).
  exists v. rewrite Hpick. split; [done|]. split; [done|].
  by apply (pick_version_elem LINUX_SYSTEM _ (sys_arch LINUX_SYSTEM)).
Qed.

(** X4. On a system that is not 64-bit a returned build has the local
    architecture, unless the request named an architecture by its suffix,
    and then the build has that one. *)
Theorem get_runner_version_32bit_architecture
    (settings : Settings) (LINUX_SYSTEM : LinuxSystem) (ext : Externals)
    (self : Runner) (version : option string) (w : World)
    (v : VersionDescriptor) :
  is_64_bit LINUX_SYSTEM = false →
  (get_runner_version settings LINUX_SYSTEM ext self version w).1 =
    Ok (Some v) →
  v_architecture v = sys_arch LINUX_SYSTEM
  ∨ Str.show version = v_version v +:+ "-" +:+ v_architecture v.
Proof.
  intros H32 Hres.
  destruct (get_runner_version_outcome settings LINUX_SYSTEM ext self
              version w)
    as [H|[(e & _ & _ & H)|(info & cands & a & Hreq & _ & Hfr & H)]];
    rewrite H in Hres; [done|done|].
  injection Hres as Hpick.
  pose proof (pick_version_32bit_arch LINUX_SYSTEM _ _ _ H32 Hpick) as Ha.
  pose proof (pick_version_elem LINUX_SYSTEM _ _ _ Hpick) as Hin.
  destruct (filter_requested_cases version (catalog_versions info)
              (sys_arch LINUX_SYSTEM))
    as [[_ Hc]|[[_ Hc]|(base & suffix & _ & _ & Hshow & Hc)]];
    rewrite Hc in Hfr; injection Hfr as <- <-; [by left|by left|].
  right. apply list_elem_of_filter in Hin as [Hv _].
  unfold has_version in Hv. by rewrite Hshow, Hv, Ha.
Qed.

(** X5. With no requested version, a build that is the only one of the
    local architecture is returned, whether or not it is flagged default
    and whatever builds of other architectures are listed. *)
Theorem get_runner_version_unique_match
    (settings : Settings) (LINUX_SYSTEM : LinuxSystem) (ext : Externals)
    (self : Runner) (version : option string)
    (info : gmap string catalog_value) (w : World) (v : VersionDescriptor) :
  Str.truthy version = false →
  request_get_json ext (catalog_url settings self) = Ok (Some info) →
  filter (λ c, v_architecture c = sys_arch LINUX_SYSTEM)
         (catalog_versions info) = [v] →
  (get_runner_version settings LINUX_SYSTEM ext self version w).1 =
    Ok (Some v).
Proof.
  intros Hnone Hreq Hone.
  assert (info ≠ ∅) as Hne.
  { intros ->. unfold catalog_versions in Hone.
    by rewrite lookup_empty in Hone. }
  rewrite (get_runner_version_with_catalog _ _ _ _ _ _ _ Hreq Hne).
  rewrite (filter_requested_none _ _ _ Hnone). simpl.
  by rewrite pick_version_cases, Hone.
Qed.

(** X6. With no requested version, no build of the local architecture
    and several builds listed, a 64-bit system gets the first build
    flagged default, and nothing at all when none is flagged: there is no
    fallback to the first build. *)
Theorem get_runner_version_foreign_default_or_nothing
    (settings : Settings) (LINUX_SYSTEM : LinuxSystem) (ext : Externals)
    (self : Runner) (version : option string)
    (info : gmap string catalog_value) (w : World) :
  Str.truthy version = false →
  request_get_json ext (catalog_url settings self) = Ok (Some info) →
  filter (λ c, v_architecture c = sys_arch LINUX_SYSTEM)
         (catalog_versions info) = [] →
  1 < length (catalog_versions info) →
  is_64_bit LINUX_SYSTEM = true →
  (get_runner_version settings LINUX_SYSTEM ext self version w).1 =
    Ok (head (filter (λ c, v_default c = true) (catalog_versions info))).
Proof.
  intros Hnone Hreq Hforeign Hlen H64.
  assert (info ≠ ∅) as Hne.
  { intros ->. unfold catalog_versions in Hlen.
    rewrite lookup_empty in Hlen. simpl in Hlen. lia. }
  rewrite (get_runner_version_with_catalog _ _ _ _ _ _ _ Hreq Hne).
  rewrite (filter_requested_none _ _ _ Hnone). simpl.
  rewrite pick_version_cases, Hforeign, H64.
  destruct (catalog_versions info) as [|c [|c2 cs]]; simpl in Hlen;
    [lia|lia|done].
Qed.

(** X7. [get_runner_version] raises exactly when the catalog request
    raises something other than an [HTTPError], and then it raises that
    very exception: the split of an architecture suffix never fails, and
    only [HTTPError] is turned into "no data". *)
Theorem get_runner_version_raises_iff_foreign_error
    (settings : Settings) (LINUX_SYSTEM : LinuxSystem) (ext : Externals)
    (self : Runner) (version : option string) (w : World) (e : exn) :
  (get_runner_version settings LINUX_SYSTEM ext self version w).1 = Raise e
  ↔ request_get_json ext (catalog_url settings self) = Raise e
    ∧ ∀ msg, e ≠ HTTPError msg.
Proof.
  split.
  - intros Hres.
    destruct (get_runner_version_outcome settings LINUX_SYSTEM ext self
                version w)
      as [H|[(e' & Hreq & Hf & H)|(info & cands & a & _ & _ & _ & H)]];
      rewrite H in Hres; [done| |done].
    by injection Hres as <-.
  - intros [Hreq Hf].
    by rewrite (get_runner_version_foreign_error _ _ _ _ _ _ _ Hreq Hf).
Qed.

(** X8. Requesting a version the catalog does not list (with or without
    an architecture suffix) resolves to nothing, and [install], for a
    runner without a fixed download address, then fails with the
    installation error naming the runner and the request. *)
Theorem install_unknown_version_fails
    (settings : Settings) (LINUX_SYSTEM : LinuxSystem) (ext : Externals)
    (self : Runner) (version : option string)
    (downloader : option Downloader) (callback : option (M unit))
    (info : option (gmap string catalog_value)) (w : World) :
  Str.truthy (download_url self) = false →
  Str.truthy version = true →
  request_get_json ext (catalog_url settings self) = Ok info →
  (∀ v, v ∈ catalog_versions (default ∅ info) →
        Str.show version ≠ v_version v
        ∧ Str.show version ≠ v_version v +:+ "-i386"
        ∧ Str.show version ≠ v_version v +:+ "-x86_64") →
  (get_runner_version settings LINUX_SYSTEM ext self version w).1 = Ok None
  ∧ (install settings LINUX_SYSTEM ext self version downloader callback w).1
    = Raise (RunnerInstallationError
               ("Failed to retrieve " +:+ name self +:+ " ("
                +:+ Str.show version +:+ ") information") None).
Proof.
  intros Hurl Htruthy Hreq Hunknown.
  assert (∀ w0, (get_runner_version settings LINUX_SYSTEM ext self
                   version w0).1 = Ok None) as Hnone.
  { intros w0.
    destruct (get_runner_version_outcome settings LINUX_SYSTEM ext self
                version w0)
      as [H|[(e & Hreq' & _)|(info' & cands & a & Hreq' & _ & Hfr & H)]];
      [done|congruence|].
    rewrite H. rewrite Hreq' in Hreq. injection Hreq as <-.
    destruct (pick_version LINUX_SYSTEM cands a) as [v|] eqn:Hpick; [|done].
    exfalso.
    pose proof (pick_version_elem LINUX_SYSTEM _ _ _ Hpick) as Hin.
    destruct (Hunknown v (filter_requested_sub _ _ _ _ _ Hfr v Hin))
      as (H1 & H2 & H3).
    destruct (filter_requested_carries _ _ _ _ _ v Htruthy Hfr Hin)
      as [?|[?|?]]; done. }
  split; [apply Hnone|].
  unfold install. rewrite Hurl.
  unfold bind at 1. unfold logger at 1. unfold bind at 1.
  specialize (Hnone (with_log
    (DEBUG, install_announcement ext self version downloader callback) w)).
  destruct (get_runner_version _ _ _ _ _ _) as [r w']. simpl in Hnone.
  by subst r.
Qed.

(** *** On sample catalogs *)

Lemma get_runner_version_returns_catalog_entry_witness :
  ∃ info,
    request_get_json
      (SampleCatalog.externals_for [Sample.entry_x86_64; Sample.entry_i386])
      (catalog_url Sample.settings SampleCatalog.plain_runner) =
      Ok (Some info)
    ∧ Sample.entry_x86_64 ∈ catalog_versions info.
Proof.
  apply (get_runner_version_returns_catalog_entry Sample.settings
           Sample.linux
           (SampleCatalog.externals_for
              [Sample.entry_x86_64; Sample.entry_i386])
           SampleCatalog.plain_runner None Sample.empty_world
           Sample.entry_x86_64).
  vm_compute. reflexivity.
Defined.

Lemma get_runner_version_respects_request_witness :
  "1.0-i386" = v_version Sample.entry_i386
  ∨ "1.0-i386" = v_version Sample.entry_i386 +:+ "-i386"
  ∨ "1.0-i386" = v_version Sample.entry_i386 +:+ "-x86_64".
Proof.
  apply (get_runner_version_respects_request Sample.settings Sample.linux
           (SampleCatalog.externals_for
              [Sample.entry_x86_64; Sample.entry_i386])
           SampleCatalog.plain_runner (Some "1.0-i386") Sample.empty_world
           Sample.entry_i386).
  - reflexivity.
  - vm_compute. reflexivity.
Defined.

Lemma get_runner_version_prefers_local_architecture_witness :
  ∃ v,
    (get_runner_version Sample.settings Sample.linux
       (SampleCatalog.externals_for
          [SampleCatalog.entry_arm_default; Sample.entry_x86_64_old])
       SampleCatalog.plain_runner None Sample.empty_world).1 = Ok (Some v)
    ∧ v_architecture v = "x86_64"
    ∧ v ∈ catalog_versions
            (Sample.catalog_of
               [SampleCatalog.entry_arm_default; Sample.entry_x86_64_old]).
Proof.
  apply (get_runner_version_prefers_local_architecture Sample.settings
           Sample.linux
           (SampleCatalog.externals_for
              [SampleCatalog.entry_arm_default; Sample.entry_x86_64_old])
           SampleCatalog.plain_runner None
           (Sample.catalog_of
              [SampleCatalog.entry_arm_default; Sample.entry_x86_64_old])
           Sample.empty_world Sample.entry_x86_64_old).
  - reflexivity.
  - reflexivity.
  - change (Sample.entry_x86_64_old ∈
              [SampleCatalog.entry_arm_default; Sample.entry_x86_64_old]).
    apply list_elem_of_further, list_elem_of_here.
  - reflexivity.
Defined.

Lemma get_runner_version_32bit_architecture_witness :
  v_architecture Sample.entry_i386 = "i386"
  ∨ Str.show None =
    v_version Sample.entry_i386 +:+ "-" +:+ v_architecture Sample.entry_i386.
Proof.
  apply (get_runner_version_32bit_architecture Sample.settings
           SampleCatalog.linux32
           (SampleCatalog.externals_for
              [Sample.entry_x86_64; Sample.entry_i386])
           SampleCatalog.plain_runner None Sample.empty_world
           Sample.entry_i386).
  - reflexivity.
  - vm_compute. reflexivity.
Defined.

Lemma get_runner_version_unique_match_witness :
  (get_runner_version Sample.settings Sample.linux
     (SampleCatalog.externals_for
        [SampleCatalog.entry_i386_default; Sample.entry_x86_64_old])
     SampleCatalog.plain_runner None Sample.empty_world).1 =
  Ok (Some Sample.entry_x86_64_old).
Proof.
  apply (get_runner_version_unique_match Sample.settings Sample.linux
           (SampleCatalog.externals_for
              [SampleCatalog.entry_i386_default; Sample.entry_x86_64_old])
           SampleCatalog.plain_runner None
           (Sample.catalog_of
              [SampleCatalog.entry_i386_default; Sample.entry_x86_64_old])
           Sample.empty_world Sample.entry_x86_64_old).
  - reflexivity.
  - reflexivity.
  - vm_compute. reflexivity.
Defined.

Lemma get_runner_version_foreign_default_or_nothing_witness :
  (get_runner_version Sample.settings Sample.linux
     (SampleCatalog.externals_for [Sample.entry_arm; Sample.entry_i386])
     SampleCatalog.plain_runner None Sample.empty_world).1 = Ok None.
Proof.
  apply (get_runner_version_foreign_default_or_nothing Sample.settings
           Sample.linux
           (SampleCatalog.externals_for [Sample.entry_arm; Sample.entry_i386])
           SampleCatalog.plain_runner None
           (Sample.catalog_of [Sample.entry_arm; Sample.entry_i386])
           Sample.empty_world).
  - reflexivity.
  - reflexivity.
  - vm_compute. reflexivity.
  - vm_compute. lia.
  - reflexivity.
Defined.

Lemma install_unknown_version_fails_witness :
  (install Sample.settings Sample.linux
     (SampleCatalog.externals_for [Sample.entry_x86_64; Sample.entry_i386])
     SampleCatalog.plain_runner (Some "3.0") (Some Sample.store_then_call)
     None Sample.empty_world).1 =
  Raise (RunnerInstallationError
           "Failed to retrieve zdoom (3.0) information" None).
Proof.
  apply (install_unknown_version_fails Sample.settings Sample.linux
           (SampleCatalog.externals_for
              [Sample.entry_x86_64; Sample.entry_i386])
           SampleCatalog.plain_runner (Some "3.0")
           (Some Sample.store_then_call) None
           (Some (Sample.catalog_of [Sample.entry_x86_64; Sample.entry_i386]))
           Sample.empty_world).
  - reflexivity.
  - reflexivity.
  - reflexivity.
  - intros v Hv.
    change (v ∈ [Sample.entry_x86_64; Sample.entry_i386]) in Hv.
    apply elem_of_cons in Hv as [-> | Hv];
      [|apply list_elem_of_singleton in Hv as ->];
      by repeat split.
Defined.

(** ** The environment [get_env] builds *)

Section EnvShape.
Context (settings : Settings) (ext : Externals) (self : Runner).

Lemma use_runtime_result w :
  use_runtime ext self w =
    (Ok (negb (RUNTIME_DISABLED ext
               || disable_runtime (system_config self))),
     (use_runtime ext self w).2)
  ∧ fs (use_runtime ext self w).2 = fs w.
Proof.
  unfold use_runtime.
  destruct (RUNTIME_DISABLED ext); [done|].
  by destruct (disable_runtime (system_config self)).
Qed.

(** A successful [get_env] in pieces: the cache directory is ensured,
    the controller rule writes at most its own variable, the files are
    not touched afterwards, and the rest is [env_after_controller]. *)
Lemma get_env_Ok_inv os_env disable_runtime_arg w result w' :
  get_env settings ext self os_env disable_runtime_arg w = (Ok result, w') →
  ∃ env3 w1,
    shader_cache_dir settings self w =
      (Ok (Path.join (SHADER_CACHE_DIR settings) (name self)), w1)
    ∧ fs w' = fs w1
    ∧ (∀ k, k ≠ "SDL_GAMECONTROLLERCONFIG" →
         env3 !! k =
         (<["__GL_SHADER_DISK_CACHE_PATH" :=
              Path.join (SHADER_CACHE_DIR settings) (name self)]>
            (<["__GL_SHADER_DISK_CACHE" := "1"]> (env_seed ext os_env)))
         !! k)
    ∧ result =
      env_after_controller (system_config self) env3
        (runtime_library_path ext self disable_runtime_arg).
Proof.
  intros Hget.
  unfold get_env, nvidia_shader_cache_path in Hget. cbv zeta in Hget.
  apply bind_Ok_inv in Hget as (cp & w1 & Hcache & Hget).
  apply bind_Ok_inv in Hget as (env3 & w2 & Hsdl & Hget).
  apply bind_Ok_inv in Hget as (rt & w3 & Hrt & Hret).
  unfold ret in Hret. injection Hret as <- <-.
  pose proof (shader_cache_dir_Ok_inv _ _ _ _ _ Hcache) as [-> _].
  exists env3, w1. split; [done|].
  assert (w2 = w1 ∧ ∀ k, k ≠ "SDL_GAMECONTROLLERCONFIG" →
            env3 !! k =
            (<["__GL_SHADER_DISK_CACHE_PATH" :=
                 Path.join (SHADER_CACHE_DIR settings) (name self)]>
               (<["__GL_SHADER_DISK_CACHE" := "1"]> (env_seed ext os_env)))
            !! k) as [-> Henv3].
  { destruct (Str.truthy (sdl_gamecontrollerconfig (system_config self))).
    - apply bind_Ok_inv in Hsdl as (ex & w4 & Hex & Hsdl).
      unfold Os.path_exists in Hex. injection Hex as <- <-.
      apply bind_Ok_inv in Hsdl as (v & w5 & Hread & Hsdl).
      unfold ret in Hsdl. injection Hsdl as <- <-.
      assert (w5 = w1) as ->.
      { destruct (bool_decide _); [|by injection Hread].
        unfold Os.read in Hread.
        destruct (fs w1 !! _) as [[|]|]; by injection Hread. }
      split; [done|]. intros k Hk. by rewrite lookup_insert_ne.
    - unfold ret in Hsdl. by injection Hsdl as <- <-. }
  assert (fs w3 = fs w1
          ∧ rt = runtime_library_path ext self disable_runtime_arg)
    as [Hfs ->].
  { unfold runtime_library_path.
    destruct disable_runtime_arg; simpl in *.
    - unfold ret in Hrt. by injection Hrt as <- <-.
    - apply bind_Ok_inv in Hrt as (use & w4 & Huse & Hrt).
      unfold ret in Hrt. injection Hrt as <- <-.
      destruct (use_runtime_result w1) as [Hu Hfs]. rewrite Hu in Huse.
      injection Huse as <- <-. split; [done|].
      by destruct (RUNTIME_DISABLED ext),
                  (disable_runtime (system_config self)). }
  done.
Qed.

(** The cache directory is a directory once [shader_cache_dir] returned. *)
Lemma shader_cache_dir_ensures w p w1 :
  shader_cache_dir settings self w = (Ok p, w1) →
  fs w1 !! p = Some Dir.
Proof.
  intros H. pose proof H as [-> Hw]%shader_cache_dir_Ok_inv.
  unfold shader_cache_dir in H.
  apply bind_Ok_inv in H as (d & w0 & Hd & H).
  unfold Os.isdir in Hd. injection Hd as <- <-.
  destruct Hw as [-> | [_ ->]].
  - destruct (fs w !! _) as [[|]|] eqn:Hp; [| done |].
    + apply bind_Ok_inv in H as ([] & w2 & Hmk & _).
      unfold Os.mkdir in Hmk. by rewrite Hp in Hmk.
    + apply bind_Ok_inv in H as ([] & w2 & Hmk & [= Hw2]).
      unfold Os.mkdir in Hmk. rewrite Hp in Hmk. injection Hmk as <-.
      rewrite <- Hw2 in Hp. simpl in Hp. by rewrite lookup_insert_eq in Hp.
  - simpl. apply lookup_insert_eq.
Qed.
End EnvShape.

Section EnvLookups.
Context (cfg : SystemConfig) (env3 : gmap string string)
        (rt : option string).

(** One rule of the form [if b: env[k'] = v] leaves every other
    variable alone. *)
Lemma lookup_rule_ne (b : bool) (k' v : string) (m : gmap string string) k :
  k ≠ k' → (if b then <[k' := v]> m else m) !! k = m !! k.
Proof. intros Hne. destruct b; [|done]. by rewrite lookup_insert_ne. Qed.

Lemma lookup_rule_eq (b : bool) (k v : string) (m : gmap string string) :
  (if b then <[k := v]> m else m) !! k = if b then Some v else m !! k.
Proof. destruct b; [|done]. by rewrite lookup_insert_eq. Qed.

(** Below the user's overrides, a variable the later rules do not write
    is as the earlier rules left it. *)
Lemma env_after_controller_other k :
  default ∅ (env cfg) !! k = None →
  k ≠ "SDL_VIDEO_FULLSCREEN_DISPLAY" → k ≠ "DRI_PRIME" →
  k ≠ "__NV_PRIME_RENDER_OFFLOAD" → k ≠ "__GLX_VENDOR_LIBRARY_NAME" →
  k ≠ "__VK_LAYER_NV_optimus" → k ≠ "PULSE_LATENCY_MSEC" →
  k ≠ "VK_ICD_FILENAMES" → k ≠ "LD_LIBRARY_PATH" →
  env_after_controller cfg env3 rt !! k = env3 !! k.
Proof.
  intros Huser ? ? ? ? ? ? ? ?.
  unfold env_after_controller. cbv zeta.
  rewrite lookup_union_r by done.
  rewrite !lookup_rule_ne by done.
  destruct (prime cfg); [rewrite !lookup_insert_ne by done|];
    by rewrite !lookup_rule_ne.
Qed.

Lemma env_after_controller_user k v :
  default ∅ (env cfg) !! k = Some v →
  env_after_controller cfg env3 rt !! k = Some v.
Proof.
  intros Huser. unfold env_after_controller. cbv zeta.
  by apply lookup_union_Some_l.
Qed.

Lemma env_after_controller_prime k :
  default ∅ (env cfg) !! k = None →
  k = "__NV_PRIME_RENDER_OFFLOAD" ∨ k = "__GLX_VENDOR_LIBRARY_NAME"
  ∨ k = "__VK_LAYER_NV_optimus" →
  env_after_controller cfg env3 rt !! k =
    if prime cfg then
      <["__VK_LAYER_NV_optimus" := "NVIDIA_only"]>
        (<["__GLX_VENDOR_LIBRARY_NAME" := "nvidia"]>
           (<["__NV_PRIME_RENDER_OFFLOAD" := "1"]>
              (∅ : gmap string string))) !! k
    else env3 !! k.
Proof.
  intros Huser Hk.
  unfold env_after_controller. cbv zeta.
  rewrite lookup_union_r by done.
  assert (k ≠ "LD_LIBRARY_PATH" ∧ k ≠ "VK_ICD_FILENAMES"
          ∧ k ≠ "PULSE_LATENCY_MSEC" ∧ k ≠ "DRI_PRIME"
          ∧ k ≠ "SDL_VIDEO_FULLSCREEN_DISPLAY") as (? & ? & ? & ? & ?)
    by (destruct Hk as [-> | [-> | ->]]; done).
  rewrite !lookup_rule_ne by done.
  destruct (prime cfg).
  - destruct Hk as [-> | [-> | ->]];
      repeat (rewrite lookup_insert_ne by done);
      by rewrite !lookup_insert_eq.
  - by rewrite !lookup_rule_ne.
Qed.

Lemma env_after_controller_display :
  default ∅ (env cfg) !! "SDL_VIDEO_FULLSCREEN_DISPLAY" = None →
  env_after_controller cfg env3 rt !! "SDL_VIDEO_FULLSCREEN_DISPLAY" =
    if Str.truthy (sdl_video_fullscreen cfg)
       && negb (String.eqb (Str.show (sdl_video_fullscreen cfg)) "off")
    then Some (Str.show (sdl_video_fullscreen cfg))
    else env3 !! "SDL_VIDEO_FULLSCREEN_DISPLAY".
Proof.
  intros Huser. unfold env_after_controller. cbv zeta.
  rewrite lookup_union_r by done.
  rewrite !lookup_rule_ne by done.
  destruct (prime cfg); [rewrite !lookup_insert_ne by done|];
    by rewrite lookup_rule_ne, lookup_rule_eq.
Qed.

Lemma env_after_controller_ld :
  default ∅ (env cfg) !! "LD_LIBRARY_PATH" = None →
  env_after_controller cfg env3 rt !! "LD_LIBRARY_PATH" =
    if Str.truthy rt then
      Some (if Str.truthy (env3 !! "LD_LIBRARY_PATH")
            then Str.show rt +:+ ":" +:+ Str.show (env3 !! "LD_LIBRARY_PATH")
            else Str.show rt)
    else env3 !! "LD_LIBRARY_PATH".
Proof.
  intros Huser. unfold env_after_controller. cbv zeta.
  rewrite lookup_union_r by done.
  destruct (Str.truthy rt); [rewrite lookup_insert_eq|];
    rewrite !lookup_rule_ne by done;
    (destruct (prime cfg); [rewrite !lookup_insert_ne by done|]);
    by rewrite !lookup_rule_ne.
Qed.
End EnvLookups.

(** X9. The user's environment overrides are applied last: every
    variable they name has, in what [get_env] returns, the value they
    give, whichever rule wrote it before. *)
Theorem get_env_user_overrides_win
    (settings : Settings) (ext : Externals) (self : Runner)
    (os_env disable_runtime_arg : bool) (w w' : World)
    (result user : gmap string string) (k v : string) :
  env (system_config self) = Some user →
  user !! k = Some v →
  get_env settings ext self os_env disable_runtime_arg w = (Ok result, w') →
  result !! k = Some v.
Proof.
  intros Huser Hk Hget.
  apply get_env_Ok_inv in Hget as (env3 & w1 & _ & _ & _ & ->).
  apply env_after_controller_user. by rewrite Huser.
Qed.

(** X10. With the [prime] option on, the three PRIME variables have their
    fixed values in the result; with it off they are exactly as the
    starting environment had them, so absent when [get_env] starts from
    nothing (user overrides of these names apart). *)
Theorem get_env_prime_variables
    (settings : Settings) (ext : Externals) (self : Runner)
    (os_env disable_runtime_arg : bool) (w w' : World)
    (result : gmap string string) :
  (∀ k, k ∈ ["__NV_PRIME_RENDER_OFFLOAD"; "__GLX_VENDOR_LIBRARY_NAME";
             "__VK_LAYER_NV_optimus"] →
        default ∅ (env (system_config self)) !! k = None) →
  get_env settings ext self os_env disable_runtime_arg w = (Ok result, w') →
  (prime (system_config self) = true →
   result !! "__NV_PRIME_RENDER_OFFLOAD" = Some "1"
   ∧ result !! "__GLX_VENDOR_LIBRARY_NAME" = Some "nvidia"
   ∧ result !! "__VK_LAYER_NV_optimus" = Some "NVIDIA_only")
  ∧ (prime (system_config self) = false →
     ∀ k, k ∈ ["__NV_PRIME_RENDER_OFFLOAD"; "__GLX_VENDOR_LIBRARY_NAME";
               "__VK_LAYER_NV_optimus"] →
          result !! k = (if os_env then os_environ ext else ∅) !! k).
Proof.
  intros Huser Hget.
  apply get_env_Ok_inv in Hget as (env3 & w1 & _ & _ & Henv3 & ->).
  assert (∀ k, k ∈ ["__NV_PRIME_RENDER_OFFLOAD"; "__GLX_VENDOR_LIBRARY_NAME";
                    "__VK_LAYER_NV_optimus"] →
               k = "__NV_PRIME_RENDER_OFFLOAD"
               ∨ k = "__GLX_VENDOR_LIBRARY_NAME"
               ∨ k = "__VK_LAYER_NV_optimus") as Hkeys.
  { intros k Hk. repeat (apply elem_of_cons in Hk as [-> | Hk]; [auto|]).
    by apply elem_of_nil in Hk. }
  split.
  - intros Hprime.
    rewrite !env_after_controller_prime, Hprime;
      try (apply Huser; repeat constructor); auto.
  - intros Hprime k Hk.
    rewrite env_after_controller_prime, Hprime by auto.
    rewrite Henv3 by (destruct (Hkeys k Hk) as [-> | [-> | ->]]; done).
    destruct (Hkeys k Hk) as [-> | [-> | ->]];
      by rewrite !lookup_insert_ne.
Qed.

(** X11. After a successful [get_env] the runner's shader cache
    directory exists as a directory (it is made on the way when it was
    missing), and, user overrides apart, the result switches the shader
    disk cache on and points it at that directory. *)
Theorem get_env_shader_cache
    (settings : Settings) (ext : Externals) (self : Runner)
    (os_env disable_runtime_arg : bool) (w w' : World)
    (result : gmap string string) :
  get_env settings ext self os_env disable_runtime_arg w = (Ok result, w') →
  fs w' !! Path.join (SHADER_CACHE_DIR settings) (name self) = Some Dir
  ∧ (default ∅ (env (system_config self)) !! "__GL_SHADER_DISK_CACHE" = None →
     result !! "__GL_SHADER_DISK_CACHE" = Some "1")
  ∧ (default ∅ (env (system_config self)) !! "__GL_SHADER_DISK_CACHE_PATH"
       = None →
     result !! "__GL_SHADER_DISK_CACHE_PATH" =
       Some (Path.join (SHADER_CACHE_DIR settings) (name self))).
Proof.
  intros Hget.
  apply get_env_Ok_inv in Hget as (env3 & w1 & Hcache & Hfs & Henv3 & ->).
  split; [|split].
  - rewrite Hfs. by apply (shader_cache_dir_ensures settings self w).
  - intros Huser. rewrite env_after_controller_other by done.
    rewrite Henv3 by done.
    by rewrite lookup_insert_ne, lookup_insert_eq.
  - intros Huser. rewrite env_after_controller_other by done.
    rewrite Henv3 by done. apply lookup_insert_eq.
Qed.

(** X12. The library path, user overrides apart: when the runtime is
    switched off (by the caller, by [RUNTIME_DISABLED] or by the system
    option) [LD_LIBRARY_PATH] is as the starting environment had it;
    otherwise a non-empty runtime path is put in front of the starting
    one, joined by [":"], or stands alone when there was none. *)
Theorem get_env_library_path
    (settings : Settings) (ext : Externals) (self : Runner)
    (os_env disable_runtime_arg : bool) (w w' : World)
    (result : gmap string string) :
  default ∅ (env (system_config self)) !! "LD_LIBRARY_PATH" = None →
  get_env settings ext self os_env disable_runtime_arg w = (Ok result, w') →
  (disable_runtime_arg || RUNTIME_DISABLED ext
   || disable_runtime (system_config self) = true →
   result !! "LD_LIBRARY_PATH" =
     (if os_env then os_environ ext else ∅) !! "LD_LIBRARY_PATH")
  ∧ (disable_runtime_arg || RUNTIME_DISABLED ext
     || disable_runtime (system_config self) = false →
     ∀ p, get_runtime_env ext self !! "LD_LIBRARY_PATH" = Some p → p ≠ "" →
       (∀ l, (if os_env then os_environ ext else ∅) !! "LD_LIBRARY_PATH"
             = Some l → l ≠ "" →
             result !! "LD_LIBRARY_PATH" = Some (p +:+ ":" +:+ l))
       ∧ ((if os_env then os_environ ext else ∅) !! "LD_LIBRARY_PATH" = None →
          result !! "LD_LIBRARY_PATH" = Some p)).
Proof.
  intros Huser Hget.
  apply get_env_Ok_inv in Hget as (env3 & w1 & _ & _ & Henv3 & ->).
  rewrite env_after_controller_ld by done.
  rewrite Henv3 by done. rewrite !lookup_insert_ne by done.
  unfold runtime_library_path, env_seed.
  split.
  - by intros ->.
  - intros -> p -> Hp.
    rewrite (StrFacts.truthy_Some p Hp). simpl. split.
    + intros l -> Hl. by rewrite (StrFacts.truthy_Some l Hl).
    + by intros ->.
Qed.

(** X13. The display variable for SDL 1 games, user overrides apart: the
    literal ["off"] sets nothing, so the variable stays as the starting
    environment had it; any other non-empty value is passed on as is. *)
Theorem get_env_fullscreen_display
    (settings : Settings) (ext : Externals) (self : Runner)
    (os_env disable_runtime_arg : bool) (w w' : World)
    (result : gmap string string) :
  default ∅ (env (system_config self)) !! "SDL_VIDEO_FULLSCREEN_DISPLAY"
    = None →
  get_env settings ext self os_env disable_runtime_arg w = (Ok result, w') →
  (sdl_video_fullscreen (system_config self) = Some "off" →
   result !! "SDL_VIDEO_FULLSCREEN_DISPLAY" =
     (if os_env then os_environ ext else ∅) !! "SDL_VIDEO_FULLSCREEN_DISPLAY")
  ∧ (∀ s, sdl_video_fullscreen (system_config self) = Some s →
          s ≠ "" → s ≠ "off" →
          result !! "SDL_VIDEO_FULLSCREEN_DISPLAY" = Some s).
Proof.
  intros Huser Hget.
  apply get_env_Ok_inv in Hget as (env3 & w1 & _ & _ & Henv3 & ->).
  rewrite env_after_controller_display by done.
  split.
  - intros ->. simpl. rewrite Henv3 by done.
    by rewrite !lookup_insert_ne.
  - intros s -> Hs Hoff.
    rewrite (StrFacts.truthy_Some s Hs). simpl.
    by apply String.eqb_neq in Hoff as ->.
Qed.

(** X14. [get_env] writes no variable but the eleven it manages: any
    other name has, in the result, the user's override if there is one,
    and else the value of the starting environment (none when [get_env]
    starts from nothing). *)
Theorem get_env_passes_other_variables
    (settings : Settings) (ext : Externals) (self : Runner)
    (os_env disable_runtime_arg : bool) (w w' : World)
    (result : gmap string string) (k : string) :
  k ∉ managed_variables →
  get_env settings ext self os_env disable_runtime_arg w = (Ok result, w') →
  result !! k =
    (default ∅ (env (system_config self))
     ∪ (if os_env then os_environ ext else ∅)) !! k.
Proof.
  intros Hk Hget.
  apply get_env_Ok_inv in Hget as (env3 & w1 & _ & _ & Henv3 & ->).
  unfold managed_variables in Hk.
  repeat (apply not_elem_of_cons in Hk as [? Hk]).
  destruct (default ∅ (env (system_config self)) !! k) as [v|] eqn:Huser.
  - rewrite (env_after_controller_user _ _ _ _ _ Huser).
    symmetry. by apply lookup_union_Some_l.
  - rewrite env_after_controller_other by done.
    rewrite lookup_union_r by done.
    rewrite Henv3 by done. by rewrite !lookup_insert_ne.
Qed.

(** *** On sample options *)

Lemma get_env_user_overrides_win_witness :
  ∃ result,
    (get_env Sample.settings SampleOptions.shell
       (SampleOptions.with_options SampleOptions.dri_overridden)
       false false SampleOptions.world).1 = Ok result
    ∧ result !! "DRI_PRIME" = Some "0".
Proof.
  assert (returned (get_env Sample.settings SampleOptions.shell
            (SampleOptions.with_options SampleOptions.dri_overridden)
            false false SampleOptions.world) = true) as Hret
    by (vm_compute; reflexivity).
  destruct (get_env Sample.settings SampleOptions.shell
              (SampleOptions.with_options SampleOptions.dri_overridden)
              false false SampleOptions.world)
    as [[result|ex] w'] eqn:Hget; [|done].
  exists result. split; [reflexivity|].
  apply (get_env_user_overrides_win Sample.settings SampleOptions.shell
           (SampleOptions.with_options SampleOptions.dri_overridden)
           false false SampleOptions.world w' result
           {[ "DRI_PRIME" := "0" ]} "DRI_PRIME" "0").
  - reflexivity.
  - vm_compute. reflexivity.
  - exact Hget.
Defined.

Lemma get_env_prime_variables_witness :
  ∃ result,
    (get_env Sample.settings SampleOptions.shell
       (SampleOptions.with_options (SampleEnv.mapping_set "~/pad.txt"))
       true false SampleOptions.world).1 = Ok result
    ∧ result !! "__NV_PRIME_RENDER_OFFLOAD" = Some "1"
    ∧ result !! "__GLX_VENDOR_LIBRARY_NAME" = Some "nvidia"
    ∧ result !! "__VK_LAYER_NV_optimus" = Some "NVIDIA_only".
Proof.
  assert (returned (get_env Sample.settings SampleOptions.shell
            (SampleOptions.with_options (SampleEnv.mapping_set "~/pad.txt"))
            true false SampleOptions.world) = true) as Hret
    by (vm_compute; reflexivity).
  destruct (get_env Sample.settings SampleOptions.shell
              (SampleOptions.with_options (SampleEnv.mapping_set "~/pad.txt"))
              true false SampleOptions.world)
    as [[result|ex] w'] eqn:Hget; [|done].
  exists result. split; [reflexivity|].
  apply (get_env_prime_variables Sample.settings SampleOptions.shell
           (SampleOptions.with_options (SampleEnv.mapping_set "~/pad.txt"))
           true false SampleOptions.world w' result).
  - intros k _. apply lookup_empty.
  - exact Hget.
  - reflexivity.
Defined.

Lemma get_env_shader_cache_witness :
  ∃ result w',
    get_env Sample.settings SampleOptions.shell
      (SampleOptions.with_options Sample.no_options)
      false false Sample.empty_world = (Ok result, w')
    ∧ fs w' !! "/shaders/zdoom" = Some Dir
    ∧ result !! "__GL_SHADER_DISK_CACHE_PATH" = Some "/shaders/zdoom".
Proof.
  assert (returned (get_env Sample.settings SampleOptions.shell
            (SampleOptions.with_options Sample.no_options)
            false false Sample.empty_world) = true) as Hret
    by (vm_compute; reflexivity).
  destruct (get_env Sample.settings SampleOptions.shell
              (SampleOptions.with_options Sample.no_options)
              false false Sample.empty_world)
    as [[result|ex] w'] eqn:Hget; [|done].
  exists result, w'. split; [reflexivity|].
  destruct (get_env_shader_cache Sample.settings SampleOptions.shell
              (SampleOptions.with_options Sample.no_options)
              false false Sample.empty_world w' result Hget)
    as (Hdir & _ & Hpath).
  split; [exact Hdir|]. apply Hpath. apply lookup_empty.
Defined.

Lemma get_env_library_path_witness :
  ∃ result,
    (get_env Sample.settings SampleOptions.shell
       (SampleOptions.with_options Sample.no_options)
       true false SampleOptions.world).1 = Ok result
    ∧ result !! "LD_LIBRARY_PATH" = Some "/runtime/lib:/opt/lib".
Proof.
  assert (returned (get_env Sample.settings SampleOptions.shell
            (SampleOptions.with_options Sample.no_options)
            true false SampleOptions.world) = true) as Hret
    by (vm_compute; reflexivity).
  destruct (get_env Sample.settings SampleOptions.shell
              (SampleOptions.with_options Sample.no_options)
              true false SampleOptions.world)
    as [[result|ex] w'] eqn:Hget; [|done].
  exists result. split; [reflexivity|].
  destruct (get_env_library_path Sample.settings SampleOptions.shell
              (SampleOptions.with_options Sample.no_options)
              true false SampleOptions.world w' result)
    as [_ Hon].
  - apply lookup_empty.
  - exact Hget.
  - destruct (Hon eq_refl "/runtime/lib") as [Hjoin _].
    + vm_compute. reflexivity.
    + discriminate.
    + apply (Hjoin "/opt/lib"); [vm_compute; reflexivity | discriminate].
Defined.

Lemma get_env_fullscreen_display_witness :
  ∃ result,
    (get_env Sample.settings SampleOptions.shell
       (SampleOptions.with_options (SampleOptions.fullscreen "off"))
       false false SampleOptions.world).1 = Ok result
    ∧ result !! "SDL_VIDEO_FULLSCREEN_DISPLAY" = None.
Proof.
  assert (returned (get_env Sample.settings SampleOptions.shell
            (SampleOptions.with_options (SampleOptions.fullscreen "off"))
            false false SampleOptions.world) = true) as Hret
    by (vm_compute; reflexivity).
  destruct (get_env Sample.settings SampleOptions.shell
              (SampleOptions.with_options (SampleOptions.fullscreen "off"))
              false false SampleOptions.world)
    as [[result|ex] w'] eqn:Hget; [|done].
  exists result. split; [reflexivity|].
  destruct (get_env_fullscreen_display Sample.settings SampleOptions.shell
              (SampleOptions.with_options (SampleOptions.fullscreen "off"))
              false false SampleOptions.world w' result)
    as [Hoff _].
  - apply lookup_empty.
  - exact Hget.
  - rewrite (Hoff eq_refl). apply lookup_empty.
Defined.

Lemma get_env_passes_other_variables_witness :
  ∃ result,
    (get_env Sample.settings SampleOptions.shell
       (SampleOptions.with_options Sample.no_options)
       true false SampleOptions.world).1 = Ok result
    ∧ result !! "HOME" = Some "/home/user".
Proof.
  assert (returned (get_env Sample.settings SampleOptions.shell
            (SampleOptions.with_options Sample.no_options)
            true false SampleOptions.world) = true) as Hret
    by (vm_compute; reflexivity).
  destruct (get_env Sample.settings SampleOptions.shell
              (SampleOptions.with_options Sample.no_options)
              true false SampleOptions.world)
    as [[result|ex] w'] eqn:Hget; [|done].
  exists result. split; [reflexivity|].
  rewrite (get_env_passes_other_variables Sample.settings
             SampleOptions.shell
             (SampleOptions.with_options Sample.no_options)
             true false SampleOptions.world w' result "HOME").
  - vm_compute. reflexivity.
  - unfold managed_variables. intros Hin.
    repeat (apply elem_of_cons in Hin as [Hin | Hin]; [discriminate Hin|]).
    by apply elem_of_nil in Hin.
  - exact Hget.
Defined.

(** ** Executable, run sequence *)

(** X15. [get_executable] prefers the runner configuration: a
    ["runner_executable"] entry that is an existing file is returned as
    it is; an entry that is not a file is ignored without a word, and the
    class's executable under the runners directory is returned. The
    method never changes the world. *)
Theorem get_executable_custom_or_class
    (settings : Settings) (self : Runner) (w : World) :
  (∀ p c x, runner_config self !! "runner_executable" = Some p →
            fs w !! p = Some (File c x) →
            get_executable settings self w = (Ok p, w))
  ∧ (∀ e, (∀ p, runner_config self !! "runner_executable" = Some p →
                ∀ c x, fs w !! p ≠ Some (File c x)) →
          runner_executable self = Some e → e ≠ "" →
          get_executable settings self w =
            (Ok (Path.join (RUNNER_DIR settings) e), w)).
Proof.
  split.
  - intros p c x Hcfg Hfile. unfold get_executable, bind.
    rewrite Hcfg. unfold Os.isfile. by rewrite Hfile.
  - intros e Hcfg Hcls He. unfold get_executable, bind.
    assert (Str.truthy (runner_executable self) = true) as Htruthy
      by (rewrite Hcls; by apply StrFacts.truthy_Some).
    destruct (runner_config self !! "runner_executable") as [p|] eqn:Hp.
    + unfold Os.isfile, ret. specialize (Hcfg p eq_refl).
      destruct (fs w !! p) as [[c x|]|] eqn:Hfs.
      * by destruct (Hcfg c x).
      * by rewrite Htruthy, Hcls.
      * by rewrite Htruthy, Hcls.
    + unfold ret. by rewrite Htruthy, Hcls.
Qed.

Section RunSequence.
Context (settings : Settings) (LINUX_SYSTEM : LinuxSystem)
        (ext : Externals) (self : Runner).

Lemma is_installed_fst w b :
  (is_installed settings self w).1 = Ok b →
  is_installed settings self w = (Ok b, w).
Proof.
  intros H. pose proof (is_installed_read_only settings self w) as Hro.
  destruct (is_installed settings self w) as [r w0]. simpl in *.
  by subst.
Qed.

Lemma get_executable_fs w1 w2 :
  fs w1 = fs w2 →
  (get_executable settings self w1).1 = (get_executable settings self w2).1.
Proof.
  intros Hfs. unfold get_executable, bind, Os.isfile, ret.
  destruct (runner_config self !! "runner_executable") as [p|].
  - rewrite Hfs.
    destruct (fs w2 !! p) as [[c x|]|]; simpl;
      by destruct (negb (Str.truthy (runner_executable self))).
  - by destruct (negb (Str.truthy (runner_executable self))).
Qed.

(** Whether the runner is installed depends on the files alone. *)
Lemma is_installed_fs w1 w2 :
  fs w1 = fs w2 →
  (is_installed settings self w1).1 = (is_installed settings self w2).1.
Proof.
  intros Hfs. unfold is_installed, bind.
  pose proof (get_executable_fs w1 w2 Hfs) as Hexe.
  pose proof (get_executable_read_only settings self w1) as Hro1.
  pose proof (get_executable_read_only settings self w2) as Hro2.
  destruct (get_executable settings self w1) as [[e1|x1] w1'],
           (get_executable settings self w2) as [[e2|x2] w2'];
    simpl in *; subst; try done.
  - injection Hexe as ->. unfold Os.path_exists. simpl. by rewrite Hfs.
  - by injection Hexe as ->.
Qed.
End RunSequence.

(** X16. When the runner is not installed and the user declines the
    install question, [run] ends quietly: it returns without an
    exception, the question is the only dialog, "Runner install
    cancelled" is logged, and nothing is installed or launched. *)
Theorem run_declined_install_is_silent
    (settings : Settings) (LINUX_SYSTEM : LinuxSystem) (ext : Externals)
    (self : Runner) (w : World) :
  runnable_alone self = true →
  (is_installed settings self w).1 = Ok false →
  dialog_result_yes ext = false →
  run settings LINUX_SYSTEM ext self w =
    (Ok tt,
     with_log (INFO, "Runner install cancelled")
       (with_dialog (QuestionDialog "Required runner unavailable") w)).
Proof.
  intros Halone Hinst Hno. unfold run. rewrite Halone. simpl.
  unfold bind at 1. rewrite (is_installed_fst _ _ _ _ Hinst). simpl.
  unfold install_dialog. rewrite Hno. reflexivity.
Qed.

(** X17. When the runner is installed, its run data can be built and the
    pre-launch check passes, [run] hands exactly one command to the
    launcher: the runner's executable alone, with the environment of
    [get_env], constructed and then started, in the world the run data
    left. *)
Theorem run_launches_executable
    (settings : Settings) (LINUX_SYSTEM : LinuxSystem) (ext : Externals)
    (self : Runner) (w w1 : World)
    (command : list string) (environment : gmap string string) :
  runnable_alone self = true →
  (is_installed settings self w).1 = Ok true →
  get_run_data settings ext self w = (Ok (command, environment), w1) →
  prelaunch LINUX_SYSTEM self = Ok tt →
  run settings LINUX_SYSTEM ext self w =
    (Ok tt,
     with_launch (Started command)
       (with_launch (Constructed command (name self) environment) w1))
  ∧ (∃ exe, command = [exe]
            ∧ get_executable settings self w = (Ok exe, w)
            ∧ is_Some (fs w !! exe))
  ∧ (get_env settings ext self false false w).1 = Ok environment.
Proof.
  intros Halone Hinst Hdata Hpre. split; [|split].
  - unfold run. rewrite Halone. simpl.
    unfold bind at 1. rewrite (is_installed_fst _ _ _ _ Hinst). simpl.
    unfold bind at 1. unfold ret at 1. simpl.
    unfold bind at 1. rewrite Hdata. simpl.
    unfold bind at 1, lift. by rewrite Hpre.
  - apply is_installed_fst in Hinst.
    unfold is_installed in Hinst. unfold get_run_data in Hdata.
    pose proof (get_executable_read_only settings self w) as Hro.
    unfold bind in Hinst, Hdata.
    destruct (get_executable settings self w) as [[exe|e] w0];
      simpl in Hro; subst w0; [|done].
    exists exe. split; [|split; [done|]].
    + destruct (get_env settings ext self false false w) as [[e0|x] w2];
        [|done]. by injection Hdata as <- _ _.
    + unfold Os.path_exists in Hinst. injection Hinst as Hex.
      by apply bool_decide_eq_true in Hex.
  - unfold get_run_data in Hdata. unfold bind in Hdata.
    pose proof (get_executable_read_only settings self w) as Hro.
    destruct (get_executable settings self w) as [[exe|e] w0];
      simpl in Hro; subst w0; [|done].
    destruct (get_env settings ext self false false w) as [[e0|x] w2];
      [|done]. by injection Hdata as _ <- _.
Qed.

(** X18. [run] on a runnable-alone runner that has no executable (none
    on the class, none usable in the configuration) raises the
    [ValueError] of the installed check at once: no install question is
    asked, nothing is logged or launched. *)
Theorem run_without_executable_raises
    (settings : Settings) (LINUX_SYSTEM : LinuxSystem) (ext : Externals)
    (self : Runner) (w : World) :
  runnable_alone self = true →
  Str.truthy (runner_executable self) = false →
  (∀ p, runner_config self !! "runner_executable" = Some p →
        ∀ c x, fs w !! p ≠ Some (File c x)) →
  run settings LINUX_SYSTEM ext self w =
    (Raise (ValueError ("runner_executable not set for " +:+ name self)), w).
Proof.
  intros Halone Hcls Hcfg. unfold run. rewrite Halone. simpl.
  unfold bind at 1.
  assert (is_installed settings self w =
    (Raise (ValueError ("runner_executable not set for " +:+ name self)), w))
    as ->; [|done].
  unfold is_installed, get_executable, bind.
  destruct (runner_config self !! "runner_executable") as [p|] eqn:Hp.
  - unfold Os.isfile, ret. specialize (Hcfg p eq_refl).
    destruct (fs w !! p) as [[c x|]|] eqn:Hfs.
    + by destruct (Hcfg c x).
    + by rewrite Hcls.
    + by rewrite Hcls.
  - unfold ret. by rewrite Hcls.
Qed.

(** *** On the sample installation *)

Lemma get_executable_custom_or_class_witness :
  get_executable Sample.settings SampleCustom.custom SampleCustom.world =
    (Ok "/opt/zdoom/bin/zdoom", SampleCustom.world)
  ∧ get_executable Sample.settings SampleCustom.custom Sample.empty_world =
    (Ok "/runners/zdoom/zdoom", Sample.empty_world).
Proof.
  split.
  - apply (proj1 (get_executable_custom_or_class Sample.settings
                    SampleCustom.custom SampleCustom.world)
             "/opt/zdoom/bin/zdoom" "ELF" true).
    + vm_compute. reflexivity.
    + vm_compute. reflexivity.
  - apply (proj2 (get_executable_custom_or_class Sample.settings
                    SampleCustom.custom Sample.empty_world) "zdoom/zdoom").
    + intros p _ c x. simpl. by rewrite lookup_empty.
    + reflexivity.
    + discriminate.
Defined.

Lemma run_declined_install_is_silent_witness :
  run Sample.settings Sample.linux SampleOptions.shell
    SampleRun.needs_present_libs Sample.empty_world =
  (Ok tt,
   with_log (INFO, "Runner install cancelled")
     (with_dialog (QuestionDialog "Required runner unavailable")
                  Sample.empty_world)).
Proof.
  apply (run_declined_install_is_silent Sample.settings Sample.linux
           SampleOptions.shell SampleRun.needs_present_libs
           Sample.empty_world).
  - reflexivity.
  - vm_compute. reflexivity.
  - reflexivity.
Defined.

Lemma run_launches_executable_witness :
  ∃ command environment w1,
    run Sample.settings Sample.linux
      (Sample.externals (Ok None) Sample.extract_ok)
      SampleRun.needs_present_libs SampleRun.installed =
    (Ok tt,
     with_launch (Started command)
       (with_launch (Constructed command "zdoom" environment) w1))
    ∧ command = ["/runners/zdoom/zdoom"].
Proof.
  assert (returned (get_run_data Sample.settings
            (Sample.externals (Ok None) Sample.extract_ok)
            SampleRun.needs_present_libs SampleRun.installed) = true)
    as Hret by (vm_compute; reflexivity).
  destruct (get_run_data Sample.settings
              (Sample.externals (Ok None) Sample.extract_ok)
              SampleRun.needs_present_libs SampleRun.installed)
    as [[[command environment]|ex] w1] eqn:Hdata; [|done].
  destruct (run_launches_executable Sample.settings Sample.linux
              (Sample.externals (Ok None) Sample.extract_ok)
              SampleRun.needs_present_libs SampleRun.installed w1
              command environment)
    as (Hrun & (exe & -> & Hexe & _) & _).
  - reflexivity.
  - vm_compute. reflexivity.
  - exact Hdata.
  - vm_compute. reflexivity.
  - exists [exe], environment, w1. split; [exact Hrun|].
    assert ((get_executable Sample.settings SampleRun.needs_present_libs
               SampleRun.installed).1 = Ok "/runners/zdoom/zdoom") as Hpath
      by (vm_compute; reflexivity).
    rewrite Hexe in Hpath. by injection Hpath as ->.
Defined.

Lemma run_without_executable_raises_witness :
  run Sample.settings Sample.linux SampleOptions.shell
    SampleCatalog.plain_runner Sample.empty_world =
  (Raise (ValueError "runner_executable not set for zdoom"),
   Sample.empty_world).
Proof.
  apply (run_without_executable_raises Sample.settings Sample.linux
           SampleOptions.shell SampleCatalog.plain_runner
           Sample.empty_world).
  - reflexivity.
  - reflexivity.
  - intros p Hp. vm_compute in Hp. discriminate Hp.
Defined.

(** ** Installation *)

Section InstallFacts.
Context (settings : Settings) (LINUX_SYSTEM : LinuxSystem)
        (ext : Externals) (self : Runner).

(** What [get_runner_version] returns does not depend on the world, and
    all it does to the world is to log. *)
Lemma get_runner_version_world version w w0 :
  (get_runner_version settings LINUX_SYSTEM ext self version w).1 =
  (get_runner_version settings LINUX_SYSTEM ext self version w0).1
  ∧ same_but_log
      (get_runner_version settings LINUX_SYSTEM ext self version w).2 w.
Proof.
  destruct (request_get_json ext (catalog_url settings self))
    as [info|e] eqn:Hreq.
  - destruct (decide (default ∅ info = ∅)) as [Hempty|Hne].
    + by rewrite !(get_runner_version_empty _ _ _ _ _ _ _ Hreq Hempty).
    + destruct info as [info|]; [|done]. simpl in Hne.
      rewrite !(get_runner_version_with_catalog _ _ _ _ _ _ _ Hreq Hne).
      by destruct (filter_requested _ _ _).
  - assert ((∃ msg, e = HTTPError msg) ∨ (∀ msg, e ≠ HTTPError msg))
      as [[msg ->]|Hf] by (destruct e; eauto).
    + by rewrite !(get_runner_version_http_error _ _ _ _ _ _ _ Hreq).
    + by rewrite !(get_runner_version_foreign_error _ _ _ _ _ _ _ Hreq Hf).
Qed.

(** [install] up to the resolution of the version. *)
Lemma install_resolution version entry w :
  ∃ w1,
    same_but_log w1 w
    ∧ get_runner_version settings LINUX_SYSTEM ext self version
        (with_log entry w) =
      ((get_runner_version settings LINUX_SYSTEM ext self version w).1, w1).
Proof.
  set (w0 := with_log entry w).
  destruct (get_runner_version_world version w0 w) as [Hfst Hframe].
  exists (get_runner_version settings LINUX_SYSTEM ext self version w0).2.
  split; [exact Hframe|].
  rewrite <- Hfst. by destruct (get_runner_version _ _ _ _ _ _).
Qed.

Lemma install_unresolved version downloader callback w :
  Str.truthy (download_url self) = false →
  (get_runner_version settings LINUX_SYSTEM ext self version w).1 = Ok None →
  ∃ w1,
    same_but_log w1 w
    ∧ install settings LINUX_SYSTEM ext self version downloader callback w =
      (Raise (RunnerInstallationError
                ("Failed to retrieve " +:+ name self +:+ " ("
                 +:+ Str.show version +:+ ") information") None), w1).
Proof.
  intros Hurl Hnone.
  destruct (install_resolution version
              (DEBUG, install_announcement ext self version downloader
                        callback) w)
    as (w1 & Hframe & Hget).
  exists w1. split; [done|].
  unfold install. rewrite Hurl.
  unfold bind at 1. unfold logger at 1. unfold bind at 1.
  by rewrite Hget, Hnone.
Qed.
End InstallFacts.

Module PathFacts.

Lemma append_nonempty_r a b : b ≠ "" → a +:+ b ≠ "".
Proof. intros Hb. destruct a; [done|]. discriminate. Qed.

Lemma join_nonempty a b : b ≠ "" → Path.join a b ≠ "".
Proof.
  intros Hb. unfold Path.join.
  destruct (Str.startswith b "/"); [done|].
  destruct (String.eqb a "" || Str.endswith a "/").
  - by apply append_nonempty_r.
  - apply append_nonempty_r. discriminate.
Qed.

End PathFacts.

(** X19. For a runner with a fixed download address [install] never
    consults the catalog: whatever the catalog would answer, failure
    included, the installation does the same and ends the same. *)
Theorem install_fixed_url_ignores_catalog
    (settings : Settings) (LINUX_SYSTEM : LinuxSystem) (ext : Externals)
    (self : Runner) (version : option string)
    (downloader : option Downloader) (callback : option (M unit))
    (response : string → outcome (option (gmap string catalog_value)))
    (w : World) :
  Str.truthy (download_url self) = true →
  install settings LINUX_SYSTEM (with_request response ext) self version
          downloader callback w =
  install settings LINUX_SYSTEM ext self version downloader callback w.
Proof.
  intros Hurl. unfold install. by rewrite Hurl.
Qed.

(** X20. When a version is resolved but no downloader was given,
    [install] raises a [RuntimeError], not an installation error; its
    text ends with the runner instance as ["%s"] prints it, which is
    the interpreter's default text and not the runner's name. Nothing is
    downloaded: files, launcher and dialogs are as before. *)
Theorem install_without_downloader
    (settings : Settings) (LINUX_SYSTEM : LinuxSystem) (ext : Externals)
    (self : Runner) (version : option string) (callback : option (M unit))
    (w : World) (r : VersionDescriptor) :
  Str.truthy (download_url self) = false →
  (get_runner_version settings LINUX_SYSTEM ext self version w).1 =
    Ok (Some r) →
  ∃ w1,
    install settings LINUX_SYSTEM ext self version None callback w =
      (Raise (RuntimeError
                ("Missing mandatory downloader for runner "
                 +:+ runner_repr ext self)),
       w1)
    ∧ fs w1 = fs w ∧ launcher w1 = launcher w ∧ dialogs w1 = dialogs w.
Proof.
  intros Hurl Hres.
  destruct (install_resolution settings LINUX_SYSTEM ext self version
              (DEBUG, install_announcement ext self version None callback) w)
    as (w1 & (? & ? & ? & _) & Hget).
  exists w1. split; [|done].
  unfold install. rewrite Hurl.
  unfold bind at 1. unfold logger at 1. unfold bind at 1.
  by rewrite Hget, Hres.
Qed.

(** X21. Where a resolved build is installed. The downloader is asked
    for the build's address, to be stored in the cache directory under
    the address's last path component, and to continue with the
    extraction of that very file. The destination is the shared cores
    directory for [libretro] with a requested version; else, for a
    runner whose name contains ["wine"], a [version-architecture]
    directory under the runner's own, merged up one level; else the
    runners directory itself. *)
Theorem install_destination
    (settings : Settings) (LINUX_SYSTEM : LinuxSystem) (ext : Externals)
    (self : Runner) (version : option string) (d : Downloader)
    (callback : option (M unit)) (w : World) (r : VersionDescriptor) :
  Str.truthy (download_url self) = false →
  (get_runner_version settings LINUX_SYSTEM ext self version w).1 =
    Ok (Some r) →
  ∃ dest merge_single w1,
    install settings LINUX_SYSTEM ext self version (Some d) callback w =
      d (v_url r)
        (Path.join (CACHE_DIR settings) (Path.basename (v_url r)))
        (extract settings ext self
           (Path.join (CACHE_DIR settings) (Path.basename (v_url r)))
           dest merge_single callback)
        w1
    ∧ same_but_log w1 w
    ∧ (String.eqb (name self) "libretro" && Str.truthy version = true →
       dest = Path.join (RUNNER_DIR settings) "retroarch/cores"
       ∧ merge_single = false)
    ∧ (String.eqb (name self) "libretro" && Str.truthy version = false →
       Str.contains (name self) "wine" = true →
       dest = Path.join (directory settings self)
                (v_version r +:+ "-" +:+ v_architecture r)
       ∧ merge_single = true)
    ∧ (String.eqb (name self) "libretro" && Str.truthy version = false →
       Str.contains (name self) "wine" = false →
       dest = RUNNER_DIR settings ∧ merge_single = false).
Proof.
  intros Hurl Hres.
  destruct (install_resolution settings LINUX_SYSTEM ext self version
              (DEBUG, install_announcement ext self version (Some d)
                        callback) w)
    as (w1 & Hframe & Hget).
  assert (
    install settings LINUX_SYSTEM ext self version (Some d) callback w =
    download_and_extract settings ext self (v_url r)
      (if String.eqb (name self) "libretro" && Str.truthy version
       then Some (Path.join (RUNNER_DIR settings) "retroarch/cores")
       else if Str.contains (name self) "wine"
            then Some (Path.join (directory settings self)
                         (v_version r +:+ "-" +:+ v_architecture r))
            else None)
      (Some d)
      (if String.eqb (name self) "libretro" && Str.truthy version
       then false
       else if Str.contains (name self) "wine" then true else false)
      callback w1) as Hinstall.
  { unfold install. rewrite Hurl.
    unfold bind at 1. unfold logger at 1. unfold bind at 1.
    rewrite Hget, Hres. cbv zeta.
    destruct (String.eqb (name self) "libretro" && Str.truthy version);
      [done|].
    by destruct (Str.contains (name self) "wine"). }
  rewrite Hinstall. clear Hinstall.
  unfold download_and_extract. cbv zeta.
  destruct (String.eqb (name self) "libretro" && Str.truthy version).
  - eexists _, _, w1. split; [|split; [done|]].
    + rewrite StrFacts.truthy_Some
        by (by apply PathFacts.join_nonempty).
      reflexivity.
    + by repeat split.
  - destruct (Str.contains (name self) "wine").
    + eexists _, _, w1. split; [|split; [done|]].
      * rewrite StrFacts.truthy_Some.
        -- reflexivity.
        -- apply PathFacts.join_nonempty, PathFacts.append_nonempty_r.
           discriminate.
      * by repeat split.
    + eexists _, _, w1. split; [reflexivity|]. split; [done|].
      by repeat split.
Qed.

(** ** Extraction: hooks and callback *)

(** X22. The completion callback is called only after the archive was
    extracted and removed: when the archive is missing, when the
    extractor raises, or when the extractor returns but the archive is no
    longer a regular file, what [extract] does is the same whatever the
    callback, which is never reached. *)
Theorem extract_failure_skips_callback
    (settings : Settings) (ext : Externals) (self : Runner)
    (archive dest : string) (merge_single : bool)
    (callback callback' : option (M unit)) (w : World) :
  fs w !! archive = None
  ∨ (∃ e w1, extract_archive ext archive dest merge_single w = (Raise e, w1))
  ∨ (∃ w1, extract_archive ext archive dest merge_single w = (Ok tt, w1)
           ∧ ∀ c x, fs w1 !! archive ≠ Some (File c x)) →
  extract settings ext self archive dest merge_single callback w =
  extract settings ext self archive dest merge_single callback' w
  ∧ ∃ e w', extract settings ext self archive dest merge_single callback w
            = (Raise e, w').
Proof.
  intros Hfail.
  assert (∃ e w', ∀ cb,
    extract settings ext self archive dest merge_single cb w = (Raise e, w'))
    as (e & w' & Hall).
  { destruct (fs w !! archive) as [n|] eqn:Hpresent.
    - destruct Hfail as [?|[(e & w1 & Hext)|(w1 & Hext & Hgone)]]; [done| |].
      + assert (∃ e' w',
          (try_except (extract_archive ext archive dest merge_single)
             (λ ex, match ex with
                    | ExtractFailure _ =>
                        Some (logger ERROR
                                ("Failed to extract the archive " +:+ archive
                                 +:+ " file may be corrupt") ;;
                              raise (RunnerInstallationError
                                       ("Failed to extract " +:+ archive
                                        +:+ ": " +:+ exn_str ex)
                                       (Some ex)))
                    | _ => None
                    end) w) = (Raise e', w')) as (e' & w' & Htry).
        { unfold try_except. rewrite Hext.
          destruct e; by eexists _, _. }
        exists e', w'. intros cb. unfold extract.
        unfold bind at 1. unfold Os.path_exists at 1.
        rewrite bool_decide_eq_true_2 by eauto. simpl.
        unfold bind at 1. by rewrite Htry.
      + assert (∃ e', Os.remove archive w1 = (Raise e', w1)) as [e' Hrm].
        { unfold Os.remove.
          destruct (fs w1 !! archive) as [[c x|]|] eqn:Hw1; [|by eexists..].
          by destruct (Hgone c x). }
        exists e', w1. intros cb. unfold extract.
        unfold bind at 1. unfold Os.path_exists at 1.
        rewrite bool_decide_eq_true_2 by eauto. simpl.
        unfold bind at 1. unfold try_except. rewrite Hext.
        unfold bind at 1. by rewrite Hrm.
    - eexists _, w. intros cb. unfold extract.
      unfold bind at 1. unfold Os.path_exists at 1.
      rewrite bool_decide_eq_false_2 by (rewrite Hpresent; by intros [? [=]]).
      reflexivity. }
  split; [by rewrite !Hall | by exists e, w'].
Qed.

(** X23. The memoized wine version lookup is cleared by a successful
    extraction exactly for the runner named ["wine"]; for every other
    runner, a name that merely contains ["wine"] included, it is left
    alone. *)
Theorem extract_clears_wine_cache
    (settings : Settings) (ext : Externals) (self : Runner)
    (archive dest : string) (merge_single : bool) (w w1 : World)
    (c : string) (x : bool) :
  is_Some (fs w !! archive) →
  extract_archive ext archive dest merge_single w = (Ok tt, w1) →
  fs w1 !! archive = Some (File c x) →
  ∃ w2,
    extract settings ext self archive dest merge_single None w = (Ok tt, w2)
    ∧ wine_cache_clears w2 =
      (if String.eqb (name self) "wine"
       then S (wine_cache_clears w1) else wine_cache_clears w1)
    ∧ launcher w2 = launcher w1 ∧ dialogs w2 = dialogs w1.
Proof.
  intros Hpresent Hext Hfile.
  unfold extract. unfold bind at 1. unfold Os.path_exists at 1.
  rewrite (bool_decide_eq_true_2 _ Hpresent). simpl.
  unfold bind at 1. unfold try_except. rewrite Hext.
  unfold bind at 1. unfold Os.remove at 1. rewrite Hfile.
  unfold bind at 1.
  destruct (String.eqb (name self) "wine").
  - unfold bind at 1. unfold logger at 1. unfold bind at 1.
    destruct (Str.truthy (runner_executable self)); [|by eexists].
    unfold bind at 1. unfold Os.isfile at 1.
    match goal with
    | |- context [fs ?w0 !! ?p] => destruct (fs w0 !! p) as [[]|]
    end; by eexists.
  - unfold ret at 1. unfold bind at 1.
    destruct (Str.truthy (runner_executable self)); [|by eexists].
    unfold bind at 1. unfold Os.isfile at 1.
    match goal with
    | |- context [fs ?w0 !! ?p] => destruct (fs w0 !! p) as [[]|]
    end; by eexists.
Qed.

(** X24. When the extractor returns but has consumed the archive, the
    removal fails: [extract] raises [FileNotFoundError] for the archive
    in the world the extractor left, although the extraction succeeded,
    and the post-install hooks do not run. *)
Theorem extract_archive_vanished
    (settings : Settings) (ext : Externals) (self : Runner)
    (archive dest : string) (merge_single : bool)
    (callback : option (M unit)) (w w1 : World) :
  is_Some (fs w !! archive) →
  extract_archive ext archive dest merge_single w = (Ok tt, w1) →
  fs w1 !! archive = None →
  extract settings ext self archive dest merge_single callback w =
    (Raise (FileNotFoundError archive), w1).
Proof.
  intros Hpresent Hext Hgone.
  unfold extract. unfold bind at 1. unfold Os.path_exists at 1.
  rewrite (bool_decide_eq_true_2 _ Hpresent). simpl.
  unfold bind at 1. unfold try_except. rewrite Hext.
  unfold bind at 1. unfold Os.remove at 1. by rewrite Hgone.
Qed.

(** ** The install question *)

(** X25. After the user agreed to install, an installation error is not
    propagated by [install_dialog]: its message is shown in an error
    dialog and the result is whatever the installed check then says. Any
    other exception of the installation leaves [install_dialog] as it
    is, with no error dialog. *)
Theorem install_dialog_reports_installation_error
    (settings : Settings) (LINUX_SYSTEM : LinuxSystem) (ext : Externals)
    (self : Runner) (w w1 : World) (e : exn) :
  dialog_result_yes ext = true →
  install settings LINUX_SYSTEM ext self None
    (Some (simple_downloader ext)) None
    (with_dialog (QuestionDialog "Required runner unavailable") w) =
    (Raise e, w1) →
  (∀ m c, e = RunnerInstallationError m c →
          install_dialog settings LINUX_SYSTEM ext self w =
            is_installed settings self (with_dialog (ErrorDialog m) w1))
  ∧ ((∀ m c, e ≠ RunnerInstallationError m c) →
     install_dialog settings LINUX_SYSTEM ext self w = (Raise e, w1)).
Proof.
  intros Hyes Hinstall. split.
  - intros m c ->. unfold install_dialog. rewrite Hyes.
    unfold bind at 1. unfold bind at 1. unfold try_except.
    by rewrite Hinstall.
  - intros Hforeign. unfold install_dialog. rewrite Hyes.
    unfold bind at 1. unfold bind at 1. unfold try_except.
    rewrite Hinstall. destruct e; try done.
    by destruct (Hforeign message cause).
Qed.

(** X26. A run that needs an installation which cannot resolve a version
    (catalog unreachable, empty, or without a suitable build) ends
    quietly: the user agreed, the installation error is shown in an
    error dialog after the question, the runner is still not installed,
    and [run] returns without an exception, with the files and the
    launcher untouched. *)
Theorem run_install_failure_is_silent
    (settings : Settings) (LINUX_SYSTEM : LinuxSystem) (ext : Externals)
    (self : Runner) (w : World) :
  runnable_alone self = true →
  (is_installed settings self w).1 = Ok false →
  dialog_result_yes ext = true →
  Str.truthy (download_url self) = false →
  (get_runner_version settings LINUX_SYSTEM ext self None w).1 = Ok None →
  ∃ w',
    run settings LINUX_SYSTEM ext self w = (Ok tt, w')
    ∧ fs w' = fs w ∧ launcher w' = launcher w
    ∧ dialogs w' =
      (dialogs w ++
       [QuestionDialog "Required runner unavailable";
        ErrorDialog ("Failed to retrieve " +:+ name self
                     +:+ " (None) information")])%list.
Proof.
  intros Halone Hinst Hyes Hurl Hnone.
  set (wq := with_dialog (QuestionDialog "Required runner unavailable") w).
  assert ((get_runner_version settings LINUX_SYSTEM ext self None wq).1
          = Ok None) as Hnone'.
  { by rewrite (proj1 (get_runner_version_world settings LINUX_SYSTEM ext
                         self None wq w)). }
  destruct (install_unresolved settings LINUX_SYSTEM ext self None
              (Some (simple_downloader ext)) None wq Hurl Hnone')
    as (w1 & (Hfs & Hl & Hd & _) & Hinstall).
  set (we := with_dialog
               (ErrorDialog ("Failed to retrieve " +:+ name self
                             +:+ " (None) information")) w1).
  assert (is_installed settings self we = (Ok false, we)) as Hstill.
  { apply is_installed_fst.
    rewrite (is_installed_fs settings self we w); [done|].
    subst we wq. simpl in *. done. }
  assert (install_dialog settings LINUX_SYSTEM ext self w = (Ok false, we))
    as Hdialog.
  { unfold install_dialog. rewrite Hyes.
    unfold bind at 1. unfold bind at 1. unfold try_except.
    fold wq. rewrite Hinstall. exact Hstill. }
  exists (with_log (INFO, "Runner install cancelled") we).
  split.
  - unfold run. rewrite Halone. simpl.
    unfold bind at 1. rewrite (is_installed_fst _ _ _ _ Hinst). simpl.
    unfold bind at 1. unfold bind at 1. by rewrite Hdialog.
  - subst we wq. simpl in *. rewrite Hfs, Hl, Hd.
    split; [done|]. split; [done|]. by rewrite <- app_assoc.
Qed.

(** *** On sample installations *)

Lemma install_fixed_url_ignores_catalog_witness :
  install Sample.settings Sample.linux
    (with_request (λ _, Raise (HTTPError "503 Service Unavailable"))
       (Sample.externals (Ok None) Sample.extract_ok))
    SampleInstall.fixed_url None (Some Sample.store_then_call) None
    Sample.empty_world =
  install Sample.settings Sample.linux
    (Sample.externals (Ok None) Sample.extract_ok)
    SampleInstall.fixed_url None (Some Sample.store_then_call) None
    Sample.empty_world.
Proof.
  apply (install_fixed_url_ignores_catalog Sample.settings Sample.linux
           (Sample.externals (Ok None) Sample.extract_ok)
           SampleInstall.fixed_url None (Some Sample.store_then_call) None
           (λ _, Raise (HTTPError "503 Service Unavailable"))
           Sample.empty_world).
  reflexivity.
Defined.

Lemma install_without_downloader_witness :
  ∃ w1,
    install Sample.settings Sample.linux
      (SampleCatalog.externals_for [Sample.entry_x86_64; Sample.entry_i386])
      SampleCatalog.plain_runner None None None Sample.empty_world =
      (Raise (RuntimeError
                ("Missing mandatory downloader for runner "
                 +:+ "<lutris.runners.zdoom.zdoom object at 0x7f3a5c0d2e80>")),
       w1)
    ∧ fs w1 = ∅ ∧ launcher w1 = [] ∧ dialogs w1 = [].
Proof.
  apply (install_without_downloader Sample.settings Sample.linux
           (SampleCatalog.externals_for
              [Sample.entry_x86_64; Sample.entry_i386])
           SampleCatalog.plain_runner None None Sample.empty_world
           Sample.entry_x86_64).
  - reflexivity.
  - vm_compute. reflexivity.
Defined.

Lemma install_destination_witness :
  ∃ w1,
    install Sample.settings Sample.linux
      (SampleCatalog.externals_for [Sample.entry_x86_64; Sample.entry_i386])
      SampleWine.wine None (Some Sample.store_then_call) None
      Sample.empty_world =
    Sample.store_then_call
      "https://lutris.net/files/r-1.0-x86_64.tar.xz"
      (Path.join "/cache"
         (Path.basename "https://lutris.net/files/r-1.0-x86_64.tar.xz"))
      (extract Sample.settings
         (SampleCatalog.externals_for
            [Sample.entry_x86_64; Sample.entry_i386])
         SampleWine.wine
         (Path.join "/cache"
            (Path.basename "https://lutris.net/files/r-1.0-x86_64.tar.xz"))
         (Path.join "/runners/wine" "1.0-x86_64") true None)
      w1.
Proof.
  destruct (install_destination Sample.settings Sample.linux
              (SampleCatalog.externals_for
                 [Sample.entry_x86_64; Sample.entry_i386])
              SampleWine.wine None Sample.store_then_call None
              Sample.empty_world Sample.entry_x86_64)
    as (dest & ms & w1 & Hinstall & _ & _ & Hwine & _).
  - reflexivity.
  - vm_compute. reflexivity.
  - destruct (Hwine eq_refl eq_refl) as [-> ->].
    exists w1. exact Hinstall.
Defined.

Lemma extract_failure_skips_callback_witness :
  extract Sample.settings
    (Sample.externals (Ok None) Sample.extract_corrupt)
    SampleCatalog.plain_runner "/cache/zdoom.tar.xz" "/runners" false
    (Some SampleWine.notify) SampleRun.downloaded =
  extract Sample.settings
    (Sample.externals (Ok None) Sample.extract_corrupt)
    SampleCatalog.plain_runner "/cache/zdoom.tar.xz" "/runners" false
    None SampleRun.downloaded.
Proof.
  apply (extract_failure_skips_callback Sample.settings
           (Sample.externals (Ok None) Sample.extract_corrupt)
           SampleCatalog.plain_runner "/cache/zdoom.tar.xz" "/runners" false
           (Some SampleWine.notify) None SampleRun.downloaded).
  right; left. by eexists _, _.
Defined.

Lemma extract_clears_wine_cache_witness :
  ∃ w2,
    extract Sample.settings (Sample.externals (Ok None) Sample.extract_ok)
      SampleWine.wine "/cache/zdoom.tar.xz" "/runners" false None
      SampleRun.downloaded = (Ok tt, w2)
    ∧ wine_cache_clears w2 = 1.
Proof.
  destruct (extract_clears_wine_cache Sample.settings
              (Sample.externals (Ok None) Sample.extract_ok)
              SampleWine.wine "/cache/zdoom.tar.xz" "/runners" false
              SampleRun.downloaded
              (with_fs (insert "/runners" Dir) SampleRun.downloaded)
              "archive bytes" false)
    as (w2 & Hrun & Hclears & _).
  - eexists. vm_compute. reflexivity.
  - reflexivity.
  - vm_compute. reflexivity.
  - exists w2. split; [exact Hrun | exact Hclears].
Defined.

Lemma extract_archive_vanished_witness :
  (extract Sample.settings
     (Sample.externals (Ok None) SampleWine.extract_consuming)
     SampleCatalog.plain_runner "/cache/zdoom.tar.xz" "/runners" false
     (Some SampleWine.notify) SampleRun.downloaded).1 =
  Raise (FileNotFoundError "/cache/zdoom.tar.xz").
Proof.
  rewrite (extract_archive_vanished Sample.settings
             (Sample.externals (Ok None) SampleWine.extract_consuming)
             SampleCatalog.plain_runner "/cache/zdoom.tar.xz" "/runners"
             false (Some SampleWine.notify) SampleRun.downloaded
             (with_fs (λ m, <["/runners" := Dir]>
                              (delete "/cache/zdoom.tar.xz" m))
                      SampleRun.downloaded)).
  - reflexivity.
  - eexists. vm_compute. reflexivity.
  - reflexivity.
  - vm_compute. reflexivity.
Defined.

Lemma install_dialog_reports_installation_error_witness :
  ∃ w1,
    install_dialog Sample.settings Sample.linux SampleWine.offline
      SampleRun.needs_present_libs Sample.empty_world =
    is_installed Sample.settings SampleRun.needs_present_libs
      (with_dialog
         (ErrorDialog "Failed to retrieve zdoom (None) information") w1).
Proof.
  destruct (install_unresolved Sample.settings Sample.linux
              SampleWine.offline SampleRun.needs_present_libs None
              (Some (simple_downloader SampleWine.offline)) None
              (with_dialog (QuestionDialog "Required runner unavailable")
                           Sample.empty_world))
    as (w1 & _ & Hinstall).
  - reflexivity.
  - vm_compute. reflexivity.
  - exists w1.
    apply (proj1 (install_dialog_reports_installation_error
                    Sample.settings Sample.linux SampleWine.offline
                    SampleRun.needs_present_libs Sample.empty_world w1 _
                    eq_refl Hinstall) _ None).
    reflexivity.
Defined.

Lemma run_install_failure_is_silent_witness :
  ∃ w',
    run Sample.settings Sample.linux SampleWine.offline
      SampleRun.needs_present_libs Sample.empty_world = (Ok tt, w')
    ∧ launcher w' = []
    ∧ dialogs w' =
      [QuestionDialog "Required runner unavailable";
       ErrorDialog "Failed to retrieve zdoom (None) information"].
Proof.
  destruct (run_install_failure_is_silent Sample.settings Sample.linux
              SampleWine.offline SampleRun.needs_present_libs
              Sample.empty_world)
    as (w' & Hrun & _ & Hl & Hd).
  - reflexivity.
  - vm_compute. reflexivity.
  - reflexivity.
  - reflexivity.
  - vm_compute. reflexivity.
  - exists w'. split; [exact Hrun|]. split; [exact Hl | exact Hd].
Defined.

(** ** Options *)

Section OptionFacts.

Lemma first_option_Some n l item :
  first_option n l = Some item ↔
  ∃ before after,
    l = (before ++ item :: after)%list ∧ opt_option item = n
    ∧ ∀ i, i ∈ before → opt_option i ≠ n.
Proof.
  induction l as [|x l IH]; simpl.
  - split; [done|]. intros (before & after & Hl & _).
    by destruct before.
  - destruct (String.eqb (opt_option x) n) eqn:Hx.
    + apply String.eqb_eq in Hx. split.
      * intros [= <-]. exists [], l. split; [done|]. split; [done|].
        intros i Hi. by apply elem_of_nil in Hi.
      * intros (before & after & Hl & Hitem & Hbefore).
        destruct before as [|b before]; simpl in Hl.
        -- by injection Hl as ->.
        -- injection Hl as <- _. exfalso.
           apply (Hbefore x); [apply list_elem_of_here | done].
    + apply String.eqb_neq in Hx. rewrite IH. split.
      * intros (before & after & -> & Hitem & Hbefore).
        exists (x :: before), after. split; [done|]. split; [done|].
        intros i [-> | Hi]%elem_of_cons; auto.
      * intros (before & after & Hl & Hitem & Hbefore).
        destruct before as [|b before]; simpl in Hl.
        -- injection Hl as -> _. congruence.
        -- injection Hl as <- ->. exists before, after.
           split; [done|]. split; [done|].
           intros i Hi. apply Hbefore. by apply list_elem_of_further.
Qed.

Lemma first_option_None n l :
  first_option n l = None ↔ ∀ i, i ∈ l → opt_option i ≠ n.
Proof.
  induction l as [|x l IH]; simpl.
  - split; [|done]. intros _ i Hi. by apply elem_of_nil in Hi.
  - destruct (String.eqb (opt_option x) n) eqn:Hx.
    + apply String.eqb_eq in Hx. split; [done|].
      intros Hall. exfalso. apply (Hall x); [apply list_elem_of_here|done].
    + apply String.eqb_neq in Hx. rewrite IH. split.
      * intros Hall i [-> | Hi]%elem_of_cons; auto.
      * intros Hall i Hi. apply Hall. by apply list_elem_of_further.
Qed.

Lemma valid_group g :
  bool_decide (g ∈ ["game_options"; "runner_options"]) = true
  ↔ g = "game_options" ∨ g = "runner_options".
Proof.
  rewrite bool_decide_eq_true, elem_of_cons, list_elem_of_singleton.
  done.
Qed.
End OptionFacts.

(** X27. [find_option] returns an item exactly when the group is one of
    the two option groups and the item is the first of that group with
    the given name; it returns nothing exactly when the group is unknown
    or no item of the group has that name. *)
Theorem find_option_first_match
    (schema : RunnerSchema) (options_group option_name : string) :
  (∀ item,
     find_option schema options_group option_name = Some item ↔
     (options_group = "game_options" ∨ options_group = "runner_options")
     ∧ ∃ before after,
         option_group schema options_group = (before ++ item :: after)%list
         ∧ opt_option item = option_name
         ∧ ∀ i, i ∈ before → opt_option i ≠ option_name)
  ∧ (find_option schema options_group option_name = None ↔
     ¬ (options_group = "game_options" ∨ options_group = "runner_options")
     ∨ ∀ i, i ∈ option_group schema options_group →
            opt_option i ≠ option_name).
Proof.
  unfold find_option.
  destruct (bool_decide (options_group ∈ ["game_options"; "runner_options"]))
    eqn:Hvalid; simpl.
  - apply valid_group in Hvalid. split.
    + intros item. rewrite first_option_Some. tauto.
    + rewrite first_option_None. tauto.
  - assert (¬ (options_group = "game_options"
               ∨ options_group = "runner_options")) as Hinvalid.
    { intros H%valid_group. congruence. }
    split.
    + intros item. split; [done|]. tauto.
    + split; auto.
Qed.

(** X28. [get_runner_options] offers the custom executable entry for a
    class that declares an executable, after the class's own entries,
    which it leaves as they are; [find_option] reads the class's list
    and not this one, so it does not find that entry unless the class
    lists one of that name itself. *)
Theorem find_option_misses_custom_executable
    (cls : RunnerClass) (schema : RunnerSchema) :
  Str.truthy (runner_executable cls) = true →
  (∀ i, i ∈ runner_options schema → opt_option i ≠ "runner_executable") →
  get_runner_options cls schema =
    (runner_options schema ++ [custom_executable_option])%list
  ∧ first_option "runner_executable" (get_runner_options cls schema) =
    Some custom_executable_option
  ∧ find_option schema "runner_options" "runner_executable" = None.
Proof.
  intros Hexe Hnone. unfold get_runner_options. rewrite Hexe.
  split; [done|]. split.
  - apply first_option_Some.
    exists (runner_options schema), []. by repeat split.
  - unfold find_option. simpl. by apply first_option_None.
Qed.

(** ** The sidebar row of a runner *)

(** X29. For a row with an identifier, the sidebar offers the "Run"
    button exactly for a runner that can run alone, the "Manage
    Versions" button exactly for one with several versions, and
    "Configure" always, as the last button; a row without identifier has
    no button. For a runner without the "Run" button, [run] would do
    nothing at all. *)
Theorem get_actions_offers_run_iff_runnable
    (settings : Settings) (LINUX_SYSTEM : LinuxSystem) (ext : Externals)
    (self : Runner) (schema : RunnerSchema) (id : option string) :
  (Str.truthy id = false → get_actions id self schema = [])
  ∧ (Str.truthy id = true →
     ((∃ a, a ∈ get_actions id self schema
            ∧ action_handler a = runner_run)
      ↔ runnable_alone self = true)
     ∧ ((∃ a, a ∈ get_actions id self schema
              ∧ action_handler a = on_manage_versions)
        ↔ multiple_versions schema = true)
     ∧ (∃ a, last (get_actions id self schema) = Some a
             ∧ action_handler a = on_configure_runner)
     ∧ ((¬ ∃ a, a ∈ get_actions id self schema
                ∧ action_handler a = runner_run) →
        ∀ w, run settings LINUX_SYSTEM ext self w = (Ok tt, w))).
Proof.
  split.
  - intros Hid. unfold get_actions. by rewrite Hid.
  - intros Hid. unfold get_actions. rewrite Hid. simpl.
    destruct (multiple_versions schema), (runnable_alone self) eqn:Halone;
      simpl.
    + split; [|split; [|split]].
      * split; [done|]. intros _. eexists.
        split; [apply list_elem_of_further, list_elem_of_here | reflexivity].
      * split; [done|]. intros _. eexists.
        split; [apply list_elem_of_here | reflexivity].
      * by eexists.
      * intros Hno. exfalso. apply Hno. eexists.
        split; [apply list_elem_of_further, list_elem_of_here | reflexivity].
    + split; [|split; [|split]].
      * split; [|done]. intros (a & Ha & Hh).
        repeat (apply elem_of_cons in Ha as [-> | Ha]; [done|]).
        by apply elem_of_nil in Ha.
      * split; [done|]. intros _. eexists.
        split; [apply list_elem_of_here | reflexivity].
      * by eexists.
      * intros _ w. unfold run. by rewrite Halone.
    + split; [|split; [|split]].
      * split; [done|]. intros _. eexists.
        split; [apply list_elem_of_here | reflexivity].
      * split; [|done]. intros (a & Ha & Hh).
        repeat (apply elem_of_cons in Ha as [-> | Ha]; [done|]).
        by apply elem_of_nil in Ha.
      * by eexists.
      * intros Hno. exfalso. apply Hno. eexists.
        split; [apply list_elem_of_here | reflexivity].
    + split; [|split; [|split]].
      * split; [|done]. intros (a & Ha & Hh).
        repeat (apply elem_of_cons in Ha as [-> | Ha]; [done|]).
        by apply elem_of_nil in Ha.
      * split; [|done]. intros (a & Ha & Hh).
        repeat (apply elem_of_cons in Ha as [-> | Ha]; [done|]).
        by apply elem_of_nil in Ha.
      * by eexists.
      * intros _ w. unfold run. by rewrite Halone.
Qed.

(** ** Where a game is run *)

Module PathDirFacts.

Lemma split_last_slash_no_slash p :
  PathDir.has_slash p = false → Path.split_last_slash p = ("", p).
Proof.
  induction p as [|c p IH]; [done|].
  simpl. intros [Hc Hp]%orb_false_iff.
  rewrite (IH Hp). simpl. by rewrite Hc.
Qed.

Lemma dirname_no_slash p : PathDir.has_slash p = false → PathDir.dirname p = "".
Proof.
  intros H. unfold PathDir.dirname.
  by rewrite (split_last_slash_no_slash p H).
Qed.

End PathDirFacts.

(** X30. The working directory of a game: the directory stored with the
    game when there is one, whatever the options say; the user's home
    when the runner was given no configuration, and also when the entry
    point has no directory part; and in no case the empty string, as
    long as the home directory is not. *)
Theorem working_dir_cases (ext : Externals) (g : GameContext) :
  (∀ d, game_data g !! "directory" = Some d → d ≠ "" →
        working_dir ext g = d)
  ∧ (Str.truthy (game_data g !! "directory") = false →
     has_explicit_config g = false →
     working_dir ext g = expanduser ext "~/")
  ∧ (Str.truthy (game_data g !! "directory") = false →
     ∀ e, game_config g !! entry_point_option g = Some e →
          PathDir.has_slash (expanduser ext e) = false →
          working_dir ext g = expanduser ext "~/")
  ∧ (expanduser ext "~/" ≠ "" → working_dir ext g ≠ "").
Proof.
  split; [|split; [|split]].
  - intros d Hd Hne. unfold working_dir, game_path.
    rewrite Hd, (StrFacts.truthy_Some d Hne). cbn [Str.show].
    by rewrite (StrFacts.truthy_Some d Hne).
  - intros Hdir Hcfg. unfold working_dir, game_path.
    by rewrite Hdir, Hcfg.
  - intros Hdir e He Hslash. unfold working_dir, game_path.
    rewrite Hdir, He.
    destruct (has_explicit_config g); [|done].
    destruct (Str.truthy (Some e)); [|done]. simpl.
    by rewrite (PathDirFacts.dirname_no_slash _ Hslash).
  - intros Hhome. unfold working_dir.
    destruct (game_path ext g) as [|c s] eqn:Hp; simpl; [done|].
    discriminate.
Qed.

(** *** On a sample schema and sample games *)

Lemma find_option_first_match_witness :
  find_option SampleGame.schema "game_options" "main_file" =
    Some {| opt_option := "main_file"; opt_type := "file";
            opt_label := "ROM file"; opt_advanced := false |}
  ∧ find_option SampleGame.schema "system_options" "main_file" = None.
Proof.
  split.
  - apply (proj1 (find_option_first_match SampleGame.schema
                    "game_options" "main_file")).
    split; [by left|]. eexists [], _. split; [reflexivity|].
    split; [reflexivity|]. intros i Hi. by apply elem_of_nil in Hi.
  - apply (proj2 (find_option_first_match SampleGame.schema
                    "system_options" "main_file")).
    left. intros [H | H]; discriminate H.
Defined.

Lemma find_option_misses_custom_executable_witness :
  first_option "runner_executable"
    (get_runner_options (Sample.runner_class [] (Some "zdoom/zdoom") None)
                        SampleGame.schema) =
    Some custom_executable_option
  ∧ find_option SampleGame.schema "runner_options" "runner_executable" =
    None.
Proof.
  destruct (find_option_misses_custom_executable
              (Sample.runner_class [] (Some "zdoom/zdoom") None)
              SampleGame.schema) as (_ & Hfirst & Hfind).
  - reflexivity.
  - intros i Hi. apply list_elem_of_singleton in Hi as ->. discriminate.
  - split; [exact Hfirst | exact Hfind].
Defined.

Lemma get_actions_offers_run_iff_runnable_witness :
  (∃ a, a ∈ get_actions (Some "zdoom") SampleRun.needs_present_libs
              SampleGame.schema
        ∧ action_handler a = runner_run)
  ∧ ∀ w, run Sample.settings Sample.linux SampleOptions.shell
           SampleWine.wine w = (Ok tt, w).
Proof.
  split.
  - apply (proj1 (proj2 (get_actions_offers_run_iff_runnable
                           Sample.settings Sample.linux SampleOptions.shell
                           SampleRun.needs_present_libs SampleGame.schema
                           (Some "zdoom")) eq_refl)).
    reflexivity.
  - apply (proj2 (proj2 (proj2 (proj2 (get_actions_offers_run_iff_runnable
                           Sample.settings Sample.linux SampleOptions.shell
                           SampleWine.wine SampleGame.schema
                           (Some "wine")) eq_refl)))).
    intros (a & Ha & Hh). simpl in Ha.
    repeat (apply elem_of_cons in Ha as [-> | Ha]; [discriminate Hh|]).
    by apply elem_of_nil in Ha.
Defined.

Lemma working_dir_cases_witness :
  working_dir SampleOptions.shell SampleGame.bare_entry_point =
    "/home/user/".
Proof.
  apply (proj1 (proj2 (proj2 (working_dir_cases SampleOptions.shell
                                SampleGame.bare_entry_point)))
           eq_refl "doom.wad").
  - vm_compute. reflexivity.
  - reflexivity.
Defined.

(** An entry point under the home directory is run from its directory. *)
Example working_dir_of_home_entry_point :
  working_dir SampleOptions.shell SampleGame.home_entry_point =
    "/home/user/games/doom".
Proof. vm_compute. reflexivity. Qed.
